(** * Email provisioning API: access control, token service, control-panel
      client and mailbox reconciliation

    A shallow embedding of
    [email_api/api/{models,permissions,auth,client,main,database}.py] and of
    [ip_geolocate.py], the properties of the specification that were checked
    against it (Part II) and further properties of the code (Part III).

    Conventions of the embedding.
    - A Python [str] is a Rocq [string]; one character is one code point
      below 256, so [len], [==], [[A-Z]], [[a-z]] and [\d] agree with Python.
    - [Optional[T]] is [option T]; [None] is Python's [None].
    - [datetime] values are integers (seconds); every call of
      [datetime.utcnow()] reads the next value of a clock.
    - A handler is a function of the world it runs in: the committed tables,
      the tables as the open session sees them, and the list of effects it
      performed, in the order it performed them. *)

From Stdlib Require Import String Ascii List ZArith Bool Arith Lia.
From Stdlib Require Import SpecFloat.
Import ListNotations.
Open Scope string_scope.
Open Scope Z_scope.

(* ================================================================== *)
(** * Part I: the program *)
(* ================================================================== *)

(** ** Python values and idioms *)

(** Values found in a decoded control-panel response and in a form body. *)
Inductive pyval : Type :=
| VStr (s : string)
| VInt (z : Z)
| VList (l : list string)
| VNone.

Definition pyval_eqb (a b : pyval) : bool :=
  match a, b with
  | VStr x, VStr y => String.eqb x y
  | VInt x, VInt y => Z.eqb x y
  | VList x, VList y =>
      if list_eq_dec string_dec x y then true else false
  | VNone, VNone => true
  | _, _ => false
  end.

(** Truthiness of a [str | None]: [None] and the empty string are falsy. *)
Definition truthy (o : option string) : bool :=
  match o with
  | Some s => negb (String.eqb s "")
  | None => false
  end.

(** [a or b] on [str | None]. *)
Definition py_or (a b : option string) : option string :=
  if truthy a then a else b.

(** [==] on [str | None]. *)
Definition opt_str_eqb (a b : option string) : bool :=
  match a, b with
  | Some x, Some y => String.eqb x y
  | None, None => true
  | _, _ => false
  end.

(** [str(x)] as an f-string renders a [str | None]. *)
Definition py_str (o : option string) : string :=
  match o with
  | Some s => s
  | None => "None"
  end.

(** Decimal rendering of an [int]. *)
Fixpoint digits_of (fuel : nat) (n : N) (acc : string) : string :=
  match fuel with
  | O => acc
  | S fuel' =>
      let d := ascii_of_N (48 + N.modulo n 10) in
      let acc' := String d acc in
      if N.eqb (N.div n 10) 0 then acc' else digits_of fuel' (N.div n 10) acc'
  end.

Definition str_of_Z (z : Z) : string :=
  let n := Z.to_N (Z.abs z) in
  let body := digits_of (S (N.to_nat (N.log2 n))) n "" in
  if z <? 0 then String "-" body else body.

(** ** Exceptions *)

Inductive exn : Type :=
| HTTPException (status_code : Z) (detail : string)
| DirectAdminError (message : pyval) (details : option pyval)
| IntegrityError (msg : string)
| TypeError (msg : string)
| IndexError (msg : string)
| AttributeError (msg : string)
| ValueError (msg : string)
| OverflowError (msg : string).

Definition HTTP_400_BAD_REQUEST : Z := 400.
Definition HTTP_401_UNAUTHORIZED : Z := 401.
Definition HTTP_403_FORBIDDEN : Z := 403.
Definition HTTP_404_NOT_FOUND : Z := 404.
Definition HTTP_409_CONFLICT : Z := 409.
Definition HTTP_500_INTERNAL_SERVER_ERROR : Z := 500.

(** A call either returns or raises. *)
Inductive result (A : Type) : Type :=
| Ok (a : A)
| Raise (e : exn).
Arguments Ok {A} a.
Arguments Raise {A} e.

(** ** models.py *)

Inductive UserRole : Type := ADMIN | DOMAIN_ADMIN | USER.

Definition UserRole_eqb (a b : UserRole) : bool :=
  match a, b with
  | ADMIN, ADMIN | DOMAIN_ADMIN, DOMAIN_ADMIN | USER, USER => true
  | _, _ => false
  end.

Definition UserRole_value (r : UserRole) : string :=
  match r with
  | ADMIN => "admin"
  | DOMAIN_ADMIN => "domain_admin"
  | USER => "user"
  end.

Module User.
Record t : Type := mk {
  id : Z;
  email : string;
  hashed_password : string;
  role : UserRole;
  domain : option string;
  is_active : bool;
  created_at : Z;
  updated_at : Z
}.
End User.

Module EmailAccount.
Record t : Type := mk {
  id : Z;
  username : string;
  domain : string;                 (* nullable=False *)
  quota_mb : Z;
  created_by_user_id : option Z;
  created_at : Z;
  updated_at : Z;
  deleted_at : option Z
}.
End EmailAccount.

(** Modelled from the spec: the [PasswordResetToken] table, which
    [models.py] does not declare; its columns are those that
    [EmailService.generate_reset_token] fills in. *)
Module PasswordResetToken.
Record t : Type := mk {
  token : string;
  user_id : Z;
  expires_at : Z;
  used : bool
}.
End PasswordResetToken.

(** ** permissions.py *)

Definition require_admin (user : User.t) : result unit :=
  if negb (UserRole_eqb (User.role user) ADMIN)
  then Raise (HTTPException HTTP_403_FORBIDDEN "Admin privileges required")
  else Ok tt.

Definition can_access_domain (user : User.t) (domain : option string) : bool :=
  if UserRole_eqb (User.role user) ADMIN then true
  else if UserRole_eqb (User.role user) DOMAIN_ADMIN
       then opt_str_eqb (User.domain user) domain
       else false.

Definition check_domain_access (user : User.t) (domain : option string)
  : result unit :=
  if negb (can_access_domain user domain)
  then Raise (HTTPException HTTP_403_FORBIDDEN
                ("Access denied to domain: " ++ py_str domain))
  else Ok tt.

Definition can_manage_email (user : User.t) (email_domain : option string)
  : bool :=
  can_access_domain user email_domain.

Definition check_domain_param_tampering
  (user : User.t) (requested_domain : option string) : result unit :=
  if UserRole_eqb (User.role user) DOMAIN_ADMIN && truthy requested_domain
  then
    if negb (opt_str_eqb requested_domain (User.domain user))
    then Raise (HTTPException HTTP_403_FORBIDDEN
                  ("Access denied: domain_admin can only access "
                     ++ py_str (User.domain user)))
    else Ok tt
  else Ok tt.

(** The exception that [check_domain_param_tampering] raises. *)
Definition tamper_forbidden (user : User.t) : exn :=
  HTTPException HTTP_403_FORBIDDEN
    ("Access denied: domain_admin can only access "
       ++ py_str (User.domain user)).

Definition get_effective_domain
  (user : User.t) (requested_domain default_domain : option string)
  : option string :=
  if UserRole_eqb (User.role user) DOMAIN_ADMIN
  then py_or (User.domain user) default_domain
  else if UserRole_eqb (User.role user) ADMIN
       then py_or requested_domain default_domain
       else default_domain.

(** ** main.py: password strength *)

Definition in_range (lo hi : N) (c : ascii) : bool :=
  (N.leb lo (N_of_ascii c) && N.leb (N_of_ascii c) hi)%bool.

Definition is_upper : ascii -> bool := in_range 65 90.   (* [A-Z] *)
Definition is_lower : ascii -> bool := in_range 97 122.  (* [a-z] *)
Definition is_digit : ascii -> bool := in_range 48 57.   (* \d *)

(** [re.search] of a one-character class: some character is in the class. *)
Fixpoint re_search (cls : ascii -> bool) (s : string) : bool :=
  match s with
  | EmptyString => false
  | String c s' => if cls c then true else re_search cls s'
  end.

Definition msg_length : string := "Password must be at least 8 characters long".
Definition msg_upper : string :=
  "Password must contain at least one uppercase letter".
Definition msg_lower : string :=
  "Password must contain at least one lowercase letter".
Definition msg_digit : string := "Password must contain at least one number".

Definition validate_password (password : string) : result unit :=
  if (String.length password <? 8)%nat
  then Raise (HTTPException HTTP_400_BAD_REQUEST msg_length)
  else if negb (re_search is_upper password)
  then Raise (HTTPException HTTP_400_BAD_REQUEST msg_upper)
  else if negb (re_search is_lower password)
  then Raise (HTTPException HTTP_400_BAD_REQUEST msg_lower)
  else if negb (re_search is_digit password)
  then Raise (HTTPException HTTP_400_BAD_REQUEST msg_digit)
  else Ok tt.

(** The specification's reading of the same function: an ordered list of
    rules, each with its message; the first rule that fails is reported. *)
Definition password_rules : list ((string -> bool) * string) :=
  [ (fun p => (8 <=? String.length p)%nat, msg_length);
    (re_search is_upper, msg_upper);
    (re_search is_lower, msg_lower);
    (re_search is_digit, msg_digit) ].

Definition first_failing_rule (rules : list ((string -> bool) * string))
  (p : string) : option string :=
  option_map snd (find (fun r => negb (fst r p)) rules).

Definition validate_by_rules (p : string) : result unit :=
  match first_failing_rule password_rules p with
  | Some m => Raise (HTTPException HTTP_400_BAD_REQUEST m)
  | None => Ok tt
  end.

(** ** The environment and the world *)

(** What one [httpx.post] can do: return a response, or raise
    [httpx.RequestError] (connection refused, timeout, DNS failure). *)
Inductive PostOutcome : Type :=
| Response (status_code : Z) (text : string)
| RequestError (msg : string).

(** What the program reads but does not define. *)
Record Env : Type := mkEnv {
  clock : nat -> Z;                 (* n-th reading of datetime.utcnow() *)
  network : nat -> PostOutcome;     (* outcome of the n-th httpx.post *)
  parse_qs : string -> list (string * list string);  (* urllib.parse *)
  getenv : string -> option string; (* os.getenv *)
  pwd_context_hash : string -> string  (* passlib bcrypt *)
}.

Inductive Event : Type :=
| EvQuery (table : string)                       (* session.exec(select) *)
| EvPost (url : string) (data : list (string * pyval))  (* httpx.post *)
| EvSleep (seconds : Z)                          (* time.sleep *)
| EvCommit                                       (* session.commit *)
| EvLog (level : string) (msg : string)          (* logger.* *)
| EvSendMail (to_email : string).                (* email_service *)

Record Database : Type := mkDb {
  users : list User.t;
  email_accounts : list EmailAccount.t;
  password_reset_tokens : list PasswordResetToken.t
}.

Record World : Type := mkWorld {
  db : Database;        (* committed tables *)
  sess : Database;      (* tables as the open session sees them *)
  ticks : nat;          (* clock readings so far *)
  posts : nat;          (* httpx.post calls so far *)
  trace : list Event    (* effects, oldest first *)
}.

(** A request starts with a fresh session over the committed tables. *)
Definition begin_request (d : Database) (t p : nat) : World :=
  mkWorld d d t p [].

(** ** Computations that return or raise, in a world *)

Definition M (A : Type) : Type := World -> result A * World.

Definition ret {A} (a : A) : M A := fun w => (Ok a, w).
Definition raise {A} (e : exn) : M A := fun w => (Raise e, w).
Definition bind {A B} (c : M A) (k : A -> M B) : M B :=
  fun w => match c w with
           | (Ok a, w') => k a w'
           | (Raise e, w') => (Raise e, w')
           end.
Definition lift {A} (r : result A) : M A := fun w => (r, w).
Definition emit (e : Event) : M unit :=
  fun w => (Ok tt, mkWorld (db w) (sess w) (ticks w) (posts w) (trace w ++ [e])).

Declare Scope m_scope.
Delimit Scope m_scope with m.
Notation "x <- c ;; k" := (bind c (fun x => k))
  (at level 61, c at next level, right associativity) : m_scope.
Notation "c ;; k" := (bind c (fun _ => k))
  (at level 61, right associativity) : m_scope.
Open Scope m_scope.

Definition utcnow (env : Env) : M Z :=
  fun w => (Ok (clock env (ticks w)),
            mkWorld (db w) (sess w) (S (ticks w)) (posts w) (trace w)).

Definition httpx_post (env : Env) (url : string) (data : list (string * pyval))
  : M PostOutcome :=
  fun w => (Ok (network env (posts w)),
            mkWorld (db w) (sess w) (ticks w) (S (posts w))
                    (trace w ++ [EvPost url data])).

Definition sleep (seconds : Z) : M unit := emit (EvSleep seconds).

(** ** client.py *)

Definition dict : Type := list (string * pyval).

Fixpoint dict_get {V : Type} (d : list (string * V)) (k : string)
  : option V :=
  match d with
  | [] => None
  | (k', v) :: d' => if String.eqb k' k then Some v else dict_get d' k
  end.

(** [d[k] = v]: overwrite in place, or add at the end. *)
Fixpoint dict_set {V : Type} (d : list (string * V)) (k : string) (v : V)
  : list (string * V) :=
  match d with
  | [] => [(k, v)]
  | (k', v') :: d' =>
      if String.eqb k' k then (k', v) :: d' else (k', v') :: dict_set d' k v
  end.

Definition dict_get_default (d : dict) (k : string) (dflt : pyval) : pyval :=
  match dict_get d k with
  | Some v => v
  | None => dflt
  end.

Module DirectAdminClient.

Record t : Type := mk {
  host : string;
  user : option string;
  key : option string;
  domain : option string
}.

(** [value[0] if len(value) == 1 else value] *)
Definition flatten_value (value : list string) : pyval :=
  match value with
  | [x] => VStr x
  | _ => VList value
  end.

Definition flatten (parsed : list (string * list string)) : dict :=
  fold_left (fun result kv => dict_set result (fst kv) (flatten_value (snd kv)))
            parsed [].

Definition is_error_1 (result : dict) : bool :=
  match dict_get result "error" with
  | Some v => pyval_eqb v (VStr "1")
  | None => false
  end.

Definition _parse_response (env : Env) (response_text : string)
  : result dict :=
  let parsed := parse_qs env response_text in
  let result := flatten parsed in
  if is_error_1 result
  then Raise (DirectAdminError
                (dict_get_default result "text" (VStr "Unknown error"))
                (dict_get result "details"))
  else Ok result.

(** [response.raise_for_status()] passes exactly the 2xx codes. *)
Definition is_success (status_code : Z) : bool :=
  (200 <=? status_code) && (status_code <=? 299).

(** The body of [for attempt in range(max_retries)], from [attempt] on,
    with [remaining] iterations left. *)
Fixpoint attempts (env : Env) (url : string) (params : dict)
  (max_retries attempt remaining : nat) : M dict :=
  match remaining with
  | O => raise (DirectAdminError (VStr "Max retries exceeded") None)
  | S remaining' =>
      o <- httpx_post env url params ;;
      match o with
      | Response status_code text =>
          if is_success status_code
          then lift (_parse_response env text)
          else
            if Nat.eqb attempt (max_retries - 1)
            then raise (DirectAdminError
                          (VStr ("HTTP " ++ str_of_Z status_code))
                          (Some (VStr text)))
            else sleep (2 ^ Z.of_nat attempt) ;;
                 attempts env url params max_retries (S attempt) remaining'
      | RequestError msg =>
          if Nat.eqb attempt (max_retries - 1)
          then raise (DirectAdminError (VStr "Network error")
                                       (Some (VStr msg)))
          else sleep (2 ^ Z.of_nat attempt) ;;
               attempts env url params max_retries (S attempt) remaining'
      end
  end.

Definition _make_request (env : Env) (self : t) (endpoint : string)
  (params : dict) (max_retries : nat) : M dict :=
  let url := host self ++ "/" ++ endpoint in
  attempts env url params max_retries 0 max_retries.

Definition default_max_retries : nat := 3.

Definition opt_val (o : option string) : pyval :=
  match o with
  | Some s => VStr s
  | None => VNone
  end.

Definition list_emails (env : Env) (self : t) : M (list string) :=
  response <- _make_request env self "CMD_API_POP"
                [("action", VStr "list"); ("domain", opt_val (domain self))]
                default_max_retries ;;
  let users :=
    dict_get_default response "list[]"
      (dict_get_default response "list" (VList [])) in
  ret match users with
      | VStr u => [u]
      | VList l => l
      | _ => []
      end.

Definition create_email (env : Env) (self : t)
  (username password : string) (quota_mb : Z) : M unit :=
  _make_request env self "CMD_API_POP"
    [("action", VStr "create"); ("domain", opt_val (domain self));
     ("user", VStr username); ("passwd", VStr password);
     ("passwd2", VStr password); ("quota", VInt quota_mb)]
    default_max_retries ;;
  ret tt.

Definition delete_email (env : Env) (self : t) (username : string)
  : M bool :=
  _make_request env self "CMD_API_POP"
    [("action", VStr "delete"); ("domain", opt_val (domain self));
     ("user", VStr username)]
    default_max_retries ;;
  ret true.

Definition change_password (env : Env) (self : t)
  (username new_password : string) : M bool :=
  _make_request env self "CMD_CHANGE_EMAIL_PASSWORD"
    [("email", VStr username); ("domain", opt_val (domain self));
     ("passwd", VStr new_password); ("passwd2", VStr new_password)]
    default_max_retries ;;
  ret true.

(** A call [self.change_password(a1, ..., an)] with positional arguments:
    Python binds two of them to [username] and [new_password] and raises
    [TypeError] before the body runs for any other count.  (Both call
    sites pass strings in the first two places.) *)
Definition call_change_password (env : Env) (self : t) (args : list pyval)
  : M bool :=
  match args with
  | [VStr username; VStr new_password] =>
      change_password env self username new_password
  | _ =>
      raise (TypeError
        ("DirectAdminClient.change_password() takes 3 positional arguments but "
           ++ str_of_Z (1 + Z.of_nat (List.length args)) ++ " were given"))
  end.

End DirectAdminClient.

(** ** The session over the [email_accounts] table *)

Definition set_sess (d : Database) : M unit :=
  fun w => (Ok tt, mkWorld (db w) d (ticks w) (posts w) (trace w)).
Definition get_sess : M Database := fun w => (Ok (sess w), w).

Definition with_emails (d : Database) (rows : list EmailAccount.t) : Database :=
  mkDb (users d) rows (password_reset_tokens d).
Definition with_users (d : Database) (rows : list User.t) : Database :=
  mkDb rows (email_accounts d) (password_reset_tokens d).
Definition with_tokens (d : Database) (rows : list PasswordResetToken.t)
  : Database :=
  mkDb (users d) (email_accounts d) rows.

Definition is_active_row (r : EmailAccount.t) : bool :=
  match EmailAccount.deleted_at r with
  | None => true
  | Some _ => false
  end.

(** [WHERE username == u AND domain == d]; comparing the non-null column
    [domain] with [None] selects nothing. *)
Definition same_mailbox (username : string) (domain : option string)
  (r : EmailAccount.t) : bool :=
  String.eqb (EmailAccount.username r) username
  && opt_str_eqb (Some (EmailAccount.domain r)) domain.

(** [session.exec(select(EmailAccount).where(...)).first()], with
    [deleted_at IS NULL] added when [active_only]. *)
Definition selects (username : string) (domain : option string)
  (active_only : bool) (r : EmailAccount.t) : bool :=
  same_mailbox username domain r
  && (if active_only then is_active_row r else true).

Definition select_email (username : string) (domain : option string)
  (active_only : bool) : M (option EmailAccount.t) :=
  emit (EvQuery "email_accounts") ;;
  d <- get_sess ;;
  ret (find (selects username domain active_only) (email_accounts d)).

(** [select(EmailAccount).where(domain == d, deleted_at IS NULL).all()] *)
Definition active_in (domain : option string) (r : EmailAccount.t) : bool :=
  opt_str_eqb (Some (EmailAccount.domain r)) domain && is_active_row r.

Definition select_active_emails (domain : option string)
  : M (list EmailAccount.t) :=
  emit (EvQuery "email_accounts") ;;
  d <- get_sess ;;
  ret (filter (active_in domain) (email_accounts d)).

(** The integer primary key of a new row: one more than the largest. *)
Definition next_id (rows : list EmailAccount.t) : Z :=
  1 + fold_right Z.max 0 (map EmailAccount.id rows).

(** [EmailAccount(username=..., domain=..., quota_mb=..., created_by_user_id=...)]
    followed by [session.add] and the flush that sends the INSERT: the two
    timestamp defaults read the clock, [domain] must not be null, and
    [uq_username_domain] rejects a second row for the same
    (username, domain), deleted or not. *)
Definition add_email (env : Env) (username : string) (domain : option string)
  (quota_mb : Z) (created_by_user_id : option Z) : M EmailAccount.t :=
  created <- utcnow env ;;
  updated <- utcnow env ;;
  d <- get_sess ;;
  match domain with
  | None =>
      raise (IntegrityError "NOT NULL constraint failed: email_accounts.domain")
  | Some dom =>
      if existsb (same_mailbox username domain) (email_accounts d)
      then raise (IntegrityError
        "UNIQUE constraint failed: email_accounts.username, email_accounts.domain")
      else
        let r := EmailAccount.mk (next_id (email_accounts d)) username dom
                   quota_mb created_by_user_id created updated None in
        set_sess (with_emails d (email_accounts d ++ [r])) ;;
        ret r
  end.

(** [UPDATE email_accounts SET ... WHERE id = ?] *)
Definition update_rows (id : Z) (f : EmailAccount.t -> EmailAccount.t)
  (rows : list EmailAccount.t) : list EmailAccount.t :=
  map (fun r => if EmailAccount.id r =? id then f r else r) rows.

(** Assigning to attributes of a loaded row: the UPDATE goes by primary key. *)
Definition update_email (id : Z) (f : EmailAccount.t -> EmailAccount.t)
  : M unit :=
  d <- get_sess ;;
  set_sess (with_emails d (update_rows id f (email_accounts d))).

Definition set_deleted_at (v : option Z) (r : EmailAccount.t) : EmailAccount.t :=
  EmailAccount.mk (EmailAccount.id r) (EmailAccount.username r)
    (EmailAccount.domain r) (EmailAccount.quota_mb r)
    (EmailAccount.created_by_user_id r) (EmailAccount.created_at r)
    (EmailAccount.updated_at r) v.

Definition set_updated_at (v : Z) (r : EmailAccount.t) : EmailAccount.t :=
  EmailAccount.mk (EmailAccount.id r) (EmailAccount.username r)
    (EmailAccount.domain r) (EmailAccount.quota_mb r)
    (EmailAccount.created_by_user_id r) (EmailAccount.created_at r)
    v (EmailAccount.deleted_at r).

Definition commit : M unit :=
  fun w => (Ok tt, mkWorld (sess w) (sess w) (ticks w) (posts w)
                           (trace w ++ [EvCommit])).

(** ** main.py: mailbox endpoints *)

Definition quote (s : string) : string := "'" ++ s ++ "'".

(** [str(v)]; a list prints as Python prints a list of plain strings. *)
Definition str_of_pyval (v : pyval) : string :=
  match v with
  | VStr s => s
  | VInt z => str_of_Z z
  | VList l => "[" ++ String.concat ", " (map quote l) ++ "]"
  | VNone => "None"
  end.

(** Truthiness of a value. *)
Definition pyval_truthy (v : pyval) : bool :=
  match v with
  | VStr s => negb (String.eqb s "")
  | VInt z => negb (z =? 0)
  | VList l => match l with [] => false | _ => true end
  | VNone => false
  end.

(** [str(e)]; [DirectAdminError] prints ["{message}: {details}"] when it has
    details, and an [HTTPException] prints its status before its detail. *)
Definition str_of_exn (e : exn) : string :=
  match e with
  | HTTPException status_code detail =>
      str_of_Z status_code ++ ": " ++ detail
  | DirectAdminError message (Some details) =>
      if pyval_truthy details
      then str_of_pyval message ++ ": " ++ str_of_pyval details
      else str_of_pyval message
  | DirectAdminError message None => str_of_pyval message
  | IntegrityError msg | TypeError msg | IndexError msg
  | AttributeError msg | ValueError msg | OverflowError msg => msg
  end.

(** [e.detail] of the [HTTPException] that [validate_password] raises. *)
Definition detail_of (e : exn) : string :=
  match e with
  | HTTPException _ detail => detail
  | _ => str_of_exn e
  end.

(** The three [except] clauses that close every mailbox endpoint. *)
Definition translate_exn (e : exn) : exn :=
  match e with
  | DirectAdminError message _ =>
      HTTPException HTTP_500_INTERNAL_SERVER_ERROR
        ("DirectAdmin error: " ++ str_of_pyval message)
  | HTTPException status_code detail => HTTPException status_code detail
  | _ => HTTPException HTTP_500_INTERNAL_SERVER_ERROR (str_of_exn e)
  end.

Definition try_endpoint {A} (body : M A) : M A :=
  fun w => match body w with
           | (Ok a, w') => (Ok a, w')
           | (Raise e, w') => (Raise (translate_exn e), w')
           end.

(** [s.rstrip("/")] *)
Fixpoint rstrip_slash (s : string) : string :=
  match s with
  | EmptyString => EmptyString
  | String c s' =>
      let r := rstrip_slash s' in
      if Ascii.eqb c "/" && String.eqb r "" then EmptyString else String c r
  end.

(** [DirectAdminClient(host=..., user=..., key=..., domain=...)] *)
Definition new_client (env : Env) (host : string) (domain : option string)
  : DirectAdminClient.t :=
  DirectAdminClient.mk (rstrip_slash host) (getenv env "DIRECTADMIN_USER")
    (getenv env "DIRECTADMIN_KEY") domain.

Definition get_da_client (env : Env) (domain : option string)
  : M DirectAdminClient.t :=
  match getenv env "DIRECTADMIN_HOST" with
  | None => raise (AttributeError "'NoneType' object has no attribute 'rstrip'")
  | Some host => ret (new_client env host domain)
  end.

(** One turn of the loop [for da_email in da_emails]. *)
Definition sync_one (env : Env) (effective_domain : option string)
  (username : string) : M unit :=
  found <- select_email username effective_domain false ;;
  db_email <- match found with
              | None => add_email env username effective_domain 1000 None
              | Some r => ret r
              end ;;
  match EmailAccount.deleted_at db_email with
  | Some _ =>
      update_email (EmailAccount.id db_email) (set_deleted_at None) ;;
      now <- utcnow env ;;
      update_email (EmailAccount.id db_email) (set_updated_at now)
  | None => ret tt
  end.

Fixpoint sync_all (env : Env) (effective_domain : option string)
  (da_emails : list string) : M unit :=
  match da_emails with
  | [] => ret tt
  | username :: rest =>
      sync_one env effective_domain username ;;
      sync_all env effective_domain rest
  end.

(** The reconciliation pass of [list_emails]: the loop, the commit and the
    final query for the active rows of the domain. *)
Definition sync_domain (env : Env) (effective_domain : option string)
  (da_emails : list string) : M (list EmailAccount.t) :=
  sync_all env effective_domain da_emails ;;
  commit ;;
  select_active_emails effective_domain.

Definition list_emails (env : Env) (current_user : User.t)
  (domain : option string) : M (list EmailAccount.t) :=
  try_endpoint (
    lift (check_domain_param_tampering current_user domain) ;;
    let default_domain := getenv env "DEFAULT_DOMAIN" in
    let effective_domain :=
      get_effective_domain current_user domain default_domain in
    lift (check_domain_access current_user effective_domain) ;;
    client <- get_da_client env effective_domain ;;
    da_emails <- DirectAdminClient.list_emails env client ;;
    sync_domain env effective_domain da_emails).

Module CreateEmailRequest.
Record t : Type := mk {
  username : string;
  password : string;
  quota_mb : Z;
  domain : option string
}.
End CreateEmailRequest.

(** [request.notify_email]: [CreateEmailRequest] declares no such field, so
    reading it raises. *)
Definition request_notify_email : M (option string) :=
  raise (AttributeError
           "'CreateEmailRequest' object has no attribute 'notify_email'").

Definition create_email (env : Env) (request : CreateEmailRequest.t)
  (current_user : User.t) : M EmailAccount.t :=
  try_endpoint (
    lift (validate_password (CreateEmailRequest.password request)) ;;
    lift (check_domain_param_tampering current_user
            (CreateEmailRequest.domain request)) ;;
    let default_domain := getenv env "DEFAULT_DOMAIN" in
    let effective_domain :=
      get_effective_domain current_user (CreateEmailRequest.domain request)
        default_domain in
    lift (check_domain_access current_user effective_domain) ;;
    client <- get_da_client env effective_domain ;;
    existing <- select_email (CreateEmailRequest.username request)
                  effective_domain true ;;
    match existing with
    | Some _ =>
        raise (HTTPException HTTP_409_CONFLICT
                 ("Email " ++ CreateEmailRequest.username request ++ "@"
                    ++ py_str effective_domain ++ " already exists"))
    | None =>
        DirectAdminClient.create_email env client
          (CreateEmailRequest.username request)
          (CreateEmailRequest.password request)
          (CreateEmailRequest.quota_mb request) ;;
        db_email <- add_email env (CreateEmailRequest.username request)
                      effective_domain (CreateEmailRequest.quota_mb request)
                      (Some (User.id current_user)) ;;
        commit ;;
        emit (EvQuery "email_accounts") ;;        (* session.refresh *)
        notify_email <- request_notify_email ;;
        (if truthy notify_email
         then emit (EvSendMail (py_str notify_email))
         else ret tt) ;;
        ret db_email
    end).

Definition delete_email (env : Env) (username : string)
  (current_user : User.t) (domain : option string) : M string :=
  try_endpoint (
    lift (check_domain_param_tampering current_user domain) ;;
    let default_domain := getenv env "DEFAULT_DOMAIN" in
    let effective_domain :=
      get_effective_domain current_user domain default_domain in
    lift (check_domain_access current_user effective_domain) ;;
    client <- get_da_client env effective_domain ;;
    found <- select_email username effective_domain true ;;
    match found with
    | None =>
        raise (HTTPException HTTP_404_NOT_FOUND
                 ("Email " ++ username ++ "@" ++ py_str effective_domain
                    ++ " not found"))
    | Some db_email =>
        DirectAdminClient.delete_email env client username ;;
        t1 <- utcnow env ;;
        update_email (EmailAccount.id db_email) (set_deleted_at (Some t1)) ;;
        t2 <- utcnow env ;;
        update_email (EmailAccount.id db_email) (set_updated_at t2) ;;
        commit ;;
        ret ("Email " ++ username ++ "@" ++ py_str effective_domain
               ++ " deleted successfully")
    end).

Definition change_password (env : Env) (username new_password : string)
  (current_user : User.t) (domain : option string) : M string :=
  try_endpoint (
    lift (validate_password new_password) ;;
    lift (check_domain_param_tampering current_user domain) ;;
    let default_domain := getenv env "DEFAULT_DOMAIN" in
    let effective_domain :=
      get_effective_domain current_user domain default_domain in
    lift (check_domain_access current_user effective_domain) ;;
    client <- get_da_client env effective_domain ;;
    found <- select_email username effective_domain true ;;
    match found with
    | None =>
        raise (HTTPException HTTP_404_NOT_FOUND
                 ("Email " ++ username ++ "@" ++ py_str effective_domain
                    ++ " not found"))
    | Some db_email =>
        DirectAdminClient.change_password env client username new_password ;;
        now <- utcnow env ;;
        update_email (EmailAccount.id db_email) (set_updated_at now) ;;
        commit ;;
        ret ("Password updated for " ++ username ++ "@"
               ++ py_str effective_domain)
    end).

(** ** main.py: password reset *)

Inductive HTMLResponse : Type :=
| TemplateResponse (name : string) (context : list (string * option string))
| RedirectResponse (url : string) (status_code : Z).

Definition select_reset_token (token : string)
  : M (option PasswordResetToken.t) :=
  emit (EvQuery "password_reset_tokens") ;;
  d <- get_sess ;;
  ret (find (fun r => String.eqb (PasswordResetToken.token r) token)
            (password_reset_tokens d)).

Definition select_user (id : Z) : M (option User.t) :=
  emit (EvQuery "users") ;;
  d <- get_sess ;;
  ret (find (fun u => User.id u =? id) (users d)).

Definition update_user (id : Z) (f : User.t -> User.t) : M unit :=
  d <- get_sess ;;
  set_sess (with_users d
    (map (fun u => if User.id u =? id then f u else u) (users d))).

(** Change the first row that satisfies [p]: the row [.first()] returned. *)
Fixpoint update_first {A} (p : A -> bool) (f : A -> A) (l : list A) : list A :=
  match l with
  | [] => []
  | x :: l' => if p x then f x :: l' else x :: update_first p f l'
  end.

Definition mark_token_used (token : string) : M unit :=
  d <- get_sess ;;
  set_sess (with_tokens d
    (update_first (fun r => String.eqb (PasswordResetToken.token r) token)
       (fun r => PasswordResetToken.mk (PasswordResetToken.token r)
                   (PasswordResetToken.user_id r)
                   (PasswordResetToken.expires_at r) true)
       (password_reset_tokens d))).

Definition set_hashed_password (hashed : string) (u : User.t) : User.t :=
  User.mk (User.id u) (User.email u) hashed (User.role u) (User.domain u)
    (User.is_active u) (User.created_at u) (User.updated_at u).

Definition set_user_updated_at (now : Z) (u : User.t) : User.t :=
  User.mk (User.id u) (User.email u) (User.hashed_password u) (User.role u)
    (User.domain u) (User.is_active u) (User.created_at u) now.

Definition double_quoted (s : string) : string :=
  String (ascii_of_nat 34) s ++ String (ascii_of_nat 34) "".

(** What the model class answers to the assignment of an attribute that it
    does not declare. *)
Definition no_such_field (class field : string) : exn :=
  ValueError (double_quoted class ++ " object has no field "
                ++ double_quoted field).

(** [user.must_change_password = False]: [User] declares no such field, and
    the assignment raises. *)
Definition set_must_change_password (value : bool) : M unit :=
  raise (no_such_field "User" "must_change_password").

(** [s.split(sep)] for a one-character separator. *)
Fixpoint split (sep : ascii) (s : string) : list string :=
  match s with
  | EmptyString => [EmptyString]
  | String c s' =>
      if Ascii.eqb c sep then EmptyString :: split sep s'
      else match split sep s' with
           | h :: t => String c h :: t
           | [] => [String c EmptyString]
           end
  end.

(** [l[i]] *)
Definition index (l : list string) (i : nat) : M string :=
  match nth_error l i with
  | Some x => ret x
  | None => raise (IndexError "list index out of range")
  end.

(** [try: body except Exception as e: handler(e)] *)
Definition try_except {A} (body : M A) (handler : exn -> M A) : M A :=
  fun w => match body w with
           | (Ok a, w') => (Ok a, w')
           | (Raise e, w') => handler e w'
           end.

Definition invalid_request : HTMLResponse :=
  TemplateResponse "reset_error.html"
    [("title", Some "Invalid Request");
     ("message", Some "This password reset link is no longer valid.")].

Definition reset_form_error (token error : string) : HTMLResponse :=
  TemplateResponse "reset_password.html"
    [("token", Some token); ("error", Some error)].

Definition user_not_found : HTMLResponse :=
  TemplateResponse "reset_error.html"
    [("title", Some "User Not Found");
     ("message", Some "Associated user account not found.")].

Definition getenv_default (env : Env) (name dflt : string) : string :=
  match getenv env name with
  | Some v => v
  | None => dflt
  end.

(** The block under [if user.domain:], inside its [try]. *)
Definition update_directadmin_password (env : Env) (user : User.t)
  (new_password : string) : M unit :=
  username <- index (split "@" (User.email user)) 0 ;;
  domain <- index (split "@" (User.email user)) 1 ;;
  email_account <- select_email username (Some domain) true ;;
  match email_account with
  | Some account =>
      client <- get_da_client env (Some domain) ;;
      DirectAdminClient.call_change_password env client
        [VStr username; VStr new_password;
         VInt (EmailAccount.quota_mb account)] ;;
      emit (EvLog "info" ("Also updated DirectAdmin password for email "
                            ++ User.email user))
  | None => ret tt
  end.

Definition process_reset_password (env : Env)
  (token new_password confirm_password : string) : M HTMLResponse :=
  reset_token <- select_reset_token token ;;
  match reset_token with
  | None => ret invalid_request
  | Some rt =>
    if PasswordResetToken.used rt then ret invalid_request else
    now <- utcnow env ;;
    if PasswordResetToken.expires_at rt <? now then ret invalid_request else
    if negb (String.eqb new_password confirm_password)
    then ret (reset_form_error token "Passwords do not match") else
    match validate_password new_password with
    | Raise e => ret (reset_form_error token (detail_of e))
    | Ok _ =>
      found <- select_user (PasswordResetToken.user_id rt) ;;
      match found with
      | None => ret user_not_found
      | Some user =>
        update_user (User.id user)
          (set_hashed_password (pwd_context_hash env new_password)) ;;
        set_must_change_password false ;;
        updated <- utcnow env ;;
        update_user (User.id user) (set_user_updated_at updated) ;;
        (if truthy (User.domain user)
         then try_except (update_directadmin_password env user new_password)
                (fun e => emit (EvLog "warning"
                   ("Failed to update DirectAdmin password for "
                      ++ User.email user ++ ": " ++ str_of_exn e)))
         else ret tt) ;;
        mark_token_used token ;;
        commit ;;
        emit (EvLog "info" ("Password reset successful for user "
                              ++ User.email user)) ;;
        let domain :=
          match split "@" (User.email user) with
          | _ :: d :: _ => d
          | _ => getenv_default env "DEFAULT_DOMAIN" "xseller.io"
          end in
        let webmail_url :=
          getenv_default env "WEBMAIL_URL" ("https://webmail." ++ domain) in
        ret (RedirectResponse (webmail_url ++ "?message=password_changed") 302)
      end
    end
  end.

(** ** auth.py: the token service *)

Inductive claim_value : Type :=
| CInt (z : Z)
| CStr (s : string)
| CDatetime (t : Z).

Definition claims : Type := list (string * claim_value).

(** The exceptions of [jose] that [JWTError] covers. *)
Inductive JWTErrorKind : Type :=
| JWTError                 (* bad signature, malformed token *)
| ExpiredSignatureError    (* exp in the past *)
| JWTClaimsError.          (* a claim of the wrong form *)

(** The two functions of the [jose] library that [auth.py] calls.
    [jwt_decode] also takes the reading of the clock it validates
    [exp] against. *)
Record Jose : Type := mkJose {
  jwt_encode : claims -> string -> string -> string;
  jwt_decode : string -> string -> list string -> Z
               -> claims + JWTErrorKind
}.

Record AuthConfig : Type := mkAuthConfig {
  JWT_SECRET : string;
  JWT_EXPIRE_MINUTES : Z
}.

Definition JWT_ALGORITHM : string := "HS256".

(** [timedelta(minutes=m)], in seconds. *)
Definition minutes (m : Z) : Z := 60 * m.

(** Truthiness of a [timedelta | None]: [None] and the zero span are falsy. *)
Definition truthy_delta (d : option Z) : bool :=
  match d with
  | Some x => negb (x =? 0)
  | None => false
  end.

Definition create_access_token (env : Env) (J : Jose) (cfg : AuthConfig)
  (data : claims) (expires_delta : option Z) : M string :=
  let to_encode := data in
  now <- utcnow env ;;
  let expire :=
    if truthy_delta expires_delta
    then now + match expires_delta with Some d => d | None => 0 end
    else now + minutes (JWT_EXPIRE_MINUTES cfg) in
  let to_encode := dict_set to_encode "exp" (CDatetime expire) in
  ret (jwt_encode J to_encode (JWT_SECRET cfg) JWT_ALGORITHM).

Definition credentials_exception : exn :=
  HTTPException HTTP_401_UNAUTHORIZED "Could not validate credentials".

Definition decode_access_token (env : Env) (J : Jose) (cfg : AuthConfig)
  (token : string) : M claims :=
  now <- utcnow env ;;
  match jwt_decode J token (JWT_SECRET cfg) [JWT_ALGORITHM] now with
  | inl payload => ret payload
  | inr _ => raise credentials_exception
  end.

(** What [login] puts in a token. *)
Definition token_data (user_id : Z) (email role : string) : claims :=
  [("user_id", CInt user_id); ("email", CStr email); ("role", CStr role)].

(** The time to live that [create_access_token] applies. *)
Definition effective_ttl (cfg : AuthConfig) (expires_delta : option Z) : Z :=
  match expires_delta with
  | Some d => if d =? 0 then minutes (JWT_EXPIRE_MINUTES cfg) else d
  | None => minutes (JWT_EXPIRE_MINUTES cfg)
  end.

(** [jose] writes a [datetime] claim as its integer timestamp. *)
Definition as_timestamp (v : claim_value) : claim_value :=
  match v with
  | CDatetime t => CInt t
  | _ => v
  end.

Definition to_timestamps (c : claims) : claims :=
  map (fun kv => (fst kv, as_timestamp (snd kv))) c.

(** What the service relies on from [jose] for the claims [c] it signs with
    [key] and [alg]: the token decodes, under the same key and algorithm, to
    those claims while the clock is before [exp], and raises
    [ExpiredSignatureError] once the clock is past [exp]. *)
Definition jose_contract (J : Jose) (c : claims) (key alg : string) : Prop :=
  forall exp now : Z,
    dict_get c "exp" = Some (CDatetime exp) ->
    (now < exp ->
     jwt_decode J (jwt_encode J c key alg) key [alg] now
     = inl (to_timestamps c)) /\
    (exp < now ->
     jwt_decode J (jwt_encode J c key alg) key [alg] now
     = inr ExpiredSignatureError).

(** The claims that [create_access_token] signs for [login]. *)
Definition signed_claims (user_id : Z) (email role : string) (expiry : Z)
  : claims :=
  dict_set (token_data user_id email role) "exp" (CDatetime expiry).

(** ** Library models used to run the program on concrete inputs *)

Definition hex_digit (c : ascii) : option N :=
  let n := N_of_ascii c in
  if in_range 48 57 c then Some (n - 48)%N
  else if in_range 65 70 c then Some (n - 55)%N
  else if in_range 97 102 c then Some (n - 87)%N
  else None.

(** [unquote(s.replace('+', ' '))] on code points below 256. *)
Fixpoint unquote_plus (s : string) : string :=
  match s with
  | EmptyString => EmptyString
  | String c s' =>
      if Ascii.eqb c "+" then String " " (unquote_plus s')
      else if Ascii.eqb c "%" then
        match s' with
        | String h (String l r) =>
            match hex_digit h, hex_digit l with
            | Some a, Some b =>
                String (ascii_of_N (16 * a + b)) (unquote_plus r)
            | _, _ => String c (unquote_plus s')
            end
        | _ => String c (unquote_plus s')
        end
      else String c (unquote_plus s')
  end.

(** [s.split('=', 1)] *)
Fixpoint split_once (sep : ascii) (s : string) : option (string * string) :=
  match s with
  | EmptyString => None
  | String c s' =>
      if Ascii.eqb c sep then Some (EmptyString, s')
      else match split_once sep s' with
           | Some (a, b) => Some (String c a, b)
           | None => None
           end
  end.

(** [urllib.parse.parse_qsl] with its defaults: fields without [=] and
    fields with a blank value are dropped. *)
Definition parse_qsl_model (query : string) : list (string * string) :=
  flat_map (fun name_value =>
              match split_once "=" name_value with
              | Some (n, v) =>
                  if String.eqb v "" then []
                  else [(unquote_plus n, unquote_plus v)]
              | None => []
              end)
           (split "&" query).

(** [urllib.parse.parse_qs]: values of a repeated name are collected in
    order under the name's first occurrence. *)
Definition parse_qs_model (query : string) : list (string * list string) :=
  fold_left (fun (parsed : list (string * list string)) nv =>
               match dict_get parsed (fst nv) with
               | Some vs => dict_set parsed (fst nv) (vs ++ [snd nv])%list
               | None => dict_set parsed (fst nv) [snd nv]
               end)
            (parse_qsl_model query) [].

Definition model_getenv (name : string) : option string :=
  if String.eqb name "DIRECTADMIN_HOST" then Some "https://da.example.net:2222/"
  else if String.eqb name "DIRECTADMIN_USER" then Some "apiuser"
  else if String.eqb name "DIRECTADMIN_KEY" then Some "apikey"
  else if String.eqb name "DEFAULT_DOMAIN" then Some "x.com"
  else None.

(** An environment whose clock ticks once a reading, from 1000 on. *)
Definition model_env (net : nat -> PostOutcome) : Env :=
  mkEnv (fun n => 1000 + Z.of_nat n) net parse_qs_model model_getenv
        (fun p => "$2b$" ++ p).

(** A network that answers every request with [200] and an empty body. *)
Definition net_ok : nat -> PostOutcome := fun _ => Response 200 "error=0".

(** A network that fails with the given status on every request. *)
Definition net_status (status_code : Z) : nat -> PostOutcome :=
  fun _ => Response status_code "unavailable".

(** A network that plays a script, then answers [200]. *)
Definition net_script (script : list PostOutcome) : nat -> PostOutcome :=
  fun n => nth n script (Response 200 "error=0").

(** A one-token stand-in for [jose]: it knows the claims it signed last. *)
Definition table_jose (signed : claims) (exp : Z) : Jose :=
  mkJose
    (fun c key alg => "header." ++ key ++ "." ++ alg)
    (fun token key algs now =>
       match algs with
       | [alg] =>
           if String.eqb token ("header." ++ key ++ "." ++ alg)
           then if exp <? now then inr ExpiredSignatureError
                else inl (to_timestamps signed)
           else inr JWTError
       | _ => inr JWTError
       end).

(** ** Sample data *)

Definition sample_admin : User.t :=
  User.mk 1 "root@x.com" "$2b$hash" ADMIN None true 10 10.

(** A domain_admin assigned to [a.com]. *)
Definition sample_domain_admin : User.t :=
  User.mk 2 "ops@a.com" "$2b$hash" DOMAIN_ADMIN (Some "a.com") true 20 20.

Definition empty_db : Database := mkDb [] [] [].

Definition sample_create_request (password : string) (domain : option string)
  : CreateEmailRequest.t :=
  CreateEmailRequest.mk "alice" password 500 domain.

(** ** Vocabulary for the retry policy *)

(** An attempt that the client retries: a transport error or a response
    whose status is not 2xx. *)
Definition failed (o : PostOutcome) : bool :=
  match o with
  | Response status_code _ => negb (DirectAdminClient.is_success status_code)
  | RequestError _ => true
  end.

(** The error raised for a failed last attempt. *)
Definition failure_error (o : PostOutcome) : exn :=
  match o with
  | Response status_code text =>
      DirectAdminError (VStr ("HTTP " ++ str_of_Z status_code))
                       (Some (VStr text))
  | RequestError msg =>
      DirectAdminError (VStr "Network error") (Some (VStr msg))
  end.

(** The effects of [k] failed attempts that are retried, the first of them
    being attempt number [attempt]: a request, then a pause of
    [2 ^ attempt] seconds, and so on. *)
Fixpoint backoff (url : string) (params : dict) (attempt k : nat)
  : list Event :=
  match k with
  | O => []
  | S k' =>
      EvPost url params :: EvSleep (2 ^ Z.of_nat attempt)
        :: backoff url params (S attempt) k'
  end.

(** The world after [n] more requests whose effects are [evs]. *)
Definition after_requests (w : World) (n : nat) (evs : list Event) : World :=
  mkWorld (db w) (sess w) (ticks w) (posts w + n) (trace w ++ evs).

(** The scenario of the specification: 500, 500, then 200 with [error=1]. *)
Definition quota_script : list PostOutcome :=
  [ Response 500 "Internal Server Error";
    Response 500 "Internal Server Error";
    Response 200 "error=1&text=quota+exceeded" ].

Definition sample_client : DirectAdminClient.t :=
  DirectAdminClient.mk "https://da.example.net:2222" (Some "apiuser")
    (Some "apikey") (Some "x.com").

Definition sample_auth_config : AuthConfig := mkAuthConfig "s3cret" 1440.

(** The claims of a token issued at clock reading 1000 with one minute to
    live, and the library that signed them. *)
Definition sample_claims : claims :=
  signed_claims 7 "ops@a.com" "domain_admin" (1000 + minutes 1).

Definition sample_jose : Jose := table_jose sample_claims (1000 + minutes 1).

(** ** Vocabulary for the mailbox table *)

Definition mailbox_key (r : EmailAccount.t) : string * string :=
  (EmailAccount.username r, EmailAccount.domain r).

(** The primary key and [uq_username_domain] hold. *)
Definition table_ok (rows : list EmailAccount.t) : Prop :=
  NoDup (map EmailAccount.id rows) /\ NoDup (map mailbox_key rows).

(** At most one row that is not deleted for each (username, domain). *)
Definition unique_active (rows : list EmailAccount.t) : Prop :=
  NoDup (map mailbox_key (filter is_active_row rows)).

(** The row of a mailbox, once resurrected at [now]. *)
Definition resurrected (now : Z) (r : EmailAccount.t) : EmailAccount.t :=
  EmailAccount.mk (EmailAccount.id r) (EmailAccount.username r)
    (EmailAccount.domain r) (EmailAccount.quota_mb r)
    (EmailAccount.created_by_user_id r) (EmailAccount.created_at r)
    now None.

(** A world that differs from [w] in the session's mailbox rows, the clock
    and the trace. *)
Definition with_session_emails (w : World) (rows : list EmailAccount.t)
  (ticks' : nat) (evs : list Event) : World :=
  mkWorld (db w) (with_emails (sess w) rows) ticks' (posts w) (trace w ++ evs).

(** alice@x.com, created by the administrator with a quota of 500 and
    deleted at 50. *)
Definition deleted_alice : EmailAccount.t :=
  EmailAccount.mk 1 "alice" "x.com" 500 (Some 1) 30 50 (Some 50).

Definition bob : EmailAccount.t :=
  EmailAccount.mk 2 "bob" "x.com" 1000 None 40 40 None.

Definition sample_db : Database := mkDb [sample_admin] [deleted_alice; bob] [].

(** A world that differs from [w] in the trace. *)
Definition logged (w : World) (evs : list Event) : World :=
  mkWorld (db w) (sess w) (ticks w) (posts w) (trace w ++ evs).

(** The rows after the row [id] was resurrected at [now]. *)
Definition resurrect_rows (id now : Z) (rows : list EmailAccount.t)
  : list EmailAccount.t :=
  update_rows id (resurrected now) rows.

(** The row that the reconciliation inserts for a mailbox it does not know. *)
Definition backfilled (rows : list EmailAccount.t) (username dom : string)
  (created updated : Z) : EmailAccount.t :=
  EmailAccount.mk (next_id rows) username dom 1000 None created updated None.

(** The mailbox [username] of [domain] has a row, and the row that the
    reconciliation looks at is active. *)
Definition settled (domain : option string) (username : string)
  (rows : list EmailAccount.t) : Prop :=
  exists r, find (same_mailbox username domain) rows = Some r
            /\ EmailAccount.deleted_at r = None.

(** ** Vocabulary for the mutating endpoints *)

(** The three guards that open every mailbox endpoint, as one result: the
    effective domain, or the 403 of the first guard that fails. *)
Definition authorized_domain (env : Env) (user : User.t)
  (domain : option string) : result (option string) :=
  match check_domain_param_tampering user domain with
  | Raise e => Raise e
  | Ok _ =>
      let effective_domain :=
        get_effective_domain user domain (getenv env "DEFAULT_DOMAIN") in
      match check_domain_access user effective_domain with
      | Raise e => Raise e
      | Ok _ => Ok effective_domain
      end
  end.

(** [w'] has the tables, the session and the clock of [w]. *)
Definition same_tables (w w' : World) : Prop :=
  db w' = db w /\ sess w' = sess w /\ ticks w' = ticks w.

(** The control panel answered a request, sent when [p] requests had been
    sent before, within three attempts: [k] failures, then a 2xx response that is not [error=1]. *)
Definition remote_succeeded (env : Env) (p k : nat) : Prop :=
  (k < 3)%nat /\
  (forall i, (i < k)%nat -> failed (network env (p + i)) = true) /\
  exists status_code text,
    network env (p + k) = Response status_code text /\
    DirectAdminClient.is_success status_code = true /\
    DirectAdminClient.is_error_1
      (DirectAdminClient.flatten (parse_qs env text)) = false.

(** The row of a mailbox, once soft-deleted. *)
Definition soft_deleted (deleted updated : Z) (r : EmailAccount.t)
  : EmailAccount.t :=
  EmailAccount.mk (EmailAccount.id r) (EmailAccount.username r)
    (EmailAccount.domain r) (EmailAccount.quota_mb r)
    (EmailAccount.created_by_user_id r) (EmailAccount.created_at r)
    updated (Some deleted).

Definition not_found (username : string) (effective_domain : option string)
  : exn :=
  HTTPException HTTP_404_NOT_FOUND
    ("Email " ++ username ++ "@" ++ py_str effective_domain ++ " not found").

(** ** Sample data for the password reset *)

Definition arity_error : exn :=
  TypeError
    "DirectAdminClient.change_password() takes 3 positional arguments but 4 were given".

(** A domain_admin whose login address is also a mailbox of [a.com]. *)
Definition reset_db : Database :=
  mkDb [sample_admin; sample_domain_admin]
       [EmailAccount.mk 1 "ops" "a.com" 2000 (Some 1) 30 30 None]
       [PasswordResetToken.mk "tok-1" 2 5000 false].

(** ** Reachable states *)

(** The tables that one request leaves committed, starting from [d]. *)
Inductive request (env : Env) (d : Database) : Database -> Prop :=
| req_list_emails user domain t p :
    request env d
      (db (snd (list_emails env user domain (begin_request d t p))))
| req_create_email r user t p :
    request env d (db (snd (create_email env r user (begin_request d t p))))
| req_delete_email username user domain t p :
    request env d
      (db (snd (delete_email env username user domain (begin_request d t p))))
| req_change_password username pw user domain t p :
    request env d
      (db (snd (change_password env username pw user domain
                  (begin_request d t p))))
| req_reset_password token pw confirm t p :
    request env d
      (db (snd (process_reset_password env token pw confirm
                  (begin_request d t p)))).

(** The states reached from an empty mailbox table. *)
Inductive reachable (env : Env) : Database -> Prop :=
| reachable_start us ts : reachable env (mkDb us [] ts)
| reachable_request d d' :
    reachable env d -> request env d d' -> reachable env d'.

(** ** permissions.py: the remaining functions *)

(** [", ".join(r.value for r in allowed_roles)] *)
Definition role_names (allowed_roles : list UserRole) : string :=
  String.concat ", " (map UserRole_value allowed_roles).

Definition require_role (user : User.t) (allowed_roles : list UserRole)
  : result unit :=
  if negb (existsb (UserRole_eqb (User.role user)) allowed_roles)
  then Raise (HTTPException HTTP_403_FORBIDDEN
                ("Required role: " ++ role_names allowed_roles))
  else Ok tt.

Definition get_user_domains (user : User.t) (default_domain : option string)
  : list (option string) :=
  if UserRole_eqb (User.role user) ADMIN then [default_domain]
  else if UserRole_eqb (User.role user) DOMAIN_ADMIN
       then (if truthy (User.domain user) then [User.domain user] else [])
       else [].

(** ** main.py and auth.py: authentication *)

Module LoginRequest.
Record t : Type := mk {
  email : string;
  password : string
}.
End LoginRequest.

Module TokenResponse.
Record t : Type := mk {
  access_token : string;
  token_type : string;
  expires_in : Z
}.
End TokenResponse.

(** [select(User).where(User.email == email)], [.first()] *)
Definition select_user_by_email (email : string) : M (option User.t) :=
  emit (EvQuery "users") ;;
  d <- get_sess ;;
  ret (find (fun u => String.eqb (User.email u) email) (users d)).

Definition bad_credentials : exn :=
  HTTPException HTTP_401_UNAUTHORIZED "Incorrect email or password".

(** [verify_password] is passlib's [pwd_context.verify], a parameter. *)
Definition login (env : Env) (J : Jose) (cfg : AuthConfig)
  (verify_password : string -> string -> bool) (request : LoginRequest.t)
  : M TokenResponse.t :=
  found <- select_user_by_email (LoginRequest.email request) ;;
  match found with
  | None => raise bad_credentials
  | Some user =>
      if negb (verify_password (LoginRequest.password request)
                 (User.hashed_password user))
      then raise bad_credentials
      else if negb (User.is_active user)
      then raise (HTTPException HTTP_400_BAD_REQUEST "Inactive user account")
      else
        access_token <-
          create_access_token env J cfg
            (token_data (User.id user) (User.email user)
               (UserRole_value (User.role user)))
            (Some (minutes (JWT_EXPIRE_MINUTES cfg))) ;;
        ret (TokenResponse.mk access_token "bearer"
               (JWT_EXPIRE_MINUTES cfg * 60))
  end.

(** [sql_eq v id] is the comparison [User.id == v] that the database makes
    for a claim value [v], a parameter: for an integer claim it is equality
    of integers. *)
Definition get_current_user (env : Env) (J : Jose) (cfg : AuthConfig)
  (sql_eq : claim_value -> Z -> bool) (token : string) : M User.t :=
  payload <- decode_access_token env J cfg token ;;
  match dict_get payload "user_id" with
  | None =>
      raise (HTTPException HTTP_401_UNAUTHORIZED
               "Invalid authentication credentials")
  | Some user_id =>
      emit (EvQuery "users") ;;
      d <- get_sess ;;
      match find (fun u => sql_eq user_id (User.id u)) (users d) with
      | None => raise (HTTPException HTTP_401_UNAUTHORIZED "User not found")
      | Some user => ret user
      end
  end.

Definition get_current_active_user (current_user : User.t) : result User.t :=
  if negb (User.is_active current_user)
  then Raise (HTTPException HTTP_400_BAD_REQUEST "Inactive user")
  else Ok current_user.

(** The two dependencies of every protected endpoint, one after the other. *)
Definition authenticate (env : Env) (J : Jose) (cfg : AuthConfig)
  (sql_eq : claim_value -> Z -> bool) (token : string) : M User.t :=
  current_user <- get_current_user env J cfg sql_eq token ;;
  lift (get_current_active_user current_user).

(** ** main.py: administration *)

Definition list_users (current_user : User.t) : M (list User.t) :=
  lift (require_admin current_user) ;;
  emit (EvQuery "users") ;;
  d <- get_sess ;;
  ret (users d).

Module UpdateUserRoleRequest.
Record t : Type := mk {
  role : UserRole;
  domain : option string
}.
End UpdateUserRoleRequest.

Definition set_role (role : UserRole) (domain : option string) (now : Z)
  (u : User.t) : User.t :=
  User.mk (User.id u) (User.email u) (User.hashed_password u) role domain
    (User.is_active u) (User.created_at u) now.

Definition set_active (active : bool) (now : Z) (u : User.t) : User.t :=
  User.mk (User.id u) (User.email u) (User.hashed_password u) (User.role u)
    (User.domain u) active (User.created_at u) now.

Definition user_not_found_404 (user_id : Z) : exn :=
  HTTPException HTTP_404_NOT_FOUND ("User " ++ str_of_Z user_id ++ " not found").

(** The range of an SQLite INTEGER. *)
Definition fits_int64 (z : Z) : bool :=
  (- 2 ^ 63 <=? z) && (z <? 2 ^ 63).

(** [session.get(User, user_id)], recorded as a query of the table.  The
    path parameter is a Python [int] of any size; one that does not fit in
    64 bits cannot be bound to the query, and the driver raises.  (An id
    that is in the table was stored by SQLite, so it fits.) *)
Definition session_get_user (user_id : Z) : M (option User.t) :=
  emit (EvQuery "users") ;;
  d <- get_sess ;;
  match find (fun u => User.id u =? user_id) (users d) with
  | Some user => ret (Some user)
  | None =>
      if fits_int64 user_id then ret None
      else raise (OverflowError
                    "Python int too large to convert to SQLite INTEGER")
  end.

(** The closing [session.refresh] is recorded as another query. *)
Definition update_user_role (env : Env) (user_id : Z)
  (request : UpdateUserRoleRequest.t) (current_user : User.t) : M User.t :=
  lift (require_admin current_user) ;;
  found <- session_get_user user_id ;;
  match found with
  | None => raise (user_not_found_404 user_id)
  | Some user =>
      now <- utcnow env ;;
      let change := set_role (UpdateUserRoleRequest.role request)
                      (UpdateUserRoleRequest.domain request) now in
      update_user (User.id user) change ;;
      commit ;;
      emit (EvQuery "users") ;;
      ret (change user)
  end.

Definition deactivate_user (env : Env) (user_id : Z) (current_user : User.t)
  (activate : bool) : M User.t :=
  lift (require_admin current_user) ;;
  found <- session_get_user user_id ;;
  match found with
  | None => raise (user_not_found_404 user_id)
  | Some user =>
      now <- utcnow env ;;
      update_user (User.id user) (set_active activate now) ;;
      commit ;;
      emit (EvQuery "users") ;;
      ret (set_active activate now user)
  end.

(** ** main.py: the password reset form *)

Definition reset_error (title message : string) : HTMLResponse :=
  TemplateResponse "reset_error.html"
    [("title", Some title); ("message", Some message)].

Definition reset_form (token : string) : HTMLResponse :=
  TemplateResponse "reset_password.html"
    [("token", Some token); ("error", None)].

Definition get_reset_password_form (env : Env) (token : string)
  : M HTMLResponse :=
  reset_token <- select_reset_token token ;;
  match reset_token with
  | None =>
      ret (reset_error "Invalid Link"
        "This password reset link is invalid. Please contact your administrator.")
  | Some rt =>
      if PasswordResetToken.used rt
      then ret (reset_error "Link Already Used"
        "This password reset link has already been used. Please contact your administrator if you need a new link.")
      else
        now <- utcnow env ;;
        if PasswordResetToken.expires_at rt <? now
        then ret (reset_error "Link Expired"
          "This password reset link has expired. Please contact your administrator for a new link.")
        else ret (reset_form token)
  end.

(** A password checker that accepts exactly the password it was hashed
    from, for [model_env]. *)
Definition model_verify (plain hashed : string) : bool :=
  String.eqb hashed ("$2b$" ++ plain).

(** The tables of a deployment: an administrator and a domain_admin, each
    with the password [TestPass123!]. *)
Definition auth_db : Database :=
  mkDb [ User.mk 1 "root@x.com" "$2b$TestPass123!" ADMIN None true 10 10;
         User.mk 2 "ops@a.com" "$2b$TestPass123!" DOMAIN_ADMIN (Some "a.com")
           true 20 20 ]
       [EmailAccount.mk 1 "ops" "a.com" 2000 (Some 1) 30 30 None]
       [PasswordResetToken.mk "tok-1" 2 5000 false].

(** The library that signed the token of [ops@a.com], issued at clock
    reading 1000 for one minute. *)
Definition ops_jose : Jose :=
  table_jose (signed_claims 2 "ops@a.com" "domain_admin" (1000 + minutes 1))
             (1000 + minutes 1).

(** The comparison of the [id] column with a claim, for integer claims. *)
Definition model_sql_eq (v : claim_value) (id : Z) : bool :=
  match v with
  | CInt z => z =? id
  | _ => false
  end.

(** ** Vocabulary for the password reset *)

Definition has_token (token : string) (r : PasswordResetToken.t) : bool :=
  String.eqb (PasswordResetToken.token r) token.

Definition link_already_used : HTMLResponse :=
  reset_error "Link Already Used"
    "This password reset link has already been used. Please contact your administrator if you need a new link.".

(** ** Vocabulary for the time a call spends pausing *)

(** The seconds of [time.sleep] in a trace. *)
Fixpoint pauses (evs : list Event) : Z :=
  match evs with
  | [] => 0
  | EvSleep seconds :: evs' => seconds + pauses evs'
  | _ :: evs' => pauses evs'
  end.

(** ** ip_geolocate.py *)

(** The geolocation tool.  [requests.get], [response.json()], [json.dumps]
    and the [str()] of a float, a list or a dict are given from outside; the
    pictographs of the [click.echo] texts are their UTF-8 bytes. *)

Module IpGeolocate.

(** A decoded JSON document, as [response.json()] returns it: [None],
    [bool], [int], [float], [str], [list] and [dict]. *)
#[local] Unset Elimination Schemes.
Inductive json : Type :=
| JNull
| JBool (b : bool)
| JInt (n : Z)
| JFloat (f : spec_float)
| JStr (s : string)
| JArr (items : list json)
| JObj (members : list (string * json)).
#[local] Set Elimination Schemes.

Definition pydict : Type := list (string * json).

(** [response.json()]: the document, or the exception with its [str(e)]. *)
Inductive JsonOutcome : Type :=
| Decoded (data : json)
| DecodeError (message : string).

(** [requests.get(url, timeout=t)]: a response, or the exception with its
    [str(e)]. *)
Inductive GetOutcome : Type :=
| GetResponse (body : JsonOutcome)
| GetError (message : string).

Record Web : Type := mkWeb {
  requests_get : string -> Z -> GetOutcome;
  repr : json -> string;
  json_dumps : json -> Z -> string
}.

Inductive Effect : Type :=
| Get (url : string) (timeout : Z)
| Echo (message : string) (err : bool).

(** How a piece of the program ends: with a value, with [sys.exit(code)],
    or with a [KeyError] that nothing catches. *)
Inductive Completion (A : Type) : Type :=
| Returns (a : A)
| SysExit (code : Z)
| KeyError (key : string).

Arguments Returns {A} a.
Arguments SysExit {A} code.
Arguments KeyError {A} key.

Definition IO (A : Type) : Type := Completion A * list Effect.

Definition io_ret {A} (a : A) : IO A := (Returns a, []).

Definition io_bind {A B} (c : IO A) (k : A -> IO B) : IO B :=
  match c with
  | (Returns a, evs) => let (r, evs') := k a in (r, (evs ++ evs')%list)
  | (SysExit code, evs) => (SysExit code, evs)
  | (KeyError key, evs) => (KeyError key, evs)
  end.

Declare Scope io_scope.
Notation "x <- c ;; k" := (io_bind c (fun x => k))
  (at level 61, c at next level, right associativity) : io_scope.
Notation "c ;; k" := (io_bind c (fun _ => k))
  (at level 61, right associativity) : io_scope.
Local Open Scope io_scope.

Definition get (web : Web) (url : string) (timeout : Z) : IO GetOutcome :=
  (Returns (requests_get web url timeout), [Get url timeout]).

Definition echo (message : string) (err : bool) : IO unit :=
  (Returns tt, [Echo message err]).

Definition sys_exit {A} (code : Z) : IO A := (SysExit code, []).

(** [d[key]] *)
Definition getitem (d : pydict) (key : string) : IO json :=
  match dict_get d key with
  | Some v => io_ret v
  | None => (KeyError key, [])
  end.

(** [d.get(key)] and [d.get(key, default)] *)
Definition get_default (d : pydict) (key : string) (default : json) : json :=
  match dict_get d key with
  | Some v => v
  | None => default
  end.

(** Truthiness: [None], [False], zero, and the empty string, list and dict
    are falsy. *)
Definition json_truthy (v : json) : bool :=
  match v with
  | JNull => false
  | JBool b => b
  | JInt n => negb (n =? 0)
  | JFloat (S754_zero _) => false
  | JFloat _ => true
  | JStr s => negb (String.eqb s "")
  | JArr [] => false
  | JArr _ => true
  | JObj [] => false
  | JObj _ => true
  end.

(** [type(v).__name__] *)
Definition type_name (v : json) : string :=
  match v with
  | JNull => "NoneType"
  | JBool _ => "bool"
  | JInt _ => "int"
  | JFloat _ => "float"
  | JStr _ => "str"
  | JArr _ => "list"
  | JObj _ => "dict"
  end.

(** [str(v)], as an f-string renders a value. *)
Definition str (web : Web) (v : json) : string :=
  match v with
  | JNull => "None"
  | JBool true => "True"
  | JBool false => "False"
  | JInt n => str_of_Z n
  | JStr s => s
  | _ => repr web v
  end.

(** [v == s] for a string literal [s] *)
Definition eq_str (v : json) (s : string) : bool :=
  match v with
  | JStr s' => String.eqb s' s
  | _ => false
  end.

(** The value that [click] passes for [--ip]. *)
Definition of_option (ip : option string) : json :=
  match ip with
  | Some s => JStr s
  | None => JNull
  end.

Definition get_current_ip (web : Web) : IO json :=
  response <- get web "https://api.ipify.org?format=json" 5 ;;
  io_ret match response with
         | GetResponse (Decoded (JObj data)) =>
             match dict_get data "ip" with
             | Some v => v
             | None => JNull             (* KeyError *)
             end
         | GetResponse (Decoded _) => JNull   (* TypeError *)
         | GetResponse (DecodeError _) => JNull
         | GetError _ => JNull
         end.

(** The dict of the [except] branch. *)
Definition failure (ip_address : json) (message : string) : pydict :=
  [("ip", ip_address); ("success", JBool false); ("error", JStr message)].

Definition geolocate_ip (web : Web) (ip_address : json) : IO pydict :=
  response <- get web ("http://ip-api.com/json/" ++ str web ip_address) 10 ;;
  io_ret match response with
         | GetResponse (Decoded (JObj data)) =>
             [("ip", ip_address);
              ("success", JBool (eq_str (get_default data "status" JNull)
                                        "success"));
              ("country", get_default data "country" JNull);
              ("country_code", get_default data "countryCode" JNull);
              ("region", get_default data "regionName" JNull);
              ("city", get_default data "city" JNull);
              ("zip_code", get_default data "zip" JNull);
              ("latitude", get_default data "lat" JNull);
              ("longitude", get_default data "lon" JNull);
              ("timezone", get_default data "timezone" JNull);
              ("isp", get_default data "isp" JNull);
              ("organization", get_default data "org" JNull);
              ("asn", get_default data "as" JNull);
              ("raw_data", JObj data)]
         | GetResponse (Decoded data) =>
             failure ip_address
               ("'" ++ type_name data ++ "' object has no attribute 'get'")
         | GetResponse (DecodeError message) => failure ip_address message
         | GetError message => failure ip_address message
         end.

Definition utf8 (bytes : list nat) : string :=
  fold_right (fun b s => String (ascii_of_nat b) s) "" bytes.

Definition globe : string := utf8 [240; 159; 140; 141]%nat.   (* U+1F30D *)
Definition antenna : string := utf8 [240; 159; 147; 161]%nat. (* U+1F4E1 *)
Definition alarm : string := utf8 [226; 143; 176]%nat.        (* U+23F0 *)
Definition pin : string := utf8 [240; 159; 147; 141]%nat.     (* U+1F4CD *)
Definition cross : string := utf8 [226; 157; 140]%nat.        (* U+274C *)

(** [cli], first part: "Determine IP to use". *)
Definition determine_ip (web : Web) (ip : option string)
  (use_current : bool) : IO json :=
  if use_current || negb (json_truthy (of_option ip))
  then
    echo "Getting current IP address..." true ;;
    current_ip <- get_current_ip web ;;
    (if negb (json_truthy current_ip)
     then echo "Error: Could not determine current IP address" true ;;
          sys_exit 1
     else io_ret tt) ;;
    echo ("Current IP: " ++ str web current_ip) true ;;
    io_ret current_ip
  else io_ret (of_option ip).

(** [cli], last part: "Output". *)
Definition output (web : Web) (output_json : bool) (result : pydict)
  : IO unit :=
  if output_json
  then echo (json_dumps web (JObj result) 2) false
  else
    success <- getitem result "success" ;;
    if json_truthy success
    then
      city <- getitem result "city" ;;
      region <- getitem result "region" ;;
      country <- getitem result "country" ;;
      echo (globe ++ " Location: " ++ str web city ++ ", "
              ++ str web region ++ ", " ++ str web country) false ;;
      isp <- getitem result "isp" ;;
      echo (antenna ++ " ISP: " ++ str web isp) false ;;
      timezone <- getitem result "timezone" ;;
      echo (alarm ++ " Timezone: " ++ str web timezone) false ;;
      latitude <- getitem result "latitude" ;;
      longitude <- getitem result "longitude" ;;
      echo (pin ++ " Coordinates: " ++ str web latitude ++ ", "
              ++ str web longitude) false
    else
      echo (cross ++ " Error: "
              ++ str web (get_default result "error" (JStr "Unknown error")))
           true ;;
      sys_exit 1.

Definition cli (web : Web) (ip : option string)
  (output_json use_current : bool) : IO unit :=
  ip <- determine_ip web ip use_current ;;
  echo ("Geolocating IP: " ++ str web ip) true ;;
  result <- geolocate_ip web ip ;;
  output web output_json result.

(** The GET requests of a run, in order. *)
Definition requests_of (evs : list Effect) : list (string * Z) :=
  flat_map (fun e => match e with
                     | Get url timeout => [(url, timeout)]
                     | Echo _ _ => []
                     end) evs.

(** A service that answers every lookup with the same document, and the
    address service with [203.0.113.7]. *)
Definition sample_web (lookup : GetOutcome) : Web :=
  mkWeb (fun url _ =>
           if String.eqb url "https://api.ipify.org?format=json"
           then GetResponse (Decoded (JObj [("ip", JStr "203.0.113.7")]))
           else lookup)
        (fun _ => "<repr>")
        (fun _ _ => "<json>").

Definition private_range : GetOutcome :=
  GetResponse
    (Decoded (JObj [("status", JStr "fail");
                    ("message", JStr "private range");
                    ("query", JStr "10.0.0.1")])).

End IpGeolocate.

(** ** database.py *)





(** ** Vocabulary for the fields that the models do not declare *)

(** What [create_email] answers once it has read [request.notify_email]. *)
Definition notify_email_missing : exn :=
  HTTPException HTTP_500_INTERNAL_SERVER_ERROR
    "'CreateEmailRequest' object has no attribute 'notify_email'".

(* ================================================================== *)
(** * Part II: properties *)
(* ================================================================== *)

Example parse_qs_model_scenario :
  parse_qs_model "error=1&text=quota+exceeded"
  = [("error", ["1"]); ("text", ["quota exceeded"])].
Proof. reflexivity. Qed.

Example parse_qs_model_list :
  parse_qs_model "list[]=alice&list[]=bob&x=&y"
  = [("list[]", ["alice"; "bob"])].
Proof. reflexivity. Qed.

Example str_of_Z_500 : str_of_Z 500 = "500" /\ str_of_Z 0 = "0" /\ str_of_Z (-12) = "-12".
Proof. repeat split; reflexivity. Qed.

(** ** Python idioms *)

Lemma opt_str_eqb_eq (a b : option string) :
  opt_str_eqb a b = true <-> a = b.
Proof.
  destruct a as [x|], b as [y|]; simpl; split; intro H;
    try discriminate; try reflexivity.
  - apply String.eqb_eq in H. now subst.
  - injection H as ->. apply String.eqb_refl.
Qed.

Lemma opt_str_eqb_neq (a b : option string) :
  opt_str_eqb a b = false <-> a <> b.
Proof.
  split.
  - intros H E. apply opt_str_eqb_eq in E. congruence.
  - intro H. destruct (opt_str_eqb a b) eqn:E; [|reflexivity].
    apply opt_str_eqb_eq in E. contradiction.
Qed.

Lemma truthy_some (s : string) : s <> "" -> truthy (Some s) = true.
Proof.
  intro H. simpl. apply negb_true_iff. now apply String.eqb_neq.
Qed.

(** ** Access control *)

(** C1: [can_access_domain] is true for every admin, is true for a
    domain_admin exactly when the requested domain is the assigned one, and
    is false for every user. *)
Theorem can_access_domain_by_role (user : User.t) (domain : option string) :
  match User.role user with
  | ADMIN => can_access_domain user domain = true
  | DOMAIN_ADMIN =>
      can_access_domain user domain = true <-> domain = User.domain user
  | USER => can_access_domain user domain = false
  end.
Proof.
  unfold can_access_domain.
  destruct (User.role user); simpl; try reflexivity.
  rewrite opt_str_eqb_eq. split; congruence.
Qed.

Lemma tampering_detected (user : User.t) (d : string) :
  User.role user = DOMAIN_ADMIN -> d <> "" -> User.domain user <> Some d ->
  check_domain_param_tampering user (Some d) = Raise (tamper_forbidden user).
Proof.
  intros Hrole Hd Hneq. unfold check_domain_param_tampering.
  rewrite Hrole, (truthy_some d Hd). simpl UserRole_eqb. simpl andb.
  assert (E : opt_str_eqb (Some d) (User.domain user) = false).
  { apply opt_str_eqb_neq. congruence. }
  rewrite E. reflexivity.
Qed.

(** ** Password strength *)

(** C9: the checks run in the order length, uppercase, lowercase, digit and
    the first one that fails gives the message; ["testpass123!"] is rejected
    by the uppercase rule, as is every password of eight or more characters
    without an uppercase letter, whatever else it lacks. *)
Theorem validate_password_first_failing_rule :
  (forall p, validate_password p = validate_by_rules p) /\
  map snd password_rules = [msg_length; msg_upper; msg_lower; msg_digit] /\
  validate_password "testpass123!"
  = Raise (HTTPException HTTP_400_BAD_REQUEST
             "Password must contain at least one uppercase letter") /\
  (forall p, (8 <= String.length p)%nat -> re_search is_upper p = false ->
             validate_password p
             = Raise (HTTPException HTTP_400_BAD_REQUEST msg_upper)).
Proof.
  split; [|split; [reflexivity|split; [reflexivity|]]].
  - intro p. unfold validate_password, validate_by_rules, first_failing_rule.
    cbv beta iota delta [password_rules find fst].
    destruct (String.length p <? 8)%nat eqn:Hlen.
    + apply Nat.ltb_lt in Hlen.
      assert (E : (8 <=? String.length p)%nat = false)
        by (apply Nat.leb_gt; exact Hlen).
      rewrite E. reflexivity.
    + apply Nat.ltb_ge in Hlen.
      assert (E : (8 <=? String.length p)%nat = true)
        by (apply Nat.leb_le; exact Hlen).
      rewrite E. simpl negb.
      destruct (re_search is_upper p); simpl; [|reflexivity].
      destruct (re_search is_lower p); simpl; [|reflexivity].
      destruct (re_search is_digit p); simpl; reflexivity.
  - intros p Hlen Hup. unfold validate_password.
    assert (E : (String.length p <? 8)%nat = false)
      by (apply Nat.ltb_ge; exact Hlen).
    rewrite E, Hup. reflexivity.
Qed.

Example validate_password_samples :
  validate_password "Short1!"
  = Raise (HTTPException 400 "Password must be at least 8 characters long") /\
  validate_password "short"
  = Raise (HTTPException 400 "Password must be at least 8 characters long") /\
  validate_password "testpassword"
  = Raise (HTTPException 400
             "Password must contain at least one uppercase letter") /\
  validate_password "TESTPASS123!"
  = Raise (HTTPException 400
             "Password must contain at least one lowercase letter") /\
  validate_password "TestPass!"
  = Raise (HTTPException 400 "Password must contain at least one number") /\
  validate_password "TestPass123!" = Ok tt.
Proof. repeat split; reflexivity. Qed.

(** ** The tamper check in the mailbox endpoints *)

Lemma try_endpoint_raise_http {A} (body : M A) (w w' : World) (sc : Z)
  (detail : string) :
  body w = (Raise (HTTPException sc detail), w') ->
  try_endpoint body w = (Raise (HTTPException sc detail), w').
Proof. intro H. unfold try_endpoint. rewrite H. reflexivity. Qed.

Lemma validate_password_raises_400 p e :
  validate_password p = Raise e ->
  exists detail, e = HTTPException HTTP_400_BAD_REQUEST detail.
Proof.
  unfold validate_password.
  repeat match goal with
         | |- context [if ?b then _ else _] => destruct b
         end; intro H; inversion H; eauto.
Qed.

(** A mailbox endpoint that does not validate a password stops at the
    tamper check, in the world it started in. *)
Lemma list_emails_tamper env user d w :
  check_domain_param_tampering user (Some d) = Raise (tamper_forbidden user) ->
  list_emails env user (Some d) w = (Raise (tamper_forbidden user), w).
Proof.
  intro H. unfold list_emails. apply try_endpoint_raise_http.
  unfold bind, lift. rewrite H. reflexivity.
Qed.

Lemma delete_email_tamper env username user d w :
  check_domain_param_tampering user (Some d) = Raise (tamper_forbidden user) ->
  delete_email env username user (Some d) w = (Raise (tamper_forbidden user), w).
Proof.
  intro H. unfold delete_email. apply try_endpoint_raise_http.
  unfold bind, lift. rewrite H. reflexivity.
Qed.

(** The two endpoints that take a password validate it first. *)
Lemma change_password_tamper env username pw user d w :
  check_domain_param_tampering user (Some d) = Raise (tamper_forbidden user) ->
  change_password env username pw user (Some d) w
  = match validate_password pw with
    | Ok _ => (Raise (tamper_forbidden user), w)
    | Raise e => (Raise e, w)
    end.
Proof.
  intro H. unfold change_password, try_endpoint, bind, lift.
  destruct (validate_password pw) as [[]|e] eqn:Hv.
  - rewrite H. reflexivity.
  - destruct (validate_password_raises_400 _ _ Hv) as [detail ->].
    reflexivity.
Qed.

Lemma create_email_tamper env request user d w :
  CreateEmailRequest.domain request = Some d ->
  check_domain_param_tampering user (Some d) = Raise (tamper_forbidden user) ->
  create_email env request user w
  = match validate_password (CreateEmailRequest.password request) with
    | Ok _ => (Raise (tamper_forbidden user), w)
    | Raise e => (Raise e, w)
    end.
Proof.
  intros Hd H. unfold create_email, try_endpoint, bind, lift.
  rewrite Hd.
  destruct (validate_password (CreateEmailRequest.password request))
    as [[]|e] eqn:Hv.
  - rewrite H. reflexivity.
  - destruct (validate_password_raises_400 _ _ Hv) as [detail ->].
    reflexivity.
Qed.

(** C2 (as the code has it): for a domain_admin and a non-empty domain
    parameter other than the assigned domain, the list and delete endpoints
    fail with 403, and the create and change-password endpoints fail with
    400 when the password is weak and with 403 otherwise; every one of them
    fails in the world it started in: no session query, no remote request,
    nothing written. *)
Theorem tamper_check_precedes_lookup_and_remote
  (env : Env) (user : User.t) (d username pw : string)
  (request : CreateEmailRequest.t) (w : World) :
  User.role user = DOMAIN_ADMIN ->
  d <> "" ->
  User.domain user <> Some d ->
  CreateEmailRequest.domain request = Some d ->
  list_emails env user (Some d) w = (Raise (tamper_forbidden user), w) /\
  delete_email env username user (Some d) w
  = (Raise (tamper_forbidden user), w) /\
  (validate_password pw = Ok tt ->
   change_password env username pw user (Some d) w
   = (Raise (tamper_forbidden user), w)) /\
  (validate_password (CreateEmailRequest.password request) = Ok tt ->
   create_email env request user w = (Raise (tamper_forbidden user), w)) /\
  (forall e, validate_password pw = Raise e ->
     (exists detail, e = HTTPException HTTP_400_BAD_REQUEST detail) /\
     change_password env username pw user (Some d) w = (Raise e, w)) /\
  (forall e,
     validate_password (CreateEmailRequest.password request) = Raise e ->
     (exists detail, e = HTTPException HTTP_400_BAD_REQUEST detail) /\
     create_email env request user w = (Raise e, w)).
Proof.
  intros Hrole Hd Hneq Hreq.
  pose proof (tampering_detected user d Hrole Hd Hneq) as Ht.
  repeat apply conj.
  - now apply list_emails_tamper.
  - now apply delete_email_tamper.
  - intro Hv. rewrite (change_password_tamper _ _ _ _ _ _ Ht), Hv. reflexivity.
  - intro Hv. rewrite (create_email_tamper _ _ _ _ _ Hreq Ht), Hv. reflexivity.
  - intros e Hv. split; [exact (validate_password_raises_400 _ _ Hv)|].
    rewrite (change_password_tamper _ _ _ _ _ _ Ht), Hv.
    destruct (validate_password_raises_400 _ _ Hv) as [detail ->].
    reflexivity.
  - intros e Hv. split; [exact (validate_password_raises_400 _ _ Hv)|].
    rewrite (create_email_tamper _ _ _ _ _ Hreq Ht), Hv.
    destruct (validate_password_raises_400 _ _ Hv) as [detail ->].
    reflexivity.
Qed.

Lemma tamper_check_precedes_lookup_and_remote_witness :
  let w := begin_request empty_db 0 0 in
  let request := sample_create_request "TestPass123!" (Some "b.com") in
  list_emails (model_env net_ok) sample_domain_admin (Some "b.com") w
  = (Raise (tamper_forbidden sample_domain_admin), w) /\
  create_email (model_env net_ok) request sample_domain_admin w
  = (Raise (tamper_forbidden sample_domain_admin), w) /\
  change_password (model_env net_ok) "alice" "short" sample_domain_admin
    (Some "b.com") w
  = (Raise (HTTPException 400 "Password must be at least 8 characters long"),
     w).
Proof.
  intros w request.
  destruct (tamper_check_precedes_lookup_and_remote (model_env net_ok)
              sample_domain_admin "b.com" "alice" "short" request w)
    as (Hl & _ & _ & Hc & Hp & _).
  - reflexivity.
  - discriminate.
  - discriminate.
  - reflexivity.
  - split; [exact Hl|]. split; [apply Hc; reflexivity|].
    apply (Hp (HTTPException 400 "Password must be at least 8 characters long")).
    reflexivity.
Defined.

(** C2 as stated fails: with a weak password the create endpoint answers
    400, not 403, to a domain_admin of [a.com] asking for [b.com]; and an
    empty domain parameter, which differs from [a.com], passes the tamper
    check, after which the mailbox is looked up. *)
Lemma tamper_check_is_not_always_forbidden :
  let w := begin_request empty_db 0 0 in
  fst (create_email (model_env net_ok)
         (sample_create_request "testpass123!" (Some "b.com"))
         sample_domain_admin w)
  = Raise (HTTPException 400
             "Password must contain at least one uppercase letter") /\
  fst (delete_email (model_env net_ok) "alice" sample_domain_admin (Some "") w)
  = Raise (HTTPException 404 "Email alice@a.com not found") /\
  trace (snd (delete_email (model_env net_ok) "alice" sample_domain_admin
                (Some "") w))
  = [EvQuery "email_accounts"].
Proof. repeat split; reflexivity. Qed.

(** ** The control-panel client *)

Section Retry.

Variable env : Env.
Variables (url : string) (params : dict) (max_retries : nat).

Local Abbreviation attempts :=
  (DirectAdminClient.attempts env url params max_retries).

Lemma after_requests_0 w : after_requests w 0 [] = w.
Proof.
  destruct w. unfold after_requests. simpl.
  now rewrite Nat.add_0_r, app_nil_r.
Qed.

Lemma attempts_success attempt remaining w status_code text :
  network env (posts w) = Response status_code text ->
  DirectAdminClient.is_success status_code = true ->
  attempts attempt (S remaining) w
  = (DirectAdminClient._parse_response env text,
     after_requests w 1 [EvPost url params]).
Proof.
  intros Hnet Hok. simpl. unfold bind, httpx_post. rewrite Hnet, Hok.
  unfold lift, after_requests. simpl. now rewrite Nat.add_1_r.
Qed.

Lemma attempts_last_failed attempt remaining w :
  failed (network env (posts w)) = true ->
  attempt = (max_retries - 1)%nat ->
  attempts attempt (S remaining) w
  = (Raise (failure_error (network env (posts w))),
     after_requests w 1 [EvPost url params]).
Proof.
  intros Hfail Hlast. simpl. unfold bind, httpx_post.
  apply Nat.eqb_eq in Hlast.
  destruct (network env (posts w)) as [sc text|msg]; simpl in *.
  - apply negb_true_iff in Hfail. rewrite Hfail, Hlast.
    unfold raise, after_requests. simpl. now rewrite Nat.add_1_r.
  - rewrite Hlast. unfold raise, after_requests. simpl.
    now rewrite Nat.add_1_r.
Qed.

Lemma attempts_retry attempt remaining w :
  failed (network env (posts w)) = true ->
  attempt <> (max_retries - 1)%nat ->
  attempts attempt (S remaining) w
  = attempts (S attempt) remaining
      (after_requests w 1 (backoff url params attempt 1)).
Proof.
  intros Hfail Hlast. simpl. unfold bind at 1. unfold httpx_post.
  apply Nat.eqb_neq in Hlast.
  assert (Hw : forall k : M dict,
    bind (sleep (2 ^ Z.of_nat attempt)) (fun _ => k)
      (mkWorld (db w) (sess w) (ticks w) (S (posts w))
               (trace w ++ [EvPost url params]))
    = k (after_requests w 1 (backoff url params attempt 1))).
  { intro k. unfold bind, sleep, emit, after_requests. simpl.
    now rewrite Nat.add_1_r, <- app_assoc. }
  destruct (network env (posts w)) as [sc text|msg]; simpl in *.
  - apply negb_true_iff in Hfail. rewrite Hfail, Hlast. apply Hw.
  - rewrite Hlast. apply Hw.
Qed.

Lemma after_requests_twice w n m evs evs' :
  after_requests (after_requests w n evs) m evs'
  = after_requests w (n + m) (evs ++ evs').
Proof.
  unfold after_requests. simpl. now rewrite Nat.add_assoc, app_assoc.
Qed.

(** [k] failed attempts that are not the last are retried, one after the
    other, each followed by its pause. *)
Lemma attempts_skip_failures k : forall attempt remaining w,
  (forall i, (i < k)%nat -> failed (network env (posts w + i)) = true) ->
  (k < remaining)%nat ->
  (attempt + remaining = max_retries)%nat ->
  attempts attempt remaining w
  = attempts (attempt + k) (remaining - k)
      (after_requests w k (backoff url params attempt k)).
Proof.
  induction k as [|k IH]; intros attempt remaining w Hfail Hlt Hsum.
  - now rewrite Nat.add_0_r, Nat.sub_0_r, after_requests_0.
  - destruct remaining as [|remaining]; [lia|].
    rewrite attempts_retry.
    + rewrite (IH (S attempt) remaining); try lia.
      * rewrite after_requests_twice. simpl.
        now rewrite Nat.add_succ_r.
      * intros i Hi. simpl.
        replace (posts w + 1 + i)%nat with (posts w + S i)%nat by lia.
        apply Hfail. lia.
    + specialize (Hfail 0%nat). rewrite Nat.add_0_r in Hfail.
      apply Hfail. lia.
    + lia.
Qed.

(** Every attempt fails: the error of the last one is raised after
    [max_retries] requests and [max_retries - 1] pauses. *)
Lemma attempts_exhausted w :
  (0 < max_retries)%nat ->
  (forall i, (i < max_retries)%nat ->
             failed (network env (posts w + i)) = true) ->
  attempts 0 max_retries w
  = (Raise (failure_error (network env (posts w + (max_retries - 1)))),
     after_requests w max_retries
       (backoff url params 0 (max_retries - 1) ++ [EvPost url params])).
Proof.
  intros Hpos Hfail.
  rewrite (attempts_skip_failures (max_retries - 1)); try lia.
  - replace (max_retries - (max_retries - 1))%nat with 1%nat by lia.
    rewrite attempts_last_failed.
    + rewrite after_requests_twice. simpl posts.
      now replace (max_retries - 1 + 1)%nat with max_retries by lia.
    + simpl posts. apply Hfail. lia.
    + reflexivity.
  - intros i Hi. apply Hfail. lia.
Qed.

(** A 2xx response after [k] failures ends the loop with what
    [_parse_response] makes of it. *)
Lemma attempts_answered k w status_code text :
  (k < max_retries)%nat ->
  (forall i, (i < k)%nat -> failed (network env (posts w + i)) = true) ->
  network env (posts w + k) = Response status_code text ->
  DirectAdminClient.is_success status_code = true ->
  attempts 0 max_retries w
  = (DirectAdminClient._parse_response env text,
     after_requests w (k + 1)
       (backoff url params 0 k ++ [EvPost url params])).
Proof.
  intros Hk Hfail Hnet Hok.
  rewrite (attempts_skip_failures k); try lia; [|exact Hfail].
  destruct (max_retries - k)%nat as [|r] eqn:Hr; [lia|].
  rewrite (attempts_success _ _ _ status_code text); try assumption.
  now rewrite after_requests_twice.
Qed.

(** The loop never sends more than [max_retries] requests. *)
Lemma attempts_bounded : forall remaining attempt w,
  (posts (snd (attempts attempt remaining w)) <= posts w + remaining)%nat.
Proof.
  induction remaining as [|r IH]; intros attempt w.
  - simpl. lia.
  - simpl. unfold bind at 1. unfold httpx_post.
    set (w1 := mkWorld _ _ _ _ _).
    assert (Hs : forall k : M dict,
      (forall w', (posts (snd (k w')) <= posts w' + r)%nat) ->
      (posts (snd (bind (sleep (2 ^ Z.of_nat attempt)) (fun _ => k) w1))
       <= posts w + S r)%nat).
    { intros k Hk. unfold bind, sleep, emit. simpl.
      eapply Nat.le_trans; [apply Hk|]. simpl. lia. }
    destruct (network env (posts w)) as [sc text|msg].
    + destruct (DirectAdminClient.is_success sc).
      * unfold lift. simpl. lia.
      * destruct (Nat.eqb attempt (max_retries - 1)).
        -- unfold raise. simpl. lia.
        -- apply Hs. intro w'. apply IH.
    + destruct (Nat.eqb attempt (max_retries - 1)).
      * unfold raise. simpl. lia.
      * apply Hs. intro w'. apply IH.
Qed.

End Retry.

Lemma parse_response_error_1 env text :
  DirectAdminClient.is_error_1
    (DirectAdminClient.flatten (parse_qs env text)) = true ->
  DirectAdminClient._parse_response env text
  = Raise (DirectAdminError
             (dict_get_default (DirectAdminClient.flatten (parse_qs env text))
                "text" (VStr "Unknown error"))
             (dict_get (DirectAdminClient.flatten (parse_qs env text))
                "details")).
Proof.
  intro H. unfold DirectAdminClient._parse_response. now rewrite H.
Qed.

(** ** The client touches nothing local *)

Lemma same_tables_refl w : same_tables w w.
Proof. repeat split. Qed.

Lemma same_tables_trans w1 w2 w3 :
  same_tables w1 w2 -> same_tables w2 w3 -> same_tables w1 w3.
Proof. unfold same_tables. intuition congruence. Qed.

Lemma attempts_frame env url params max_retries :
  forall remaining attempt w,
    same_tables w
      (snd (DirectAdminClient.attempts env url params max_retries attempt
              remaining w)).
Proof.
  induction remaining as [|r IH]; intros attempt w.
  - apply same_tables_refl.
  - simpl. unfold bind at 1. unfold httpx_post.
    set (w1 := mkWorld _ _ _ _ _).
    assert (H1 : same_tables w w1) by (repeat split).
    assert (Hs : forall k : M dict,
      (forall w', same_tables w' (snd (k w'))) ->
      same_tables w
        (snd (bind (sleep (2 ^ Z.of_nat attempt)) (fun _ => k) w1))).
    { intros k Hk. unfold bind, sleep, emit. simpl.
      eapply same_tables_trans; [|apply Hk]. repeat split. }
    destruct (network env (posts w)) as [sc text|msg].
    + destruct (DirectAdminClient.is_success sc); [exact H1|].
      destruct (Nat.eqb attempt (max_retries - 1)); [exact H1|].
      apply Hs. intro w'. apply IH.
    + destruct (Nat.eqb attempt (max_retries - 1)); [exact H1|].
      apply Hs. intro w'. apply IH.
Qed.

Lemma make_request_frame env self endpoint params n w :
  same_tables w
    (snd (DirectAdminClient._make_request env self endpoint params n w)).
Proof. apply attempts_frame. Qed.

Lemma client_list_emails_frame env self w :
  same_tables w (snd (DirectAdminClient.list_emails env self w)).
Proof.
  unfold DirectAdminClient.list_emails, bind.
  pose proof (make_request_frame env self "CMD_API_POP"
                [("action", VStr "list");
                 ("domain", DirectAdminClient.opt_val
                              (DirectAdminClient.domain self))]
                DirectAdminClient.default_max_retries w) as Hf.
  destruct (DirectAdminClient._make_request _ _ _ _ _ w) as [[r|e] w'];
    exact Hf.
Qed.

(** C4: with the default of three attempts, [_make_request] retries
    transport errors and non-2xx responses, pausing [2 ^ attempt] seconds
    after each failed attempt but the last, and after three failures raises
    the error of the last one; a 2xx response that decodes to [error=1] ends
    the call at once with [DirectAdminError(text, details)], whatever number
    of failures came before it; no call sends more than three requests. *)
Theorem make_request_retry_policy
  (env : Env) (self : DirectAdminClient.t) (endpoint : string) (params : dict)
  (w : World) :
  let url := DirectAdminClient.host self ++ "/" ++ endpoint in
  let run := DirectAdminClient._make_request env self endpoint params
               DirectAdminClient.default_max_retries w in
  ((forall i, (i < 3)%nat -> failed (network env (posts w + i)) = true) ->
   run = (Raise (failure_error (network env (posts w + 2))),
          after_requests w 3
            [EvPost url params; EvSleep 1;
             EvPost url params; EvSleep 2;
             EvPost url params])) /\
  (forall k status_code text,
     (k < 3)%nat ->
     (forall i, (i < k)%nat -> failed (network env (posts w + i)) = true) ->
     network env (posts w + k) = Response status_code text ->
     DirectAdminClient.is_success status_code = true ->
     let result := DirectAdminClient.flatten (parse_qs env text) in
     (DirectAdminClient.is_error_1 result = true ->
      run = (Raise (DirectAdminError
                      (dict_get_default result "text" (VStr "Unknown error"))
                      (dict_get result "details")),
             after_requests w (k + 1)
               (backoff url params 0 k ++ [EvPost url params]))) /\
     (DirectAdminClient.is_error_1 result = false ->
      run = (Ok result,
             after_requests w (k + 1)
               (backoff url params 0 k ++ [EvPost url params])))) /\
  (posts (snd run) <= posts w + 3)%nat.
Proof.
  intros url run. unfold run, DirectAdminClient._make_request,
    DirectAdminClient.default_max_retries. fold url.
  split; [|split].
  - intro Hfail. rewrite attempts_exhausted; [reflexivity|lia|exact Hfail].
  - intros k sc text Hk Hfail Hnet Hok.
    rewrite (attempts_answered env url params 3 k w sc text Hk Hfail Hnet Hok).
    split; intro He.
    + now rewrite parse_response_error_1.
    + unfold DirectAdminClient._parse_response. now rewrite He.
  - apply attempts_bounded.
Qed.

(** The scenario of the specification: two 500 responses are retried after
    1 and 2 seconds, the third response carries [error=1] and is not. *)
Lemma make_request_retry_policy_witness :
  let env := model_env (net_script quota_script) in
  let w := begin_request empty_db 0 0 in
  let url := "https://da.example.net:2222/CMD_API_POP" in
  let params := [("action", VStr "list"); ("domain", VStr "x.com")] in
  DirectAdminClient._make_request env sample_client "CMD_API_POP" params 3 w
  = (Raise (DirectAdminError (VStr "quota exceeded") None),
     after_requests w 3
       [EvPost url params; EvSleep 1; EvPost url params; EvSleep 2;
        EvPost url params]).
Proof.
  intros env w url params.
  pose proof (make_request_retry_policy env sample_client "CMD_API_POP"
                params w) as H.
  cbv zeta in H. destruct H as (_ & H & _).
  assert (Hk : (2 < 3)%nat) by lia.
  assert (Hfail : forall i, (i < 2)%nat ->
            failed (network env (posts w + i)) = true).
  { intros [|[|i]] Hi; try reflexivity; lia. }
  destruct (H 2%nat 200 "error=1&text=quota+exceeded" Hk Hfail
              eq_refl eq_refl) as [He _].
  apply He. reflexivity.
Defined.

Example make_request_all_fail :
  let env := model_env (fun _ => RequestError "connection refused") in
  let w := begin_request empty_db 0 0 in
  fst (DirectAdminClient._make_request env sample_client "CMD_API_POP" [] 3 w)
  = Raise (DirectAdminError (VStr "Network error")
                            (Some (VStr "connection refused"))) /\
  trace (snd (DirectAdminClient._make_request env sample_client
                "CMD_API_POP" [] 3 w))
  = [EvPost "https://da.example.net:2222/CMD_API_POP" []; EvSleep 1;
     EvPost "https://da.example.net:2222/CMD_API_POP" []; EvSleep 2;
     EvPost "https://da.example.net:2222/CMD_API_POP" []].
Proof. split; reflexivity. Qed.

(** ** The token service *)

Lemma expire_is_now_plus_ttl cfg expires_delta now :
  (if truthy_delta expires_delta
   then now + match expires_delta with Some d => d | None => 0 end
   else now + minutes (JWT_EXPIRE_MINUTES cfg))
  = now + effective_ttl cfg expires_delta.
Proof.
  unfold truthy_delta, effective_ttl.
  destruct expires_delta as [d|]; [|reflexivity].
  destruct (d =? 0); reflexivity.
Qed.

Lemma create_access_token_run env J cfg data expires_delta w :
  create_access_token env J cfg data expires_delta w
  = (Ok (jwt_encode J
           (dict_set data "exp"
              (CDatetime (clock env (ticks w) + effective_ttl cfg expires_delta)))
           (JWT_SECRET cfg) JWT_ALGORITHM),
     mkWorld (db w) (sess w) (S (ticks w)) (posts w) (trace w)).
Proof.
  unfold create_access_token, bind, utcnow, ret.
  now rewrite expire_is_now_plus_ttl.
Qed.

(** Whatever makes [jose] refuse a token, the caller sees one exception. *)
Lemma decode_access_token_failure env J cfg token w e :
  fst (decode_access_token env J cfg token w) = Raise e ->
  e = credentials_exception.
Proof.
  unfold decode_access_token, bind, utcnow.
  destruct (jwt_decode J token (JWT_SECRET cfg) [JWT_ALGORITHM]
              (clock env (ticks w))) as [payload|k]; simpl; intro H.
  - discriminate.
  - now injection H as <-.
Qed.

Lemma decode_access_token_refused env J cfg token w k :
  jwt_decode J token (JWT_SECRET cfg) [JWT_ALGORITHM] (clock env (ticks w))
  = inr k ->
  fst (decode_access_token env J cfg token w) = Raise credentials_exception.
Proof.
  intro H. unfold decode_access_token, bind, utcnow. now rewrite H.
Qed.

(** C3: a token issued for (user_id, email, role) validates, before its
    expiry, to claims that carry exactly these three values (and the expiry
    as a timestamp); validated after the time to live has passed it fails
    with 401; and every token that [jose] refuses, for whatever reason
    (expired, bad signature, malformed), fails with that same 401. *)
Theorem token_round_trip
  (env : Env) (J : Jose) (cfg : AuthConfig)
  (user_id : Z) (email role : string) (expires_delta : option Z)
  (w_issue w_check : World) :
  let expiry := clock env (ticks w_issue) + effective_ttl cfg expires_delta in
  let now := clock env (ticks w_check) in
  jose_contract J (signed_claims user_id email role expiry)
                (JWT_SECRET cfg) JWT_ALGORITHM ->
  exists token,
    fst (create_access_token env J cfg (token_data user_id email role)
           expires_delta w_issue) = Ok token /\
    (now < expiry ->
     exists payload,
       fst (decode_access_token env J cfg token w_check) = Ok payload /\
       payload
       = (token_data user_id email role ++ [("exp", CInt expiry)])%list /\
       dict_get payload "user_id" = Some (CInt user_id) /\
       dict_get payload "email" = Some (CStr email) /\
       dict_get payload "role" = Some (CStr role)) /\
    (expiry < now ->
     fst (decode_access_token env J cfg token w_check)
     = Raise credentials_exception) /\
    (forall token' w k,
       jwt_decode J token' (JWT_SECRET cfg) [JWT_ALGORITHM]
                  (clock env (ticks w)) = inr k ->
       fst (decode_access_token env J cfg token' w)
       = Raise credentials_exception) /\
    (forall token' w e,
       fst (decode_access_token env J cfg token' w) = Raise e ->
       e = HTTPException HTTP_401_UNAUTHORIZED "Could not validate credentials").
Proof.
  intros expiry now HJ.
  rewrite create_access_token_run. fold expiry.
  exists (jwt_encode J (signed_claims user_id email role expiry)
            (JWT_SECRET cfg) JWT_ALGORITHM).
  split; [reflexivity|].
  assert (Hexp : dict_get (signed_claims user_id email role expiry) "exp"
                 = Some (CDatetime expiry)) by reflexivity.
  destruct (HJ expiry now Hexp) as [Hbefore Hafter].
  repeat split.
  - intro Hlt. eexists. split; [|repeat split].
    unfold decode_access_token, bind, utcnow. fold now.
    rewrite (Hbefore Hlt). reflexivity.
  - intro Hlt. eapply decode_access_token_refused. fold now.
    apply (Hafter Hlt).
  - intros token' w k. apply decode_access_token_refused.
  - intros token' w e. apply decode_access_token_failure.
Qed.

Lemma table_jose_contract signed exp key alg :
  dict_get signed "exp" = Some (CDatetime exp) ->
  jose_contract (table_jose signed exp) signed key alg.
Proof.
  intros Hexp exp' now Hexp'. rewrite Hexp in Hexp'. injection Hexp' as <-.
  simpl. rewrite String.eqb_refl. split; intro H.
  - assert (E : (exp <? now) = false) by (apply Z.ltb_ge; lia).
    now rewrite E.
  - assert (E : (exp <? now) = true) by (apply Z.ltb_lt; lia).
    now rewrite E.
Qed.

(** A token issued at 1000 for one minute: valid half a minute later,
    refused after two minutes, and a foreign token is refused alike. *)
Lemma token_round_trip_witness :
  let env := model_env net_ok in
  let w_issue := begin_request empty_db 0 0 in
  exists token,
    fst (create_access_token env sample_jose sample_auth_config
           (token_data 7 "ops@a.com" "domain_admin") (Some 60) w_issue)
    = Ok token /\
    fst (decode_access_token env sample_jose sample_auth_config token
           (begin_request empty_db 30 0))
    = Ok [("user_id", CInt 7); ("email", CStr "ops@a.com");
          ("role", CStr "domain_admin"); ("exp", CInt 1060)] /\
    fst (decode_access_token env sample_jose sample_auth_config token
           (begin_request empty_db 120 0))
    = Raise credentials_exception /\
    fst (decode_access_token env sample_jose sample_auth_config "forged"
           (begin_request empty_db 30 0))
    = Raise credentials_exception.
Proof.
  intros env w_issue.
  destruct (token_round_trip env sample_jose sample_auth_config 7 "ops@a.com"
              "domain_admin" (Some 60) w_issue (begin_request empty_db 30 0))
    as (token & Hissue & Hvalid & _ & Hrefused & _).
  { apply table_jose_contract. reflexivity. }
  exists token. split; [exact Hissue|].
  destruct Hvalid as (payload & Hdec & -> & _); [reflexivity|].
  split; [exact Hdec|].
  injection Hissue as <-.
  split; reflexivity.
Defined.

(** ** The mailbox table *)

Lemma selects_any username domain r :
  selects username domain false r = same_mailbox username domain r.
Proof. unfold selects. apply andb_true_r. Qed.

Lemma find_selects_any username domain rows :
  find (selects username domain false) rows
  = find (same_mailbox username domain) rows.
Proof.
  induction rows as [|r rows IH]; simpl; [reflexivity|].
  now rewrite selects_any, IH.
Qed.

Lemma find_none_existsb {A} (p : A -> bool) (l : list A) :
  find p l = None -> existsb p l = false.
Proof.
  induction l as [|x l IH]; simpl; [reflexivity|].
  destruct (p x); [discriminate|]. exact IH.
Qed.

Lemma same_mailbox_key username dom r :
  same_mailbox username (Some dom) r = true <-> mailbox_key r = (username, dom).
Proof.
  unfold same_mailbox, mailbox_key. simpl.
  rewrite andb_true_iff, !String.eqb_eq. split.
  - intros [-> ->]. reflexivity.
  - intro H. injection H as -> ->. auto.
Qed.

Lemma same_mailbox_none username r : same_mailbox username None r = false.
Proof. unfold same_mailbox. simpl. apply andb_false_r. Qed.

Lemma update_rows_ids id f rows :
  (forall r, EmailAccount.id (f r) = EmailAccount.id r) ->
  map EmailAccount.id (update_rows id f rows) = map EmailAccount.id rows.
Proof.
  intro Hf. unfold update_rows. rewrite map_map. apply map_ext.
  intro r. destruct (EmailAccount.id r =? id); [apply Hf|reflexivity].
Qed.

Lemma update_rows_keys id f rows :
  (forall r, mailbox_key (f r) = mailbox_key r) ->
  map mailbox_key (update_rows id f rows) = map mailbox_key rows.
Proof.
  intro Hf. unfold update_rows. rewrite map_map. apply map_ext.
  intro r. destruct (EmailAccount.id r =? id); [apply Hf|reflexivity].
Qed.

Lemma update_rows_compose id f g rows :
  (forall r, EmailAccount.id (f r) = EmailAccount.id r) ->
  update_rows id g (update_rows id f rows)
  = update_rows id (fun r => g (f r)) rows.
Proof.
  intro Hf. unfold update_rows. rewrite map_map. apply map_ext. intro r.
  destruct (EmailAccount.id r =? id) eqn:E.
  - now rewrite Hf, E.
  - now rewrite E.
Qed.

(** ** One turn of the reconciliation loop *)

Section SyncOne.

Variable env : Env.
Variables (d : option string) (u : string) (w : World).

Local Abbreviation rows := (email_accounts (sess w)).

(** The mailbox has an active row: nothing is written. *)
Lemma sync_one_active r :
  find (same_mailbox u d) rows = Some r ->
  EmailAccount.deleted_at r = None ->
  sync_one env d u w = (Ok tt, logged w [EvQuery "email_accounts"]).
Proof.
  intros Hfind Hact.
  unfold sync_one, bind, select_email, emit, get_sess, ret. simpl.
  rewrite find_selects_any, Hfind. simpl. rewrite Hact. reflexivity.
Qed.

(** The mailbox has a deleted row: that row is resurrected. *)
Lemma sync_one_deleted r t :
  find (same_mailbox u d) rows = Some r ->
  EmailAccount.deleted_at r = Some t ->
  sync_one env d u w
  = (Ok tt,
     with_session_emails w
       (resurrect_rows (EmailAccount.id r) (clock env (ticks w)) rows)
       (S (ticks w)) [EvQuery "email_accounts"]).
Proof.
  intros Hfind Hdel.
  unfold sync_one, bind, select_email, emit, get_sess, ret. simpl.
  rewrite find_selects_any, Hfind. simpl. rewrite Hdel.
  unfold update_email, bind, get_sess, set_sess, utcnow. simpl.
  unfold with_session_emails, with_emails, resurrect_rows. simpl.
  rewrite update_rows_compose by reflexivity. reflexivity.
Qed.

(** The mailbox has no row: one is inserted with the default quota. *)
Lemma sync_one_absent dom :
  d = Some dom ->
  find (same_mailbox u d) rows = None ->
  sync_one env d u w
  = (Ok tt,
     with_session_emails w
       (rows ++ [backfilled rows u dom (clock env (ticks w))
                   (clock env (S (ticks w)))])
       (S (S (ticks w))) [EvQuery "email_accounts"]).
Proof.
  intros -> Hfind.
  unfold sync_one, bind, select_email, emit, get_sess, ret. simpl.
  rewrite find_selects_any, Hfind. simpl.
  unfold add_email, bind, utcnow, get_sess, set_sess, ret, raise. simpl.
  rewrite (find_none_existsb _ _ Hfind). simpl. reflexivity.
Qed.

(** Without a domain the insert violates NOT NULL. *)
Lemma sync_one_no_domain :
  d = None ->
  exists msg w', sync_one env d u w = (Raise (IntegrityError msg), w').
Proof.
  intros ->.
  unfold sync_one, bind, select_email, emit, get_sess, ret. simpl.
  rewrite find_selects_any.
  assert (Hnone : find (same_mailbox u None) rows = None).
  { induction rows as [|r l IH]; simpl; [reflexivity|].
    now rewrite same_mailbox_none. }
  rewrite Hnone. simpl. do 2 eexists. reflexivity.
Qed.

End SyncOne.

(** ** Reconciliation is idempotent *)

Lemma find_update_rows (p : EmailAccount.t -> bool) id f rows :
  (forall r, p (f r) = p r) ->
  find p (update_rows id f rows)
  = option_map (fun r => if EmailAccount.id r =? id then f r else r)
               (find p rows).
Proof.
  intro Hp. induction rows as [|r rows IH]; simpl; [reflexivity|].
  destruct (EmailAccount.id r =? id) eqn:E.
  - rewrite Hp. destruct (p r); [simpl; now rewrite E|exact IH].
  - destruct (p r); [simpl; now rewrite E|exact IH].
Qed.

Lemma find_app_some {A} (p : A -> bool) l l' x :
  find p l = Some x -> find p (l ++ l') = Some x.
Proof.
  induction l as [|y l IH]; simpl; [discriminate|].
  destruct (p y); [auto|exact IH].
Qed.

Lemma find_app_none {A} (p : A -> bool) l l' :
  find p l = None -> find p (l ++ l') = find p l'.
Proof.
  induction l as [|y l IH]; simpl; [reflexivity|].
  destruct (p y); [discriminate|exact IH].
Qed.

Lemma same_mailbox_resurrected username domain now r :
  same_mailbox username domain (resurrected now r)
  = same_mailbox username domain r.
Proof. reflexivity. Qed.

(** What one turn of the loop can do to the session's rows. *)
Lemma sync_one_inv env d u w w' :
  sync_one env d u w = (Ok tt, w') ->
  db w' = db w /\ posts w' = posts w /\
  ((exists r, find (same_mailbox u d) (email_accounts (sess w)) = Some r
              /\ EmailAccount.deleted_at r = None
              /\ w' = logged w [EvQuery "email_accounts"])
   \/ (exists r t, find (same_mailbox u d) (email_accounts (sess w)) = Some r
                   /\ EmailAccount.deleted_at r = Some t
                   /\ w' = with_session_emails w
                             (resurrect_rows (EmailAccount.id r)
                                (clock env (ticks w))
                                (email_accounts (sess w)))
                             (S (ticks w)) [EvQuery "email_accounts"])
   \/ (exists dom, d = Some dom
                   /\ find (same_mailbox u d) (email_accounts (sess w)) = None
                   /\ w' = with_session_emails w
                             (email_accounts (sess w)
                                ++ [backfilled (email_accounts (sess w)) u dom
                                      (clock env (ticks w))
                                      (clock env (S (ticks w)))])
                             (S (S (ticks w))) [EvQuery "email_accounts"])).
Proof.
  intro H.
  destruct (find (same_mailbox u d) (email_accounts (sess w))) as [r|] eqn:Hf.
  - destruct (EmailAccount.deleted_at r) as [t|] eqn:Hd.
    + rewrite (sync_one_deleted env d u w r t Hf Hd) in H.
      injection H as <-. repeat split. right. left. eauto.
    + rewrite (sync_one_active env d u w r Hf Hd) in H.
      injection H as <-. repeat split. left. eauto.
  - destruct d as [dom|].
    + rewrite (sync_one_absent env (Some dom) u w dom eq_refl Hf) in H.
      injection H as <-. repeat split. right. right. eauto.
    + destruct (sync_one_no_domain env None u w eq_refl) as (msg & w0 & E).
      rewrite E in H. discriminate.
Qed.

(** A turn of the loop for [u] settles [u] ... *)
Lemma sync_one_settles env d u w w' :
  sync_one env d u w = (Ok tt, w') ->
  settled d u (email_accounts (sess w')).
Proof.
  intro H. destruct (sync_one_inv _ _ _ _ _ H) as (_ & _ & Hc).
  destruct Hc as [(r & Hf & Hd & ->)|[(r & t & Hf & Hd & ->)|(dom & -> & Hf & ->)]].
  - exists r. auto.
  - simpl. exists (resurrected (clock env (ticks w)) r). split; [|reflexivity].
    unfold resurrect_rows.
    rewrite find_update_rows by apply same_mailbox_resurrected.
    rewrite Hf. simpl. now rewrite Z.eqb_refl.
  - simpl. eexists. split.
    + rewrite (find_app_none _ _ _ Hf). simpl.
      unfold same_mailbox, backfilled. simpl. now rewrite !String.eqb_refl.
    + reflexivity.
Qed.

(** ... and leaves settled whatever was. *)
Lemma sync_one_keeps_settled env d u u' w w' :
  settled d u (email_accounts (sess w)) ->
  sync_one env d u' w = (Ok tt, w') ->
  settled d u (email_accounts (sess w')).
Proof.
  intros (r0 & Hf0 & Hd0) H.
  destruct (sync_one_inv _ _ _ _ _ H) as (_ & _ & Hc).
  destruct Hc as [(r & Hf & Hd & ->)|[(r & t & Hf & Hd & ->)|(dom & -> & Hf & ->)]].
  - exists r0. auto.
  - simpl. unfold settled, resurrect_rows.
    rewrite find_update_rows by apply same_mailbox_resurrected.
    rewrite Hf0. simpl. eexists. split; [reflexivity|].
    destruct (EmailAccount.id r0 =? EmailAccount.id r); [reflexivity|exact Hd0].
  - simpl. exists r0. split; [|exact Hd0]. now apply find_app_some.
Qed.

Lemma sync_all_cons_inv env d u l w w' :
  sync_all env d (u :: l) w = (Ok tt, w') ->
  exists w1, sync_one env d u w = (Ok tt, w1)
             /\ sync_all env d l w1 = (Ok tt, w').
Proof.
  simpl. unfold bind at 1.
  destruct (sync_one env d u w) as [[[]|e] w1]; intro H.
  - eauto.
  - discriminate.
Qed.

Lemma sync_all_keeps_settled env d u : forall l w w',
  settled d u (email_accounts (sess w)) ->
  sync_all env d l w = (Ok tt, w') ->
  settled d u (email_accounts (sess w')).
Proof.
  induction l as [|u' l IH]; intros w w' Hs H.
  - simpl in H. injection H as <-. exact Hs.
  - destruct (sync_all_cons_inv _ _ _ _ _ _ H) as (w1 & H1 & H2).
    eapply IH; [|exact H2]. eapply sync_one_keeps_settled; eauto.
Qed.

(** After the loop every remote mailbox is settled. *)
Lemma sync_all_settles env d : forall l w w',
  sync_all env d l w = (Ok tt, w') ->
  forall u, In u l -> settled d u (email_accounts (sess w')).
Proof.
  induction l as [|u' l IH]; intros w w' H u Hin; [destruct Hin|].
  destruct (sync_all_cons_inv _ _ _ _ _ _ H) as (w1 & H1 & H2).
  destruct Hin as [<-|Hin].
  - eapply sync_all_keeps_settled; [|exact H2].
    eapply sync_one_settles; eauto.
  - eapply IH; eauto.
Qed.

Lemma logged_logged w evs evs' :
  logged (logged w evs) evs' = logged w (evs ++ evs').
Proof. unfold logged. simpl. now rewrite app_assoc. Qed.

(** Over settled mailboxes the loop only queries. *)
Lemma sync_all_settled env d : forall l w,
  (forall u, In u l -> settled d u (email_accounts (sess w))) ->
  sync_all env d l w
  = (Ok tt, logged w (repeat (EvQuery "email_accounts") (List.length l))).
Proof.
  induction l as [|u l IH]; intros w Hs.
  - simpl. unfold ret, logged. simpl. rewrite app_nil_r. now destruct w.
  - simpl. unfold bind at 1.
    destruct (Hs u (or_introl eq_refl)) as (r & Hf & Hd).
    rewrite (sync_one_active env d u w r Hf Hd).
    rewrite IH.
    + now rewrite logged_logged.
    + intros u' Hin. simpl. apply Hs. now right.
Qed.

Lemma sync_domain_inv env d l w res w' :
  sync_domain env d l w = (Ok res, w') ->
  exists wa, sync_all env d l w = (Ok tt, wa)
             /\ res = filter (active_in d) (email_accounts (sess wa))
             /\ w' = mkWorld (sess wa) (sess wa) (ticks wa) (posts wa)
                       ((trace wa ++ [EvCommit]) ++ [EvQuery "email_accounts"]).
Proof.
  unfold sync_domain. unfold bind at 1.
  destruct (sync_all env d l w) as [[[]|e] wa]; intro H; [|discriminate].
  unfold bind, commit, select_active_emails, bind, emit, get_sess, ret in H.
  simpl in H. injection H as <- <-. eauto.
Qed.

(** A second pass over the same remote list, started on what the first
    pass committed, returns the same records and commits the same tables; it
    reads no clock (nothing is inserted or updated) and only queries. *)
Lemma sync_domain_twice
  (env : Env) (d : option string) (l : list string)
  (w1 w1' w2 : World) (res1 : list EmailAccount.t) :
  sync_domain env d l w1 = (Ok res1, w1') ->
  sess w2 = db w1' ->
  exists w2',
    sync_domain env d l w2 = (Ok res1, w2') /\
    db w2' = db w1' /\
    sess w2' = sess w2 /\
    ticks w2' = ticks w2 /\
    trace w2'
    = (trace w2 ++ repeat (EvQuery "email_accounts") (List.length l)
         ++ [EvCommit; EvQuery "email_accounts"])%list.
Proof.
  intros H1 Hsess.
  destruct (sync_domain_inv _ _ _ _ _ _ H1) as (wa & Hall & -> & ->).
  simpl in Hsess.
  assert (Hs : forall u, In u l -> settled d u (email_accounts (sess w2))).
  { intros u Hin. rewrite Hsess. eapply sync_all_settles; eauto. }
  exists (mkWorld (sess w2) (sess w2) (ticks w2) (posts w2)
            (((trace w2 ++ repeat (EvQuery "email_accounts") (List.length l))
                ++ [EvCommit]) ++ [EvQuery "email_accounts"])).
  split.
  - unfold sync_domain. unfold bind at 1.
    rewrite (sync_all_settled env d l w2 Hs).
    unfold bind, commit, select_active_emails, bind, emit, get_sess, ret.
    simpl. rewrite Hsess. reflexivity.
  - simpl. repeat split.
    + exact Hsess.
    + now rewrite <- !app_assoc.
Qed.

(** The three [except] clauses, applied to the outcome of a body. *)
Lemma try_endpoint_run {A} (body : M A) w :
  try_endpoint body w
  = (match fst (body w) with
     | Ok a => Ok a
     | Raise e => Raise (translate_exn e)
     end, snd (body w)).
Proof. unfold try_endpoint. now destruct (body w) as [[a|e] w']. Qed.

(** [list_emails], once the guards have passed and the control panel has
    answered, is the reconciliation pass. *)
Lemma list_emails_run env user domain w eff host l wa :
  authorized_domain env user domain = Ok eff ->
  getenv env "DIRECTADMIN_HOST" = Some host ->
  DirectAdminClient.list_emails env (new_client env host eff) w = (Ok l, wa) ->
  list_emails env user domain w
  = (match fst (sync_domain env eff l wa) with
     | Ok a => Ok a
     | Raise e => Raise (translate_exn e)
     end, snd (sync_domain env eff l wa)).
Proof.
  unfold authorized_domain. intros Hauth Hhost Hlist.
  unfold list_emails. rewrite try_endpoint_run.
  unfold bind at 1 2, lift.
  destruct (check_domain_param_tampering user domain) as [[]|e];
    [|discriminate]. simpl in Hauth.
  unfold bind at 1 3.
  destruct (check_domain_access user _) as [[]|e]; [|discriminate].
  injection Hauth as Heff. rewrite Heff.
  unfold bind at 1 3, get_da_client. rewrite Hhost. unfold ret at 1 2.
  unfold bind at 1 2. rewrite Hlist. reflexivity.
Qed.

Lemma list_emails_ok_inv env user domain w res w' :
  list_emails env user domain w = (Ok res, w') ->
  exists eff host l wa,
    authorized_domain env user domain = Ok eff /\
    getenv env "DIRECTADMIN_HOST" = Some host /\
    DirectAdminClient.list_emails env (new_client env host eff) w
    = (Ok l, wa) /\
    sync_domain env eff l wa = (Ok res, w').
Proof.
  unfold list_emails, try_endpoint, authorized_domain, bind at 1, lift.
  destruct (check_domain_param_tampering user domain) as [[]|e]; simpl;
    [|discriminate].
  unfold bind at 1.
  destruct (check_domain_access user _) as [[]|e]; simpl; [|discriminate].
  unfold bind at 1, get_da_client.
  destruct (getenv env "DIRECTADMIN_HOST") as [host|]; simpl; [|discriminate].
  unfold bind at 1.
  destruct (DirectAdminClient.list_emails env _ w) as [[l|e] wa] eqn:Hlist;
    [|discriminate].
  destruct (sync_domain env _ l wa) as [[a|e] w0] eqn:Hsync; [|discriminate].
  intro H. injection H as <- <-.
  do 4 eexists. repeat split; eauto.
Qed.

(** C5: a second reconciliation pass over the same remote list, started on
    what the first pass committed, returns the same records and commits the
    same tables, reading no clock: nothing is inserted, nothing is updated.
    So does a second GET /emails when the control panel answers the list
    request as it did for the first. *)
Theorem reconciliation_idempotent (env : Env) :
  (forall d l w1 w1' w2 res1,
     sync_domain env d l w1 = (Ok res1, w1') ->
     sess w2 = db w1' ->
     exists w2',
       sync_domain env d l w2 = (Ok res1, w2') /\
       db w2' = db w1' /\
       sess w2' = sess w2 /\
       ticks w2' = ticks w2 /\
       trace w2'
       = (trace w2 ++ repeat (EvQuery "email_accounts") (List.length l)
            ++ [EvCommit; EvQuery "email_accounts"])%list) /\
  (forall user domain w1 w1' w2 res1,
     list_emails env user domain w1 = (Ok res1, w1') ->
     sess w2 = db w1' ->
     (forall client,
        fst (DirectAdminClient.list_emails env client w2)
        = fst (DirectAdminClient.list_emails env client w1)) ->
     exists w2',
       list_emails env user domain w2 = (Ok res1, w2') /\
       db w2' = db w1' /\
       ticks w2' = ticks w2).
Proof.
  split.
  - intros d l w1 w1' w2 res1. apply sync_domain_twice.
  - intros user domain w1 w1' w2 res1 H1 Hsess Hsame.
    destruct (list_emails_ok_inv _ _ _ _ _ _ H1)
      as (eff & host & l & wa & Hauth & Hhost & Hlist & Hsync).
    specialize (Hsame (new_client env host eff)).
    rewrite Hlist in Hsame. simpl in Hsame.
    pose proof (client_list_emails_frame env (new_client env host eff) w2)
      as (_ & Hs2 & Ht2).
    destruct (DirectAdminClient.list_emails env (new_client env host eff) w2)
      as [r2 w2a] eqn:Hlist2.
    simpl in Hsame, Hs2, Ht2. subst r2.
    destruct (sync_domain_twice env eff l wa w1' w2a res1 Hsync)
      as (w2' & Hsync2 & Hdb & _ & Hticks & _).
    { now rewrite Hs2. }
    exists w2'.
    rewrite (list_emails_run env user domain w2 eff host l w2a Hauth Hhost
               Hlist2).
    rewrite Hsync2. simpl. repeat split; congruence.
Qed.

Lemma reconciliation_idempotent_witness :
  let env := model_env net_ok in
  let first :=
    sync_domain env (Some "x.com") ["alice"; "carol"]
      (begin_request sample_db 0 0) in
  exists res w2',
    fst first = Ok res /\
    map EmailAccount.username res = ["alice"; "bob"; "carol"] /\
    sync_domain env (Some "x.com") ["alice"; "carol"]
      (begin_request (db (snd first)) 10 3) = (Ok res, w2') /\
    db w2' = db (snd first) /\
    ticks w2' = 10%nat.
Proof.
  intros env first.
  assert (H1 : exists res, first = (Ok res, snd first)
                           /\ map EmailAccount.username res
                              = ["alice"; "bob"; "carol"]).
  { eexists. split; vm_compute; reflexivity. }
  destruct H1 as (res & H1 & Hnames).
  destruct (reconciliation_idempotent env) as [Hpass _].
  destruct (Hpass (Some "x.com") ["alice"; "carol"]
              (begin_request sample_db 0 0) (snd first)
              (begin_request (db (snd first)) 10 3) res H1 eq_refl)
    as (w2' & H2 & Hdb & _ & Hticks & _).
  exists res, w2'. rewrite H1. simpl fst. auto.
Defined.

(** The same at the endpoint: an administrator lists [x.com] twice while
    the control panel keeps answering with the same two mailboxes. *)
Example list_emails_twice :
  let env := model_env (fun _ => Response 200 "list[]=alice&list[]=carol") in
  let first := list_emails env sample_admin None (begin_request sample_db 0 0) in
  let second :=
    list_emails env sample_admin None
      (begin_request (db (snd first)) (ticks (snd first)) (posts (snd first))) in
  fst second = fst first /\
  db (snd second) = db (snd first) /\
  email_accounts (db (snd first))
  = [ EmailAccount.mk 1 "alice" "x.com" 500 (Some 1) 30 1000 None;
      bob;
      EmailAccount.mk 3 "carol" "x.com" 1000 None 1001 1002 None ].
Proof. repeat split; vm_compute; reflexivity. Qed.

(** ** The table constraints are kept by the reconciliation *)

Lemma ids_below_next rows x :
  In x (map EmailAccount.id rows) -> x < next_id rows.
Proof.
  unfold next_id. induction rows as [|r rows IH]; cbn [map fold_right In];
    [tauto|].
  intros [<-|Hin]; [lia|]. specialize (IH Hin). lia.
Qed.

Lemma NoDup_snoc {A} (l : list A) (a : A) :
  NoDup l -> ~ In a l -> NoDup (l ++ [a]).
Proof.
  intros Hl Ha. apply (NoDup_Add (a := a) (l := l ++ [])).
  - apply Add_app.
  - rewrite app_nil_r. auto.
Qed.

Lemma table_ok_backfilled rows u dom c1 c2 :
  table_ok rows ->
  find (same_mailbox u (Some dom)) rows = None ->
  table_ok (rows ++ [backfilled rows u dom c1 c2]).
Proof.
  intros [Hid Hkey] Hf. unfold table_ok. rewrite !map_app. simpl. split.
  - apply NoDup_snoc; [exact Hid|]. intro Hin.
    apply ids_below_next in Hin. lia.
  - apply NoDup_snoc; [exact Hkey|]. intro Hin.
    apply in_map_iff in Hin. destruct Hin as (r & Hk & Hr).
    apply (find_none _ _ Hf) in Hr.
    change (mailbox_key r = (u, dom)) in Hk.
    apply same_mailbox_key in Hk. congruence.
Qed.

Lemma table_ok_resurrect rows id now :
  table_ok rows -> table_ok (resurrect_rows id now rows).
Proof.
  intros [Hid Hkey]. unfold table_ok, resurrect_rows.
  rewrite update_rows_ids, update_rows_keys by reflexivity. auto.
Qed.

Lemma sync_one_table_ok env d u w w' :
  table_ok (email_accounts (sess w)) ->
  sync_one env d u w = (Ok tt, w') ->
  table_ok (email_accounts (sess w')).
Proof.
  intros Hok H. destruct (sync_one_inv _ _ _ _ _ H) as (_ & _ & Hc).
  destruct Hc as [(r & Hf & Hd & ->)|[(r & t & Hf & Hd & ->)|(dom & -> & Hf & ->)]];
    simpl.
  - exact Hok.
  - now apply table_ok_resurrect.
  - now apply table_ok_backfilled.
Qed.

Lemma sync_all_table_ok env d : forall l w w',
  table_ok (email_accounts (sess w)) ->
  sync_all env d l w = (Ok tt, w') ->
  table_ok (email_accounts (sess w')).
Proof.
  induction l as [|u l IH]; intros w w' Hok H.
  - simpl in H. injection H as <-. exact Hok.
  - destruct (sync_all_cons_inv _ _ _ _ _ _ H) as (w1 & H1 & H2).
    eapply IH; [|exact H2]. eapply sync_one_table_ok; eauto.
Qed.

Lemma sync_one_ticks env d u w w' :
  sync_one env d u w = (Ok tt, w') -> (ticks w <= ticks w')%nat.
Proof.
  intro H. destruct (sync_one_inv _ _ _ _ _ H) as (_ & _ & Hc).
  destruct Hc as [(r & Hf & Hd & ->)|[(r & t & Hf & Hd & ->)|(dom & -> & Hf & ->)]];
    simpl; lia.
Qed.

Lemma sync_all_ticks env d : forall l w w',
  sync_all env d l w = (Ok tt, w') -> (ticks w <= ticks w')%nat.
Proof.
  induction l as [|u l IH]; intros w w' H.
  - simpl in H. injection H as <-. lia.
  - destruct (sync_all_cons_inv _ _ _ _ _ _ H) as (w1 & H1 & H2).
    apply sync_one_ticks in H1. apply IH in H2. lia.
Qed.

(** ** Resurrection *)

Lemma NoDup_map_eq {A B} (f : A -> B) (l : list A) (a b : A) :
  NoDup (map f l) -> In a l -> In b l -> f a = f b -> a = b.
Proof.
  induction l as [|x l IH]; simpl; intros Hnd Ha Hb Hab; [tauto|].
  inversion Hnd as [|? ? Hnotin Hnd']; subst.
  destruct Ha as [->|Ha], Hb as [->|Hb].
  - reflexivity.
  - exfalso. apply Hnotin. rewrite Hab. now apply in_map.
  - exfalso. apply Hnotin. rewrite <- Hab. now apply in_map.
  - now apply IH.
Qed.

(** Under [uq_username_domain] the query for a mailbox finds its row. *)
Lemma find_own_row rows x :
  NoDup (map mailbox_key rows) -> In x rows ->
  find (same_mailbox (EmailAccount.username x)
          (Some (EmailAccount.domain x))) rows = Some x.
Proof.
  intros Hnd Hin.
  destruct (find _ rows) as [r|] eqn:Hf.
  - apply find_some in Hf. destruct Hf as [Hr Hk].
    apply same_mailbox_key in Hk. f_equal.
    now apply (NoDup_map_eq mailbox_key rows).
  - apply (find_none _ _ Hf) in Hin.
    assert (E : same_mailbox (EmailAccount.username x)
                  (Some (EmailAccount.domain x)) x = true)
      by now apply same_mailbox_key.
    congruence.
Qed.

Lemma filter_own_row rows x :
  NoDup (map mailbox_key rows) -> In x rows ->
  filter (same_mailbox (EmailAccount.username x)
            (Some (EmailAccount.domain x))) rows = [x].
Proof.
  set (p := same_mailbox _ _).
  assert (Hp : p x = true) by now apply same_mailbox_key.
  induction rows as [|r rows IH]; simpl; intros Hnd Hin; [tauto|].
  inversion Hnd as [|? ? Hnotin Hnd']; subst.
  assert (Hrest : ~ In (mailbox_key r) (map mailbox_key rows) ->
                  forall y, In y rows -> p y = true -> mailbox_key y <> mailbox_key r).
  { intros Hn y Hy _ E. apply Hn. rewrite <- E. now apply in_map. }
  destruct Hin as [->|Hin].
  - rewrite Hp. f_equal.
    assert (Hnone : forall y, In y rows -> p y = false).
    { intros y Hy. destruct (p y) eqn:E; [|reflexivity].
      exfalso. apply Hnotin. apply same_mailbox_key in E.
      change (mailbox_key y = mailbox_key x) in E.
      rewrite <- E. now apply in_map. }
    clear -Hnone. induction rows as [|y rows IH]; simpl; [reflexivity|].
    rewrite (Hnone y (or_introl eq_refl)). apply IH.
    intros z Hz. apply Hnone. now right.
  - destruct (p r) eqn:E.
    + exfalso. apply Hnotin. apply same_mailbox_key in E.
      change (mailbox_key r = mailbox_key x) in E.
      rewrite E. now apply in_map.
    + now apply IH.
Qed.

Lemma in_update_rows_other id f rows x :
  In x rows -> EmailAccount.id x <> id -> In x (update_rows id f rows).
Proof.
  intros Hin Hne. unfold update_rows. apply in_map_iff. exists x.
  split; [|exact Hin]. apply Z.eqb_neq in Hne. now rewrite Hne.
Qed.

Lemma in_update_rows_same id f rows x :
  In x rows -> EmailAccount.id x = id -> In (f x) (update_rows id f rows).
Proof.
  intros Hin He. unfold update_rows. apply in_map_iff. exists x.
  split; [|exact Hin]. apply Z.eqb_eq in He. now rewrite He.
Qed.

(** A turn of the loop leaves alone every row it is not about, and every
    active row. *)
Lemma sync_one_keeps_row env d u w w' x :
  table_ok (email_accounts (sess w)) ->
  In x (email_accounts (sess w)) ->
  mailbox_key x <> (u, d) \/ EmailAccount.deleted_at x = None ->
  sync_one env (Some d) u w = (Ok tt, w') ->
  In x (email_accounts (sess w')).
Proof.
  intros [Hid Hkey] Hin Hx H.
  destruct (sync_one_inv _ _ _ _ _ H) as (_ & _ & Hc).
  destruct Hc as [(r & Hf & Hd & ->)|[(r & t & Hf & Hd & ->)|(dom & _ & Hf & ->)]];
    simpl.
  - exact Hin.
  - apply in_update_rows_other; [exact Hin|].
    apply find_some in Hf. destruct Hf as [Hr Hk].
    apply same_mailbox_key in Hk. intro E.
    assert (x = r) by now apply (NoDup_map_eq EmailAccount.id _ x r Hid).
    subst x. destruct Hx; congruence.
  - apply in_or_app. now left.
Qed.

Lemma sync_all_keeps_active_row env d x : forall l w w',
  table_ok (email_accounts (sess w)) ->
  In x (email_accounts (sess w)) ->
  EmailAccount.deleted_at x = None ->
  sync_all env (Some d) l w = (Ok tt, w') ->
  In x (email_accounts (sess w')).
Proof.
  induction l as [|u l IH]; intros w w' Hok Hin Hact H.
  - simpl in H. injection H as <-. exact Hin.
  - destruct (sync_all_cons_inv _ _ _ _ _ _ H) as (w1 & H1 & H2).
    eapply IH; [| |exact Hact|exact H2].
    + eapply sync_one_table_ok; eauto.
    + eapply sync_one_keeps_row; eauto.
Qed.

(** The turn of the loop for a deleted mailbox resurrects its row. *)
Lemma sync_one_resurrects env w w' x t :
  table_ok (email_accounts (sess w)) ->
  In x (email_accounts (sess w)) ->
  EmailAccount.deleted_at x = Some t ->
  sync_one env (Some (EmailAccount.domain x)) (EmailAccount.username x) w
  = (Ok tt, w') ->
  In (resurrected (clock env (ticks w)) x) (email_accounts (sess w'))
  /\ ticks w' = S (ticks w).
Proof.
  intros [Hid Hkey] Hin Hdel H.
  rewrite (sync_one_deleted env _ _ w x t (find_own_row _ _ Hkey Hin) Hdel) in H.
  injection H as <-. simpl. split; [|reflexivity].
  unfold resurrect_rows. now apply in_update_rows_same.
Qed.

Lemma sync_all_resurrects env x t : forall l w w',
  table_ok (email_accounts (sess w)) ->
  In x (email_accounts (sess w)) ->
  EmailAccount.deleted_at x = Some t ->
  In (EmailAccount.username x) l ->
  sync_all env (Some (EmailAccount.domain x)) l w = (Ok tt, w') ->
  exists i, (ticks w <= i < ticks w')%nat
            /\ In (resurrected (clock env i) x) (email_accounts (sess w')).
Proof.
  induction l as [|u l IH]; intros w w' Hok Hin Hdel Hu H; [destruct Hu|].
  destruct (sync_all_cons_inv _ _ _ _ _ _ H) as (w1 & H1 & H2).
  pose proof (sync_one_table_ok _ _ _ _ _ Hok H1) as Hok1.
  destruct (string_dec u (EmailAccount.username x)) as [->|Hne].
  - destruct (sync_one_resurrects _ _ _ _ _ Hok Hin Hdel H1) as [Hin1 Ht].
    exists (ticks w). split.
    + apply sync_all_ticks in H2. lia.
    + eapply sync_all_keeps_active_row; [exact Hok1|exact Hin1| |exact H2].
      reflexivity.
  - destruct Hu as [Hu|Hu]; [congruence|].
    destruct (IH w1 w' Hok1) as (i & Hi & Hin'); try assumption.
    + eapply sync_one_keeps_row; [exact Hok|exact Hin| |exact H1].
      left. unfold mailbox_key. congruence.
    + exists i. split; [|exact Hin'].
      apply sync_one_ticks in H1. lia.
Qed.

(** C6: a soft-deleted row whose username is in the remote list comes out
    of the reconciliation pass as the same row (same id, username, domain,
    quota, creator and creation time) with [deleted_at] cleared and
    [updated_at] set to a clock reading of the pass; it is committed, it is
    the only row of its mailbox, and it is among the rows returned. *)
Theorem resurrection_keeps_the_row
  (env : Env) (l : list string) (w w' : World)
  (x : EmailAccount.t) (t : Z) (res : list EmailAccount.t) :
  table_ok (email_accounts (sess w)) ->
  In x (email_accounts (sess w)) ->
  EmailAccount.deleted_at x = Some t ->
  In (EmailAccount.username x) l ->
  sync_domain env (Some (EmailAccount.domain x)) l w = (Ok res, w') ->
  exists i,
    (ticks w <= i < ticks w')%nat /\
    let x' := EmailAccount.mk (EmailAccount.id x) (EmailAccount.username x)
                (EmailAccount.domain x) (EmailAccount.quota_mb x)
                (EmailAccount.created_by_user_id x) (EmailAccount.created_at x)
                (clock env i) None in
    filter (same_mailbox (EmailAccount.username x)
              (Some (EmailAccount.domain x)))
           (email_accounts (db w')) = [x'] /\
    In x' res.
Proof.
  intros Hok Hin Hdel Hu H.
  destruct (sync_domain_inv _ _ _ _ _ _ H) as (wa & Hall & -> & ->).
  destruct (sync_all_resurrects env x t l w wa Hok Hin Hdel Hu Hall)
    as (i & Hi & Hin').
  pose proof (sync_all_table_ok _ _ _ _ _ Hok Hall) as [_ Hkey].
  exists i. simpl. split; [exact Hi|]. split.
  - apply (filter_own_row _ (resurrected (clock env i) x) Hkey Hin').
  - apply filter_In. split; [exact Hin'|].
    unfold active_in. simpl. now rewrite String.eqb_refl.
Qed.

Lemma resurrection_keeps_the_row_witness :
  let env := model_env net_ok in
  let run := sync_domain env (Some "x.com") ["alice"; "carol"]
               (begin_request sample_db 0 0) in
  exists i,
    (0 <= i < 3)%nat /\
    filter (same_mailbox "alice" (Some "x.com"))
           (email_accounts (db (snd run)))
    = [EmailAccount.mk 1 "alice" "x.com" 500 (Some 1) 30 (clock env i) None].
Proof.
  intros env run.
  assert (Hrun : exists res, run = (Ok res, snd run))
    by (eexists; vm_compute; reflexivity).
  destruct Hrun as (res & Hrun).
  destruct (resurrection_keeps_the_row env ["alice"; "carol"]
              (begin_request sample_db 0 0) (snd run) deleted_alice 50 res)
    as (i & Hi & Hfilter & _).
  - split; repeat constructor; simpl; intuition discriminate.
  - now left.
  - reflexivity.
  - now left.
  - exact Hrun.
  - exists i. split; [exact Hi|exact Hfilter].
Defined.

(** An answer of [_make_request] comes from a 2xx response that followed
    only retried failures. *)
Lemma attempts_ok_inv env url params max_retries :
  forall remaining attempt w r w',
    DirectAdminClient.attempts env url params max_retries attempt remaining w
    = (Ok r, w') ->
    exists k status_code text,
      (k < remaining)%nat /\
      (forall i, (i < k)%nat -> failed (network env (posts w + i)) = true) /\
      network env (posts w + k) = Response status_code text /\
      DirectAdminClient.is_success status_code = true /\
      DirectAdminClient._parse_response env text = Ok r /\
      w' = after_requests w (k + 1)
             (backoff url params attempt k ++ [EvPost url params]).
Proof.
  induction remaining as [|rem IH]; intros attempt w r w' H.
  - discriminate.
  - destruct (failed (network env (posts w))) eqn:Hfail.
    + destruct (Nat.eq_dec attempt (max_retries - 1)) as [Hlast|Hlast].
      * rewrite attempts_last_failed in H by assumption. discriminate.
      * rewrite attempts_retry in H by assumption.
        apply IH in H.
        destruct H as (k & sc & text & Hk & Hf & Hnet & Hok & Hparse & ->).
        exists (S k), sc, text. simpl posts in *.
        repeat split; try assumption.
        -- lia.
        -- intros [|i] Hi; [now rewrite Nat.add_0_r|].
           replace (posts w + S i)%nat with (posts w + 1 + i)%nat by lia.
           apply Hf. lia.
        -- now replace (posts w + S k)%nat with (posts w + 1 + k)%nat by lia.
        -- rewrite after_requests_twice. simpl. reflexivity.
    + destruct (network env (posts w)) as [sc text|msg] eqn:Hnet;
        [|discriminate].
      simpl in Hfail. apply negb_false_iff in Hfail.
      rewrite (attempts_success env url params max_retries attempt rem w
                 sc text Hnet Hfail) in H.
      injection H as Hparse <-.
      exists 0%nat, sc, text. rewrite Nat.add_0_r.
      repeat split; try assumption; [lia|intros i Hi; lia].
Qed.

Lemma parse_response_ok env text r :
  DirectAdminClient._parse_response env text = Ok r ->
  DirectAdminClient.is_error_1
    (DirectAdminClient.flatten (parse_qs env text)) = false.
Proof.
  unfold DirectAdminClient._parse_response.
  destruct (DirectAdminClient.is_error_1 _); [discriminate|reflexivity].
Qed.

Lemma make_request_ok_inv env self endpoint params w r w' :
  DirectAdminClient._make_request env self endpoint params
    DirectAdminClient.default_max_retries w = (Ok r, w') ->
  exists k,
    remote_succeeded env (posts w) k /\
    w' = after_requests w (k + 1)
           (backoff (DirectAdminClient.host self ++ "/" ++ endpoint) params 0 k
              ++ [EvPost (DirectAdminClient.host self ++ "/" ++ endpoint)
                    params]).
Proof.
  intro H. apply attempts_ok_inv in H.
  destruct H as (k & sc & text & Hk & Hf & Hnet & Hok & Hparse & ->).
  exists k. split; [|reflexivity].
  split; [exact Hk|]. split; [exact Hf|].
  exists sc, text. repeat split; try assumption.
  eapply parse_response_ok; eauto.
Qed.

(** A call of [_make_request] either raises, with nothing local touched,
    or returns after a request that the control panel accepted. *)
Lemma make_request_cases env self endpoint params w :
  (exists e w',
     DirectAdminClient._make_request env self endpoint params
       DirectAdminClient.default_max_retries w = (Raise e, w')
     /\ same_tables w w') \/
  (exists r k evs,
     DirectAdminClient._make_request env self endpoint params
       DirectAdminClient.default_max_retries w
     = (Ok r, after_requests w (k + 1) evs)
     /\ remote_succeeded env (posts w) k
     /\ exists url data, In (EvPost url data) evs).
Proof.
  destruct (DirectAdminClient._make_request env self endpoint params
              DirectAdminClient.default_max_retries w) as [[r|e] w'] eqn:H.
  - right. destruct (make_request_ok_inv _ _ _ _ _ _ _ H) as (k & Hk & ->).
    exists r, k. eexists. split; [reflexivity|]. split; [exact Hk|].
    do 2 eexists. apply in_or_app. right. now left.
  - left. exists e, w'. split; [reflexivity|].
    pose proof (make_request_frame env self endpoint params
                  DirectAdminClient.default_max_retries w) as Hf.
    now rewrite H in Hf.
Qed.

Lemma client_delete_cases env self username w :
  (exists e w',
     DirectAdminClient.delete_email env self username w = (Raise e, w')
     /\ same_tables w w') \/
  (exists k evs,
     DirectAdminClient.delete_email env self username w
     = (Ok true, after_requests w (k + 1) evs)
     /\ remote_succeeded env (posts w) k
     /\ exists url data, In (EvPost url data) evs).
Proof.
  unfold DirectAdminClient.delete_email, bind.
  destruct (make_request_cases env self "CMD_API_POP"
              [("action", VStr "delete");
               ("domain", DirectAdminClient.opt_val (DirectAdminClient.domain self));
               ("user", VStr username)] w)
    as [(e & w' & -> & Hf)|(r & k & evs & -> & Hk & Hev)].
  - left. eauto.
  - right. exists k, evs. auto.
Qed.

Lemma client_create_cases env self username password quota_mb w :
  (exists e w',
     DirectAdminClient.create_email env self username password quota_mb w
     = (Raise e, w')
     /\ same_tables w w') \/
  (exists k evs,
     DirectAdminClient.create_email env self username password quota_mb w
     = (Ok tt, after_requests w (k + 1) evs)
     /\ remote_succeeded env (posts w) k
     /\ exists url data, In (EvPost url data) evs).
Proof.
  unfold DirectAdminClient.create_email, bind.
  destruct (make_request_cases env self "CMD_API_POP"
              [("action", VStr "create");
               ("domain", DirectAdminClient.opt_val (DirectAdminClient.domain self));
               ("user", VStr username); ("passwd", VStr password);
               ("passwd2", VStr password); ("quota", VInt quota_mb)] w)
    as [(e & w' & -> & Hf)|(r & k & evs & -> & Hk & Hev)].
  - left. eauto.
  - right. exists k, evs. auto.
Qed.

Lemma client_change_password_cases env self username new_password w :
  (exists e w',
     DirectAdminClient.change_password env self username new_password w
     = (Raise e, w')
     /\ same_tables w w') \/
  (exists k evs,
     DirectAdminClient.change_password env self username new_password w
     = (Ok true, after_requests w (k + 1) evs)
     /\ remote_succeeded env (posts w) k
     /\ exists url data, In (EvPost url data) evs).
Proof.
  unfold DirectAdminClient.change_password, bind.
  destruct (make_request_cases env self "CMD_CHANGE_EMAIL_PASSWORD"
              [("email", VStr username);
               ("domain", DirectAdminClient.opt_val (DirectAdminClient.domain self));
               ("passwd", VStr new_password); ("passwd2", VStr new_password)] w)
    as [(e & w' & -> & Hf)|(r & k & evs & -> & Hk & Hev)].
  - left. eauto.
  - right. exists k, evs. auto.
Qed.

(** ** The mutating endpoints *)

(** What a run of [delete_email] can be. *)
Lemma delete_email_cases env username user domain w :
  (exists e w',
     delete_email env username user domain w = (Raise e, w')
     /\ db w' = db w) \/
  (exists eff x k evs msg,
     authorized_domain env user domain = Ok eff
     /\ getenv env "DIRECTADMIN_HOST" <> None
     /\ find (selects username eff true) (email_accounts (sess w)) = Some x
     /\ remote_succeeded env (posts w) k
     /\ (exists url data, In (EvPost url data) evs)
     /\ delete_email env username user domain w
        = (Ok msg,
           let d' := with_emails (sess w)
                       (update_rows (EmailAccount.id x)
                          (soft_deleted (clock env (ticks w))
                             (clock env (S (ticks w))))
                          (email_accounts (sess w))) in
           mkWorld d' d' (S (S (ticks w))) (posts w + (k + 1))
             (trace w ++ [EvQuery "email_accounts"] ++ evs ++ [EvCommit]))).
Proof.
  unfold delete_email, try_endpoint, authorized_domain, bind at 1, lift.
  destruct (check_domain_param_tampering user domain) as [[]|e]; simpl;
    [|left; eauto].
  unfold bind at 1.
  destruct (check_domain_access user _) as [[]|e]; simpl; [|left; eauto].
  unfold bind at 1, get_da_client.
  destruct (getenv env "DIRECTADMIN_HOST") as [host|] eqn:Hhost; simpl;
    [|left; eauto].
  unfold bind at 1, select_email, bind, emit, get_sess, ret. simpl.
  destruct (find _ (email_accounts (sess w))) as [x|] eqn:Hfind; simpl;
    [|left; eauto].
  set (w1 := mkWorld _ _ _ _ _).
  set (client := new_client _ _ _).
  destruct (client_delete_cases env client username w1)
    as [(e & w' & -> & Hdb & _)|(k & evs & -> & Hk & Hev)].
  - left. do 2 eexists. split; [reflexivity|exact Hdb].
  - right.
    exists (get_effective_domain user domain (getenv env "DEFAULT_DOMAIN")),
      x, k, evs.
    eexists.
    split; [reflexivity|]. split; [discriminate|].
    split; [exact Hfind|]. split; [exact Hk|].
    split; [exact Hev|].
    unfold update_email, bind, get_sess, set_sess, utcnow, commit, ret.
    simpl. unfold with_emails. simpl.
    rewrite update_rows_compose by reflexivity.
    rewrite <- !app_assoc. reflexivity.
Qed.

(** What a run of [change_password] can be. *)
Lemma change_password_cases env username new_password user domain w :
  (exists e w',
     change_password env username new_password user domain w = (Raise e, w')
     /\ db w' = db w) \/
  (exists eff x k evs msg,
     authorized_domain env user domain = Ok eff
     /\ find (selects username eff true) (email_accounts (sess w)) = Some x
     /\ remote_succeeded env (posts w) k
     /\ (exists url data, In (EvPost url data) evs)
     /\ change_password env username new_password user domain w
        = (Ok msg,
           let d' := with_emails (sess w)
                       (update_rows (EmailAccount.id x)
                          (set_updated_at (clock env (ticks w)))
                          (email_accounts (sess w))) in
           mkWorld d' d' (S (ticks w)) (posts w + (k + 1))
             (trace w ++ [EvQuery "email_accounts"] ++ evs ++ [EvCommit]))).
Proof.
  unfold change_password, try_endpoint, authorized_domain, bind at 1, lift.
  destruct (validate_password new_password) as [[]|e] eqn:Hv; simpl.
  2:{ left. destruct (validate_password_raises_400 _ _ Hv) as [detail ->].
      eauto. }
  unfold bind at 1.
  destruct (check_domain_param_tampering user domain) as [[]|e]; simpl;
    [|left; eauto].
  unfold bind at 1.
  destruct (check_domain_access user _) as [[]|e]; simpl; [|left; eauto].
  unfold bind at 1, get_da_client.
  destruct (getenv env "DIRECTADMIN_HOST") as [host|]; simpl; [|left; eauto].
  unfold bind at 1, select_email, bind, emit, get_sess, ret. simpl.
  destruct (find _ (email_accounts (sess w))) as [x|] eqn:Hfind; simpl;
    [|left; eauto].
  set (w1 := mkWorld _ _ _ _ _).
  set (client := new_client _ _ _).
  destruct (client_change_password_cases env client username new_password w1)
    as [(e & w' & -> & Hdb & _)|(k & evs & -> & Hk & Hev)].
  - left. do 2 eexists. split; [reflexivity|exact Hdb].
  - right.
    exists (get_effective_domain user domain (getenv env "DEFAULT_DOMAIN")),
      x, k, evs.
    eexists.
    split; [reflexivity|]. split; [exact Hfind|]. split; [exact Hk|].
    split; [exact Hev|].
    unfold update_email, bind, get_sess, set_sess, utcnow, commit, ret.
    simpl. unfold with_emails. simpl.
    rewrite <- !app_assoc. reflexivity.
Qed.

Lemma add_email_frame env username domain quota_mb creator w :
  db (snd (add_email env username domain quota_mb creator w)) = db w.
Proof.
  unfold add_email, bind, utcnow, get_sess, set_sess, ret, raise. simpl.
  destruct domain as [dom|]; [|reflexivity].
  destruct (existsb _ _); reflexivity.
Qed.

(** What a run of [create_email] can be. *)
Lemma create_email_cases env request user w :
  (exists e w',
     create_email env request user w = (Raise e, w') /\ db w' = db w) \/
  (exists eff dom k evs,
     authorized_domain env user (CreateEmailRequest.domain request) = Ok eff
     /\ eff = Some dom
     /\ existsb (same_mailbox (CreateEmailRequest.username request) eff)
                (email_accounts (sess w)) = false
     /\ remote_succeeded env (posts w) k
     /\ (exists url data, In (EvPost url data) evs)
     /\ let db_email :=
          EmailAccount.mk (next_id (email_accounts (sess w)))
            (CreateEmailRequest.username request) dom
            (CreateEmailRequest.quota_mb request) (Some (User.id user))
            (clock env (ticks w)) (clock env (S (ticks w))) None in
        let d' := with_emails (sess w)
                    (email_accounts (sess w) ++ [db_email]) in
        create_email env request user w
        = (Raise notify_email_missing,
           mkWorld d' d' (S (S (ticks w))) (posts w + (k + 1))
             (trace w ++ [EvQuery "email_accounts"] ++ evs
                ++ [EvCommit; EvQuery "email_accounts"]))).
Proof.
  unfold create_email, try_endpoint, authorized_domain, bind at 1, lift.
  destruct (validate_password (CreateEmailRequest.password request))
    as [[]|e] eqn:Hv; simpl.
  2:{ left. destruct (validate_password_raises_400 _ _ Hv) as [detail ->].
      eauto. }
  unfold bind at 1.
  destruct (check_domain_param_tampering user _) as [[]|e]; simpl;
    [|left; eauto].
  unfold bind at 1.
  destruct (check_domain_access user _) as [[]|e]; simpl; [|left; eauto].
  unfold bind at 1, get_da_client.
  destruct (getenv env "DIRECTADMIN_HOST") as [host|]; simpl; [|left; eauto].
  unfold bind at 1, select_email, bind, emit, get_sess, ret. simpl.
  destruct (find _ (email_accounts (sess w))) as [x|] eqn:Hfind; simpl;
    [left; eauto|].
  set (w1 := mkWorld _ _ _ _ _).
  set (client := new_client _ _ _).
  destruct (client_create_cases env client
              (CreateEmailRequest.username request)
              (CreateEmailRequest.password request)
              (CreateEmailRequest.quota_mb request) w1)
    as [(e & w' & -> & Hdb & _)|(k & evs & -> & Hk & Hev)].
  - left. do 2 eexists. split; [reflexivity|exact Hdb].
  - set (eff := get_effective_domain user _ _) in *.
    set (w2 := after_requests w1 (k + 1) evs).
    pose proof (add_email_frame env (CreateEmailRequest.username request) eff
                  (CreateEmailRequest.quota_mb request)
                  (Some (User.id user)) w2) as Hframe.
    unfold add_email, bind, utcnow, get_sess, set_sess, ret, raise in *.
    simpl in *.
    destruct eff as [dom|] eqn:Heff; simpl.
    2:{ left. do 2 eexists. split; [reflexivity|reflexivity]. }
    destruct (existsb _ (email_accounts (sess w))) eqn:Hex; simpl.
    { left. do 2 eexists. split; [reflexivity|reflexivity]. }
    right. exists (Some dom), dom, k, evs.
    (split; [reflexivity|]); (split; [reflexivity|]);
      (split; [exact Hex|]); (split; [exact Hk|]); (split; [exact Hev|]);
      unfold with_emails, notify_email_missing; simpl;
      rewrite <- !app_assoc; simpl; reflexivity.
Qed.

Lemma delete_email_not_found env username user domain w eff :
  authorized_domain env user domain = Ok eff ->
  getenv env "DIRECTADMIN_HOST" <> None ->
  find (selects username eff true) (email_accounts (sess w)) = None ->
  delete_email env username user domain w
  = (Raise (not_found username eff), logged w [EvQuery "email_accounts"]).
Proof.
  unfold authorized_domain. intros Hauth Hhost Hfind.
  unfold delete_email, try_endpoint, bind at 1, lift.
  destruct (check_domain_param_tampering user domain) as [[]|e]; simpl;
    [|discriminate].
  unfold bind at 1. simpl in Hauth.
  destruct (check_domain_access user _) as [[]|e]; simpl; [|discriminate].
  injection Hauth as Heff. rewrite Heff.
  unfold bind at 1, get_da_client.
  destruct (getenv env "DIRECTADMIN_HOST") as [host|]; [|congruence]. simpl.
  unfold bind at 1, select_email, bind, emit, get_sess, ret. simpl.
  rewrite Hfind. reflexivity.
Qed.

Lemma find_all_false {A} (p : A -> bool) (l : list A) :
  (forall y, In y l -> p y = false) -> find p l = None.
Proof.
  induction l as [|x l IH]; simpl; intro H; [reflexivity|].
  rewrite (H x (or_introl eq_refl)). apply IH. intros y Hy. apply H. now right.
Qed.

(** Under [uq_username_domain], the mailbox whose row was soft-deleted has
    no active row left. *)
Lemma no_active_row_after_soft_delete rows u eff x t1 t2 :
  NoDup (map mailbox_key rows) ->
  find (selects u eff true) rows = Some x ->
  find (selects u eff true)
       (update_rows (EmailAccount.id x) (soft_deleted t1 t2) rows) = None.
Proof.
  intros Hkey Hfind. apply find_some in Hfind. destruct Hfind as [Hx Hsel].
  unfold selects in Hsel. apply andb_true_iff in Hsel. destruct Hsel as [Hkx _].
  apply find_all_false. intros y' Hy'.
  unfold update_rows in Hy'. apply in_map_iff in Hy'.
  destruct Hy' as (y & <- & Hy).
  destruct (EmailAccount.id y =? EmailAccount.id x) eqn:E.
  - unfold selects. simpl. apply andb_false_r.
  - destruct (selects u eff true y) eqn:Hsel; [|reflexivity]. exfalso.
    unfold selects in Hsel. apply andb_true_iff in Hsel.
    destruct Hsel as [Hky _].
    destruct eff as [dom|]; [|now rewrite same_mailbox_none in Hkx].
    apply same_mailbox_key in Hkx, Hky.
    assert (y = x) by (apply (NoDup_map_eq mailbox_key rows); congruence).
    subst y. rewrite Z.eqb_refl in E. discriminate.
Qed.

(** C7: create, delete and change-password write the local tables only
    after the control panel has accepted the request.  A run of
    [create_email] either commits nothing or shows an accepted request
    before its commit, and then what it commits is one new row, not
    deleted; a run of the other two that fails commits nothing; a run in
    which every attempt of the remote call fails does fail and commits
    nothing; a run of delete or change-password that succeeds shows an
    accepted request before its commit; a successful delete stamps
    [deleted_at] on the row and keeps every row; and, the table being under
    [uq_username_domain], deleting the same mailbox again answers 404 after
    the lookup alone. *)
Theorem remote_call_precedes_local_write
  (env : Env) (user : User.t) (w : World) :
  (forall request,
     db (snd (create_email env request user w)) = db w \/
     exists dom k evs,
       remote_succeeded env (posts w) k /\
       (exists url data, In (EvPost url data) evs) /\
       trace (snd (create_email env request user w))
       = (trace w ++ [EvQuery "email_accounts"] ++ evs
            ++ [EvCommit; EvQuery "email_accounts"])%list /\
       email_accounts (db (snd (create_email env request user w)))
       = (email_accounts (sess w)
            ++ [EmailAccount.mk (next_id (email_accounts (sess w)))
                  (CreateEmailRequest.username request) dom
                  (CreateEmailRequest.quota_mb request) (Some (User.id user))
                  (clock env (ticks w)) (clock env (S (ticks w))) None])%list) /\
  (forall username domain e w',
     delete_email env username user domain w = (Raise e, w') -> db w' = db w) /\
  (forall username pw domain e w',
     change_password env username pw user domain w = (Raise e, w') ->
     db w' = db w) /\
  ((forall i, (i < 3)%nat -> failed (network env (posts w + i)) = true) ->
   (forall request,
      (exists e, fst (create_email env request user w) = Raise e) /\
      db (snd (create_email env request user w)) = db w) /\
   (forall username domain,
      exists e, fst (delete_email env username user domain w) = Raise e) /\
   (forall username pw domain,
      exists e, fst (change_password env username pw user domain w)
                = Raise e)) /\
  (forall username pw domain msg w',
     change_password env username pw user domain w = (Ok msg, w') ->
     exists k evs,
       remote_succeeded env (posts w) k /\
       (exists url data, In (EvPost url data) evs) /\
       trace w' = (trace w ++ [EvQuery "email_accounts"] ++ evs
                     ++ [EvCommit])%list) /\
  (forall username domain msg w',
     delete_email env username user domain w = (Ok msg, w') ->
     (exists k evs,
        remote_succeeded env (posts w) k /\
        (exists url data, In (EvPost url data) evs) /\
        trace w' = (trace w ++ [EvQuery "email_accounts"] ++ evs
                      ++ [EvCommit])%list) /\
     (exists x t1 t2,
        In x (email_accounts (sess w)) /\
        EmailAccount.username x = username /\
        EmailAccount.deleted_at x = None /\
        email_accounts (db w')
        = update_rows (EmailAccount.id x) (soft_deleted t1 t2)
            (email_accounts (sess w)) /\
        In (soft_deleted t1 t2 x) (email_accounts (db w')) /\
        map EmailAccount.id (email_accounts (db w'))
        = map EmailAccount.id (email_accounts (sess w))) /\
     (NoDup (map mailbox_key (email_accounts (sess w))) ->
      forall w2, sess w2 = db w' ->
      exists eff,
        delete_email env username user domain w2
        = (Raise (not_found username eff),
           logged w2 [EvQuery "email_accounts"]))).
Proof.
  assert (Hno : forall k,
            remote_succeeded env (posts w) k ->
            ~ (forall i, (i < 3)%nat ->
                 failed (network env (posts w + i)) = true)).
  { intros k (Hk & _ & sc & text & Hnet & Hok & _) Hall.
    specialize (Hall k Hk). rewrite Hnet in Hall. simpl in Hall.
    rewrite Hok in Hall. discriminate. }
  repeat apply conj.
  - intro request.
    destruct (create_email_cases env request user w)
      as [(e0 & w0 & H0 & Hdb)|(eff & dom & k & evs & _ & _ & _ & Hk & Hev & H0)];
      cbv zeta in *; rewrite H0; cbn [fst snd].
    + now left.
    + right. exists dom, k, evs.
      split; [exact Hk|]. split; [exact Hev|]. split; reflexivity.
  - intros username domain e w' H.
    destruct (delete_email_cases env username user domain w)
      as [(e0 & w0 & H0 & Hdb)|(eff & x & k & evs & msg & _ & _ & _ & _ & _ & H0)];
      rewrite H0 in H; [|discriminate].
    now injection H as _ <-.
  - intros username pw domain e w' H.
    destruct (change_password_cases env username pw user domain w)
      as [(e0 & w0 & H0 & Hdb)|(eff & x & k & evs & msg & _ & _ & _ & _ & H0)];
      rewrite H0 in H; [|discriminate].
    now injection H as _ <-.
  - intro Hall. repeat apply conj.
    + intro request.
      destruct (create_email_cases env request user w)
        as [(e0 & w0 & H0 & Hdb)|(eff & dom & k & evs & _ & _ & _ & Hk & _)].
      * rewrite H0. simpl. eauto.
      * destruct (Hno k Hk Hall).
    + intros username domain.
      destruct (delete_email_cases env username user domain w)
        as [(e0 & w0 & H0 & Hdb)|(eff & x & k & evs & msg & _ & _ & _ & Hk & _)].
      * rewrite H0. simpl. eauto.
      * destruct (Hno k Hk Hall).
    + intros username pw domain.
      destruct (change_password_cases env username pw user domain w)
        as [(e0 & w0 & H0 & Hdb)|(eff & x & k & evs & msg & _ & _ & Hk & _)].
      * rewrite H0. simpl. eauto.
      * destruct (Hno k Hk Hall).
  - intros username pw domain msg w' H.
    destruct (change_password_cases env username pw user domain w)
      as [(e0 & w0 & H0 & Hdb)|(eff & x & k & evs & msg0 & _ & _ & Hk & Hev & H0)];
      rewrite H0 in H; [discriminate|].
    injection H as _ <-. exists k, evs. auto.
  - intros username domain msg w' H.
    destruct (delete_email_cases env username user domain w)
      as [(e0 & w0 & H0 & Hdb)|(eff & x & k & evs & msg0 & Hauth & Hhost & Hfind & Hk & Hev & H0)];
      rewrite H0 in H; [discriminate|].
    injection H as _ <-. simpl. repeat apply conj.
    + exists k, evs. auto.
    + pose proof (find_some _ _ Hfind) as [Hx Hsel].
      unfold selects in Hsel. apply andb_true_iff in Hsel.
      destruct Hsel as [Hkx Hact].
      exists x, (clock env (ticks w)), (clock env (S (ticks w))).
      repeat apply conj.
      * exact Hx.
      * unfold same_mailbox in Hkx. apply andb_true_iff in Hkx.
        now apply String.eqb_eq.
      * unfold is_active_row in Hact.
        now destruct (EmailAccount.deleted_at x).
      * reflexivity.
      * now apply in_update_rows_same.
      * now apply update_rows_ids.
    + intros Hkey w2 Hsess. exists eff.
      apply delete_email_not_found; [exact Hauth|exact Hhost|].
      rewrite Hsess. simpl. now apply no_active_row_after_soft_delete.
Qed.

(** The scenario of the specification: create, delete, delete again. *)
Lemma remote_call_precedes_local_write_witness :
  let env := model_env net_ok in
  let d0 := mkDb [sample_admin] [] [] in
  let created :=
    create_email env (sample_create_request "TestPass123!" None) sample_admin
      (begin_request d0 0 0) in
  let deleted :=
    delete_email env "alice" sample_admin None
      (begin_request (db (snd created)) 2 1) in
  let again := begin_request (db (snd deleted)) 4 2 in
  email_accounts (db (snd created))
  = [EmailAccount.mk 1 "alice" "x.com" 500 (Some 1) 1000 1001 None] /\
  email_accounts (db (snd deleted))
  = [EmailAccount.mk 1 "alice" "x.com" 500 (Some 1) 1000 1003 (Some 1002)] /\
  filter (active_in (Some "x.com")) (email_accounts (db (snd deleted))) = [] /\
  delete_email env "alice" sample_admin None again
  = (Raise (HTTPException 404 "Email alice@x.com not found"),
     logged again [EvQuery "email_accounts"]).
Proof.
  intros env d0 created deleted again.
  split; [vm_compute; reflexivity|].
  split; [vm_compute; reflexivity|].
  split; [vm_compute; reflexivity|].
  pose proof (remote_call_precedes_local_write env sample_admin
                (begin_request (db (snd created)) 2 1)) as H.
  destruct H as (_ & _ & _ & _ & _ & H).
  assert (Hdel : exists msg, deleted = (Ok msg, snd deleted))
    by (eexists; vm_compute; reflexivity).
  destruct Hdel as (msg & Hdel).
  destruct (H "alice" None msg (snd deleted) Hdel) as (_ & _ & Hagain).
  destruct (Hagain (ltac:(vm_compute; repeat constructor; simpl; tauto))
              again eq_refl) as (eff & Heq).
  rewrite Heq. f_equal.
  assert (E : fst (delete_email env "alice" sample_admin None again)
              = Raise (HTTPException 404 "Email alice@x.com not found"))
    by (vm_compute; reflexivity).
  rewrite Heq in E. exact E.
Defined.

(** ** Re-creating a deleted mailbox *)

(** C8 (the code at the failing input): alice@x.com exists as a
    soft-deleted row; creating it again sends the create request to the
    control panel, then breaks on [uq_username_domain] and answers 500; the
    row stays deleted: its delete timestamp is not cleared. *)
Theorem recreate_after_delete_hits_unique_constraint :
  let env := model_env net_ok in
  let d := mkDb [sample_admin] [deleted_alice] [] in
  let run :=
    create_email env (sample_create_request "TestPass123!" None) sample_admin
      (begin_request d 0 0) in
  fst run
  = Raise (HTTPException 500
      "UNIQUE constraint failed: email_accounts.username, email_accounts.domain")
  /\ db (snd run) = d
  /\ trace (snd run)
     = [ EvQuery "email_accounts";
         EvPost "https://da.example.net:2222/CMD_API_POP"
           [("action", VStr "create"); ("domain", VStr "x.com");
            ("user", VStr "alice"); ("passwd", VStr "TestPass123!");
            ("passwd2", VStr "TestPass123!"); ("quota", VInt 500)] ].
Proof. repeat split; vm_compute; reflexivity. Qed.

(** ** The password reset *)

(** One step of a handler: project the fields of the world at hand. *)
Ltac step :=
  cbn [db sess ticks posts trace fst snd users email_accounts
       password_reset_tokens with_users with_tokens negb nth_error].

(** Three positional arguments never reach the body of
    [change_password]. *)
Lemma call_change_password_three_arguments env client a b c w :
  DirectAdminClient.call_change_password env client [a; b; c] w
  = (Raise arity_error, w).
Proof.
  unfold DirectAdminClient.call_change_password.
  destruct a; try reflexivity. destruct b; reflexivity.
Qed.

(** C10 (the code at the failing input): a reset submitted with a valid
    token and a valid password, twice the same, for a user that exists,
    stops at the assignment of [must_change_password], a field that [User]
    does not declare: the handler ends in [ValueError] when it has set the
    new hash on the user in the session and before it looks for a mailbox;
    the control-panel update is not called, nothing is logged, the token
    stays unused and nothing is committed. *)
Theorem reset_password_stops_at_undeclared_field
  (env : Env) (w : World) (token new_password : string)
  (rt : PasswordResetToken.t) (user : User.t) :
  find (fun r => String.eqb (PasswordResetToken.token r) token)
       (password_reset_tokens (sess w)) = Some rt ->
  PasswordResetToken.used rt = false ->
  (PasswordResetToken.expires_at rt <? clock env (ticks w)) = false ->
  validate_password new_password = Ok tt ->
  find (fun u => User.id u =? PasswordResetToken.user_id rt) (users (sess w))
  = Some user ->
  process_reset_password env token new_password new_password w
  = (Raise (no_such_field "User" "must_change_password"),
     mkWorld (db w)
       (with_users (sess w)
          (map (fun u => if User.id u =? User.id user
                         then set_hashed_password
                                (pwd_context_hash env new_password) u
                         else u) (users (sess w))))
       (S (ticks w)) (posts w)
       (trace w ++ [EvQuery "password_reset_tokens"; EvQuery "users"])).
Proof.
  intros Htok Hused Hexp Hvalid Huser.
  unfold process_reset_password, select_reset_token, select_user,
    update_user, set_must_change_password, utcnow, emit, get_sess, set_sess,
    bind, ret, raise.
  step. rewrite Htok. step. rewrite Hused. step. rewrite Hexp. step.
  rewrite String.eqb_refl. step. rewrite Hvalid. step.
  rewrite Huser. step. rewrite <- !app_assoc. reflexivity.
Qed.

Lemma reset_password_stops_at_undeclared_field_witness :
  let env := model_env net_ok in
  let run := process_reset_password env "tok-1" "NewPass456!" "NewPass456!"
               (begin_request reset_db 0 0) in
  fst run = Raise (no_such_field "User" "must_change_password")
  /\ db (snd run) = reset_db
  /\ posts (snd run) = 0%nat
  /\ trace (snd run) = [EvQuery "password_reset_tokens"; EvQuery "users"].
Proof.
  intros env run.
  pose proof (reset_password_stops_at_undeclared_field env
                (begin_request reset_db 0 0) "tok-1" "NewPass456!"
                (PasswordResetToken.mk "tok-1" 2 5000 false)
                sample_domain_admin
                eq_refl eq_refl eq_refl eq_refl eq_refl) as H.
  unfold run. rewrite H. repeat split.
Defined.

(** ** The table constraints hold in every reachable state *)

Lemma table_ok_insert rows r :
  table_ok rows ->
  EmailAccount.id r = next_id rows ->
  existsb (same_mailbox (EmailAccount.username r)
             (Some (EmailAccount.domain r))) rows = false ->
  table_ok (rows ++ [r]).
Proof.
  intros [Hid Hkey] Hr Hex. unfold table_ok. rewrite !map_app. simpl. split.
  - apply NoDup_snoc; [exact Hid|]. intro Hin. rewrite Hr in Hin.
    apply ids_below_next in Hin. lia.
  - apply NoDup_snoc; [exact Hkey|]. intro Hin.
    apply in_map_iff in Hin. destruct Hin as (y & Hk & Hy).
    assert (E : existsb (same_mailbox (EmailAccount.username r)
                           (Some (EmailAccount.domain r))) rows = true).
    { apply existsb_exists. exists y. split; [exact Hy|].
      now apply same_mailbox_key. }
    congruence.
Qed.

Lemma table_ok_update rows id f :
  (forall r, EmailAccount.id (f r) = EmailAccount.id r) ->
  (forall r, mailbox_key (f r) = mailbox_key r) ->
  table_ok rows -> table_ok (update_rows id f rows).
Proof.
  intros Hi Hk [Hid Hkey]. unfold table_ok.
  now rewrite update_rows_ids, update_rows_keys.
Qed.

Lemma table_ok_unique_active rows : table_ok rows -> unique_active rows.
Proof.
  intros [_ Hkey]. unfold unique_active.
  induction rows as [|r rows IH]; simpl; [constructor|].
  inversion Hkey as [|? ? Hnotin Hkey']; subst.
  destruct (is_active_row r); [|now apply IH].
  simpl. constructor; [|now apply IH].
  intro Hin. apply Hnotin. apply in_map_iff in Hin.
  destruct Hin as (y & Hy & Hin). apply filter_In in Hin.
  rewrite <- Hy. apply in_map. tauto.
Qed.

Lemma sync_one_db env d u w : db (snd (sync_one env d u w)) = db w.
Proof.
  unfold sync_one, bind, select_email, emit, get_sess, ret. simpl.
  destruct (find _ _) as [r|]; simpl.
  - destruct (EmailAccount.deleted_at r); reflexivity.
  - unfold add_email, bind, utcnow, get_sess, set_sess, ret, raise. simpl.
    destruct d as [dom|]; [|reflexivity].
    destruct (existsb _ _); reflexivity.
Qed.

Lemma sync_all_db env d : forall l w,
  db (snd (sync_all env d l w)) = db w.
Proof.
  induction l as [|u l IH]; intro w; [reflexivity|].
  simpl. unfold bind at 1.
  pose proof (sync_one_db env d u w) as H1.
  destruct (sync_one env d u w) as [[[]|e] w1]; simpl in H1.
  - now rewrite IH.
  - exact H1.
Qed.

(** What [list_emails] leaves committed. *)
Lemma list_emails_db env user domain w res w' :
  list_emails env user domain w = (res, w') ->
  db w' = db w \/
  exists eff l w1 wa,
    same_tables w w1 /\
    sync_all env eff l w1 = (Ok tt, wa) /\
    db w' = sess wa.
Proof.
  unfold list_emails, try_endpoint, bind at 1, lift.
  destruct (check_domain_param_tampering user domain) as [[]|e]; simpl;
    [|intro H; injection H as _ <-; now left].
  unfold bind at 1.
  destruct (check_domain_access user _) as [[]|e]; simpl;
    [|intro H; injection H as _ <-; now left].
  unfold bind at 1, get_da_client.
  destruct (getenv env "DIRECTADMIN_HOST") as [host|]; simpl;
    [|intro H; injection H as _ <-; now left].
  unfold bind at 1.
  set (client := new_client _ _ _).
  pose proof (client_list_emails_frame env client w) as Hf.
  destruct (DirectAdminClient.list_emails env client w) as [[l|e] w1];
    simpl in Hf.
  2:{ intro H. injection H as _ <-. left. apply Hf. }
  unfold sync_domain, bind at 1.
  pose proof (sync_all_db env
                (get_effective_domain user domain (getenv env "DEFAULT_DOMAIN"))
                l w1) as Hdb.
  destruct (sync_all env _ l w1) as [[[]|e] wa] eqn:Hall.
  - unfold bind, commit, select_active_emails, bind, emit, get_sess, ret.
    simpl. intro H. injection H as _ <-.
    right. do 4 eexists. split; [exact Hf|]. split; [exact Hall|].
    reflexivity.
  - intro H. injection H as _ <-. left. simpl in Hdb. rewrite Hdb. apply Hf.
Qed.

Ltac reset_page :=
  step; (split; [reflexivity|]); (split; [reflexivity|]); left;
  do 2 eexists; split; reflexivity.

(** What a run of [process_reset_password] can be: a page, or the error of
    the undeclared field; in the world it started in, but for the queries,
    the clock and, in the second case, the new hash in the session. *)
Lemma process_reset_password_cases env token pw confirm w :
  let run := process_reset_password env token pw confirm w in
  db (snd run) = db w /\ posts (snd run) = posts w /\
  ((exists name context,
      fst run = Ok (TemplateResponse name context) /\ sess (snd run) = sess w) \/
   (exists rt user,
      find (fun r => String.eqb (PasswordResetToken.token r) token)
           (password_reset_tokens (sess w)) = Some rt /\
      PasswordResetToken.used rt = false /\
      (PasswordResetToken.expires_at rt <? clock env (ticks w)) = false /\
      pw = confirm /\ validate_password pw = Ok tt /\
      find (fun u => User.id u =? PasswordResetToken.user_id rt)
           (users (sess w)) = Some user /\
      fst run = Raise (no_such_field "User" "must_change_password"))).
Proof.
  cbv zeta.
  unfold process_reset_password, select_reset_token, select_user,
    update_user, set_must_change_password, utcnow, emit, get_sess, set_sess,
    bind, ret, raise.
  step.
  destruct (find _ (password_reset_tokens (sess w))) as [rt|] eqn:Htok;
    [|reset_page].
  destruct (PasswordResetToken.used rt) eqn:Hused;
    [reset_page|]. step.
  destruct (PasswordResetToken.expires_at rt <? clock env (ticks w))
    eqn:Hexp; [reset_page|].
  destruct (String.eqb pw confirm) eqn:Heq; step;
    [|reset_page].
  apply String.eqb_eq in Heq. subst confirm.
  destruct (validate_password pw) as [[]|e] eqn:Hv; step;
    [|reset_page].
  destruct (find _ (users (sess w))) as [user|] eqn:Huser; step;
    [|reset_page].
  (split; [reflexivity|]); (split; [reflexivity|]).
  right. exists rt, user. repeat split; auto.
Qed.

(** The password reset writes users and tokens only. *)
Lemma reset_password_keeps_mailboxes env token pw confirm w :
  sess w = db w ->
  email_accounts (db (snd (process_reset_password env token pw confirm w)))
  = email_accounts (db w).
Proof.
  intros _.
  destruct (process_reset_password_cases env token pw confirm w) as (Hdb & _).
  cbv zeta in Hdb. now rewrite Hdb.
Qed.

(** One request keeps the primary key and [uq_username_domain]. *)
Lemma request_table_ok env d d' :
  table_ok (email_accounts d) -> request env d d' ->
  table_ok (email_accounts d').
Proof.
  intros Hok Hreq. destruct Hreq.
  - destruct (list_emails env user domain (begin_request d t p))
      as [res w'] eqn:Hrun.
    destruct (list_emails_db _ _ _ _ _ _ Hrun)
      as [Hdb|(eff & l & w1 & wa & (_ & Hs & _) & Hall & Hdb)];
      cbn [snd]; rewrite Hdb.
    + exact Hok.
    + eapply sync_all_table_ok; [|exact Hall]. now rewrite Hs.
  - destruct (create_email_cases env r user (begin_request d t p))
      as [(e & w' & -> & Hdb)
         |(eff & dom & k & evs & _ & -> & Hex & _ & _ & ->)].
    + cbn [snd]. now rewrite Hdb.
    + simpl. now apply table_ok_insert.
  - destruct (delete_email_cases env username user domain (begin_request d t p))
      as [(e & w' & -> & Hdb)
         |(eff & x & k & evs & msg & _ & _ & _ & _ & _ & ->)].
    + cbn [snd]. now rewrite Hdb.
    + simpl. now apply table_ok_update.
  - destruct (change_password_cases env username pw user domain
                (begin_request d t p))
      as [(e & w' & -> & Hdb)
         |(eff & x & k & evs & msg & _ & _ & _ & _ & ->)].
    + cbn [snd]. now rewrite Hdb.
    + simpl. now apply table_ok_update.
  - now rewrite reset_password_keeps_mailboxes.
Qed.

(** In every reachable state the table satisfies its two constraints, so
    no two rows, deleted or not, share a (username, domain). *)
Lemma reachable_table_ok env d :
  reachable env d ->
  table_ok (email_accounts d) /\ unique_active (email_accounts d).
Proof.
  intro H.
  assert (Hok : table_ok (email_accounts d)).
  { induction H as [us ts|d d' _ IH Hreq].
    - split; constructor.
    - eapply request_table_ok; eauto. }
  split; [exact Hok|now apply table_ok_unique_active].
Qed.

(** [create_email] writes nothing for a mailbox that has a row, deleted or
    not: it cannot be what clears a delete timestamp. *)
Lemma create_email_rejects_known_mailbox env request user w eff x :
  authorized_domain env user (CreateEmailRequest.domain request) = Ok eff ->
  In x (email_accounts (sess w)) ->
  same_mailbox (CreateEmailRequest.username request) eff x = true ->
  exists e w',
    create_email env request user w = (Raise e, w') /\ db w' = db w.
Proof.
  intros Hauth Hx Hk.
  destruct (create_email_cases env request user w)
    as [(e & w' & H & Hdb)|(eff' & dom & k & evs & Hauth' & _ & Hex & _)].
  - eauto.
  - rewrite Hauth in Hauth'. injection Hauth' as <-.
    assert (E : existsb (same_mailbox (CreateEmailRequest.username request) eff)
                  (email_accounts (sess w)) = true)
      by (apply existsb_exists; eauto).
    congruence.
Qed.

(* ================================================================== *)
(** * Part III: further properties of the code *)
(* ================================================================== *)

(** ** The guards, composed *)

Lemma UserRole_eqb_eq a b : UserRole_eqb a b = true <-> a = b.
Proof. destruct a, b; simpl; split; intro H; congruence. Qed.

(** X1: when the three guards of a mailbox endpoint pass, the effective
    domain is one that [can_access_domain] grants; for an admin it is the
    requested domain, or the default when none is requested; for a
    domain_admin it is the assigned domain, and a request that named a
    domain named that one; a user of role [user] never passes. *)
Theorem guards_yield_accessible_domain
  (env : Env) (user : User.t) (requested eff : option string) :
  authorized_domain env user requested = Ok eff ->
  can_access_domain user eff = true /\
  match User.role user with
  | ADMIN => eff = py_or requested (getenv env "DEFAULT_DOMAIN")
  | DOMAIN_ADMIN =>
      eff = User.domain user /\
      (truthy requested = true -> requested = User.domain user)
  | USER => False
  end.
Proof.
  unfold authorized_domain, check_domain_param_tampering, check_domain_access,
    get_effective_domain, can_access_domain.
  destruct (User.role user); simpl.
  - intro H. injection H as <-. auto.
  - destruct (truthy requested) eqn:Ht; simpl.
    + destruct (opt_str_eqb requested (User.domain user)) eqn:Hr; simpl;
        [|discriminate].
      destruct (opt_str_eqb (User.domain user)
                  (py_or (User.domain user) (getenv env "DEFAULT_DOMAIN")))
        eqn:Ha; simpl; [|discriminate].
      intro H. injection H as <-.
      apply opt_str_eqb_eq in Hr, Ha. rewrite <- Ha.
      repeat split; auto. now apply opt_str_eqb_eq.
    + destruct (opt_str_eqb (User.domain user)
                  (py_or (User.domain user) (getenv env "DEFAULT_DOMAIN")))
        eqn:Ha; simpl; [|discriminate].
      intro H. injection H as <-.
      apply opt_str_eqb_eq in Ha. rewrite <- Ha.
      repeat split; auto; try discriminate. now apply opt_str_eqb_eq.
  - discriminate.
Qed.

Lemma guards_yield_accessible_domain_witness :
  can_access_domain sample_domain_admin (Some "a.com") = true /\
  Some "a.com" = User.domain sample_domain_admin.
Proof.
  destruct (guards_yield_accessible_domain (model_env net_ok)
              sample_domain_admin None (Some "a.com") eq_refl)
    as (Hacc & Heff & _).
  split; assumption.
Defined.

Lemma authorized_domain_raises_http env user domain e :
  authorized_domain env user domain = Raise e ->
  exists detail, e = HTTPException HTTP_403_FORBIDDEN detail.
Proof.
  unfold authorized_domain, check_domain_param_tampering, check_domain_access.
  destruct (_ && _).
  - destruct (negb (opt_str_eqb domain _)); [intro H; injection H as <-; eauto|].
    destruct (negb _); [intro H; injection H as <-; eauto|discriminate].
  - destruct (negb _); [intro H; injection H as <-; eauto|discriminate].
Qed.

(** X2: when one of the guards refuses, every mailbox endpoint answers with
    that guard's 403 in the world it started in: nothing is looked up,
    nothing is sent, nothing is written.  The two endpoints that take a
    password do so once the password has passed validation. *)
Theorem refused_guard_stops_every_endpoint
  (env : Env) (user : User.t) (domain : option string) (e : exn)
  (username pw : string) (request : CreateEmailRequest.t) (w : World) :
  authorized_domain env user domain = Raise e ->
  CreateEmailRequest.domain request = domain ->
  list_emails env user domain w = (Raise e, w) /\
  delete_email env username user domain w = (Raise e, w) /\
  (validate_password pw = Ok tt ->
   change_password env username pw user domain w = (Raise e, w)) /\
  (validate_password (CreateEmailRequest.password request) = Ok tt ->
   create_email env request user w = (Raise e, w)).
Proof.
  intros Hauth Hreq.
  destruct (authorized_domain_raises_http _ _ _ _ Hauth) as [detail ->].
  unfold authorized_domain in Hauth.
  assert (Hbody : forall A (k : M A),
    (lift (check_domain_param_tampering user domain) ;;
     lift (check_domain_access user
             (get_effective_domain user domain (getenv env "DEFAULT_DOMAIN"))) ;;
     k) w
    = (Raise (HTTPException HTTP_403_FORBIDDEN detail), w)).
  { intros A k. unfold bind, lift.
    destruct (check_domain_param_tampering user domain) as [[]|e1];
      [|now injection Hauth as ->].
    simpl in Hauth.
    destruct (check_domain_access user _) as [[]|e2]; [discriminate|].
    now injection Hauth as ->. }
  repeat split.
  - unfold list_emails. apply try_endpoint_raise_http. apply Hbody.
  - unfold delete_email. apply try_endpoint_raise_http. apply Hbody.
  - intro Hv. unfold change_password. apply try_endpoint_raise_http.
    unfold bind at 1, lift at 1. rewrite Hv. apply Hbody.
  - intro Hv. unfold create_email. apply try_endpoint_raise_http.
    unfold bind at 1, lift at 1. rewrite Hv, Hreq. apply Hbody.
Qed.

Lemma refused_guard_stops_every_endpoint_witness :
  let w := begin_request sample_db 0 0 in
  let reader :=
    User.mk 3 "guest@x.com" "$2b$hash" USER None true 5 5 in
  let e := HTTPException 403 "Access denied to domain: x.com" in
  list_emails (model_env net_ok) reader None w = (Raise e, w) /\
  delete_email (model_env net_ok) "bob" reader None w = (Raise e, w).
Proof.
  intros w reader e.
  destruct (refused_guard_stops_every_endpoint (model_env net_ok) reader None
              e "bob" "TestPass123!" (sample_create_request "TestPass123!" None)
              w eq_refl eq_refl) as (Hl & Hd & _).
  split; assumption.
Defined.

(** ** The domains of a user *)

(** X3: every domain that [get_user_domains] lists is one that
    [can_access_domain] grants; a user of role [user] has none; and for a
    domain_admin whose assigned domain is not empty the list is exactly the
    domains granted. *)
Theorem get_user_domains_are_accessible
  (user : User.t) (default_domain : option string) :
  (forall d, In d (get_user_domains user default_domain) ->
             can_access_domain user d = true) /\
  (User.role user = USER -> get_user_domains user default_domain = []) /\
  (User.role user = DOMAIN_ADMIN -> truthy (User.domain user) = true ->
   forall d, In d (get_user_domains user default_domain)
             <-> can_access_domain user d = true).
Proof.
  unfold get_user_domains, can_access_domain.
  destruct (User.role user); simpl.
  - repeat split; try discriminate.
  - split; [|split; [discriminate|]].
    + intros d Hin.
      destruct (truthy (User.domain user)); simpl in Hin; [|tauto].
      destruct Hin as [<-|[]]. now apply opt_str_eqb_eq.
    + intros _ Ht d. rewrite Ht. simpl. rewrite opt_str_eqb_eq.
      split; [intros [H|[]]; exact H|auto].
  - repeat split; try discriminate; tauto.
Qed.

Example get_user_domains_samples :
  get_user_domains sample_admin (Some "x.com") = [Some "x.com"] /\
  get_user_domains sample_domain_admin (Some "x.com") = [Some "a.com"] /\
  get_user_domains
    (User.mk 4 "nodomain@a.com" "$2b$hash" DOMAIN_ADMIN None true 5 5)
    (Some "x.com") = [].
Proof. repeat split. Qed.

(** ** Administration *)

Lemma require_admin_ok user : User.role user = ADMIN -> require_admin user = Ok tt.
Proof. unfold require_admin. now intros ->. Qed.

Lemma require_admin_refuses user :
  User.role user <> ADMIN ->
  require_admin user
  = Raise (HTTPException HTTP_403_FORBIDDEN "Admin privileges required").
Proof.
  unfold require_admin. intro H.
  destruct (UserRole_eqb (User.role user) ADMIN) eqn:E; [|reflexivity].
  apply UserRole_eqb_eq in E. contradiction.
Qed.

(** X4: a caller who is not an administrator gets 403 from each of the three
    administration endpoints, in the world the request started in: no user
    is read and none is changed. *)
Theorem admin_endpoints_refuse_other_roles
  (env : Env) (current_user : User.t) (user_id : Z)
  (request : UpdateUserRoleRequest.t) (activate : bool) (w : World) :
  User.role current_user <> ADMIN ->
  let forbidden :=
    HTTPException HTTP_403_FORBIDDEN "Admin privileges required" in
  list_users current_user w = (Raise forbidden, w) /\
  update_user_role env user_id request current_user w = (Raise forbidden, w) /\
  deactivate_user env user_id current_user activate w = (Raise forbidden, w).
Proof.
  intros Hrole forbidden.
  unfold list_users, update_user_role, deactivate_user, bind, lift.
  rewrite (require_admin_refuses _ Hrole). repeat split.
Qed.

Lemma admin_endpoints_refuse_other_roles_witness :
  let w := begin_request auth_db 0 0 in
  update_user_role (model_env net_ok) 2
    (UpdateUserRoleRequest.mk ADMIN None) sample_domain_admin w
  = (Raise (HTTPException 403 "Admin privileges required"), w).
Proof.
  intro w.
  destruct (admin_endpoints_refuse_other_roles (model_env net_ok)
              sample_domain_admin 2 (UpdateUserRoleRequest.mk ADMIN None)
              true w) as (_ & H & _).
  - discriminate.
  - exact H.
Defined.

Lemma find_map_stable {A} (p : A -> bool) (f : A -> A) (l : list A) :
  (forall x, p (f x) = p x) ->
  find p (map f l) = option_map f (find p l).
Proof.
  intro Hp. induction l as [|x l IH]; simpl; [reflexivity|].
  rewrite Hp. destruct (p x); [reflexivity|exact IH].
Qed.

(** The rows of [users] after the row [id] was changed by [f]. *)
Lemma update_user_run id f w :
  update_user id f w
  = (Ok tt,
     mkWorld (db w)
       (with_users (sess w)
          (map (fun u => if User.id u =? id then f u else u) (users (sess w))))
       (ticks w) (posts w) (trace w)).
Proof. reflexivity. Qed.

Lemma update_user_role_run env user_id request admin w target :
  User.role admin = ADMIN ->
  find (fun u => User.id u =? user_id) (users (sess w)) = Some target ->
  let change := set_role (UpdateUserRoleRequest.role request)
                  (UpdateUserRoleRequest.domain request)
                  (clock env (ticks w)) in
  let d' := with_users (sess w)
              (map (fun u => if User.id u =? user_id then change u else u)
                   (users (sess w))) in
  update_user_role env user_id request admin w
  = (Ok (change target),
     mkWorld d' d' (S (ticks w)) (posts w)
       (trace w ++ [EvQuery "users"; EvCommit; EvQuery "users"])).
Proof.
  intros Hrole Hfind change d'.
  pose proof (find_some _ _ Hfind) as [_ Hid]. apply Z.eqb_eq in Hid.
  unfold update_user_role, session_get_user, update_user, commit, utcnow,
    emit, get_sess, set_sess, bind, lift, ret.
  rewrite (require_admin_ok _ Hrole). step. rewrite Hfind. step.
  rewrite Hid. unfold d', change. rewrite <- !app_assoc. reflexivity.
Qed.

Lemma deactivate_user_run env user_id admin activate w target :
  User.role admin = ADMIN ->
  find (fun u => User.id u =? user_id) (users (sess w)) = Some target ->
  let change := set_active activate (clock env (ticks w)) in
  let d' := with_users (sess w)
              (map (fun u => if User.id u =? user_id then change u else u)
                   (users (sess w))) in
  deactivate_user env user_id admin activate w
  = (Ok (change target),
     mkWorld d' d' (S (ticks w)) (posts w)
       (trace w ++ [EvQuery "users"; EvCommit; EvQuery "users"])).
Proof.
  intros Hrole Hfind change d'.
  pose proof (find_some _ _ Hfind) as [_ Hid]. apply Z.eqb_eq in Hid.
  unfold deactivate_user, session_get_user, update_user, commit, utcnow,
    emit, get_sess, set_sess, bind, lift, ret.
  rewrite (require_admin_ok _ Hrole). step. rewrite Hfind. step.
  rewrite Hid. unfold d', change. rewrite <- !app_assoc. reflexivity.
Qed.

(** X5: for an administrator, [update_user_role] answers 404 for an id that
    no user has and that fits in 64 bits, and ends in an [OverflowError],
    which nothing catches, for one that does not fit; in both cases the
    world is as it was but for the lookup.  For the id of a user it commits
    that user with the requested role and domain and a new [updated_at],
    and with the email, password hash, active flag and creation time it
    had; every user with another id, every mailbox and every reset token is
    as before. *)
Theorem update_user_role_changes_only_the_target
  (env : Env) (user_id : Z) (request : UpdateUserRoleRequest.t)
  (admin : User.t) (w : World) :
  User.role admin = ADMIN ->
  match find (fun u => User.id u =? user_id) (users (sess w)) with
  | None =>
      update_user_role env user_id request admin w
      = (Raise (if (- 2 ^ 63 <=? user_id) && (user_id <? 2 ^ 63)
                then user_not_found_404 user_id
                else OverflowError
                       "Python int too large to convert to SQLite INTEGER"),
         logged w [EvQuery "users"])
  | Some target =>
      exists w',
        let updated :=
          User.mk (User.id target) (User.email target)
            (User.hashed_password target)
            (UpdateUserRoleRequest.role request)
            (UpdateUserRoleRequest.domain request)
            (User.is_active target)
            (User.created_at target) (clock env (ticks w)) in
        update_user_role env user_id request admin w = (Ok updated, w') /\
        In updated (users (db w')) /\
        (forall u, In u (users (sess w)) -> User.id u <> user_id ->
                   In u (users (db w'))) /\
        map User.id (users (db w')) = map User.id (users (sess w)) /\
        email_accounts (db w') = email_accounts (sess w) /\
        password_reset_tokens (db w') = password_reset_tokens (sess w)
  end.
Proof.
  intro Hrole.
  destruct (find _ (users (sess w))) as [target|] eqn:Hfind.
  - eexists. split; [apply update_user_role_run; assumption|].
    pose proof (find_some _ _ Hfind) as [Hin Hid].
    simpl. repeat split.
    + apply in_map_iff. exists target. rewrite Hid. auto.
    + intros u Hu Hne. apply in_map_iff. exists u.
      apply Z.eqb_neq in Hne. rewrite Hne. auto.
    + rewrite map_map. apply map_ext. intro u.
      now destruct (User.id u =? user_id).
  - unfold update_user_role, session_get_user, fits_int64, emit, get_sess,
      bind, lift, ret, raise.
    rewrite (require_admin_ok _ Hrole). step. rewrite Hfind.
    destruct ((- 2 ^ 63 <=? user_id) && (user_id <? 2 ^ 63)); reflexivity.
Qed.

Lemma update_user_role_changes_only_the_target_witness :
  let w := begin_request auth_db 0 0 in
  let run := update_user_role (model_env net_ok) 2
               (UpdateUserRoleRequest.mk ADMIN None) sample_admin w in
  fst run
  = Ok (User.mk 2 "ops@a.com" "$2b$TestPass123!" ADMIN None true 20 1000)
  /\ fst (update_user_role (model_env net_ok) 9
            (UpdateUserRoleRequest.mk ADMIN None) sample_admin w)
     = Raise (HTTPException 404 "User 9 not found")
  /\ fst (update_user_role (model_env net_ok) (2 ^ 63)
            (UpdateUserRoleRequest.mk ADMIN None) sample_admin w)
     = Raise (OverflowError
                "Python int too large to convert to SQLite INTEGER").
Proof.
  intros w run. split.
  - pose proof (update_user_role_changes_only_the_target (model_env net_ok) 2
                  (UpdateUserRoleRequest.mk ADMIN None) sample_admin w
                  eq_refl) as H.
    simpl in H. destruct H as (w' & H & _). unfold run. now rewrite H.
  - split.
    + pose proof (update_user_role_changes_only_the_target (model_env net_ok)
                    9 (UpdateUserRoleRequest.mk ADMIN None) sample_admin w
                    eq_refl) as H.
      simpl in H. now rewrite H.
    + pose proof (update_user_role_changes_only_the_target (model_env net_ok)
                    (2 ^ 63) (UpdateUserRoleRequest.mk ADMIN None)
                    sample_admin w eq_refl) as H.
      change (find (fun u => User.id u =? 2 ^ 63) (users (sess w)))
        with (@None User.t) in H.
      cbv beta iota in H. rewrite H. reflexivity.
Defined.

(** ** Login and authentication *)

Lemma select_user_by_email_run email w :
  select_user_by_email email w
  = (Ok (find (fun u => String.eqb (User.email u) email) (users (sess w))),
     logged w [EvQuery "users"]).
Proof. reflexivity. Qed.

(** A refused login: the lookup, and nothing else. *)
Lemma login_refused env J cfg verify request w :
  match find (fun u => String.eqb (User.email u) (LoginRequest.email request))
             (users (sess w)) with
  | None => True
  | Some u => verify (LoginRequest.password request) (User.hashed_password u)
              = false
  end ->
  login env J cfg verify request w
  = (Raise bad_credentials, logged w [EvQuery "users"]).
Proof.
  unfold login, bind. rewrite select_user_by_email_run.
  destruct (find _ _) as [u|]; [|reflexivity].
  intros ->. reflexivity.
Qed.

(** X6: a login with an address that no user has and a login with a known
    address and a wrong password are answered alike: the same 401 with the
    same detail, after the same single lookup, and nothing is written. *)
Theorem login_failure_is_uniform
  (env : Env) (J : Jose) (cfg : AuthConfig)
  (verify : string -> string -> bool)
  (unknown known : LoginRequest.t) (u : User.t) (w : World) :
  find (fun x => String.eqb (User.email x) (LoginRequest.email unknown))
       (users (sess w)) = None ->
  find (fun x => String.eqb (User.email x) (LoginRequest.email known))
       (users (sess w)) = Some u ->
  verify (LoginRequest.password known) (User.hashed_password u) = false ->
  login env J cfg verify unknown w = login env J cfg verify known w /\
  login env J cfg verify known w
  = (Raise (HTTPException HTTP_401_UNAUTHORIZED "Incorrect email or password"),
     logged w [EvQuery "users"]).
Proof.
  intros Hnone Hsome Hbad.
  rewrite (login_refused env J cfg verify unknown w) by now rewrite Hnone.
  rewrite (login_refused env J cfg verify known w) by now rewrite Hsome.
  split; reflexivity.
Qed.

Lemma login_failure_is_uniform_witness :
  let w := begin_request auth_db 0 0 in
  login (model_env net_ok) sample_jose sample_auth_config model_verify
    (LoginRequest.mk "nobody@x.com" "TestPass123!") w
  = login (model_env net_ok) sample_jose sample_auth_config model_verify
      (LoginRequest.mk "ops@a.com" "WrongPass123!") w.
Proof.
  intro w.
  destruct (login_failure_is_uniform (model_env net_ok) sample_jose
              sample_auth_config model_verify
              (LoginRequest.mk "nobody@x.com" "TestPass123!")
              (LoginRequest.mk "ops@a.com" "WrongPass123!")
              (User.mk 2 "ops@a.com" "$2b$TestPass123!" DOMAIN_ADMIN
                 (Some "a.com") true 20 20)
              w eq_refl eq_refl eq_refl) as [H _].
  exact H.
Defined.

Lemma effective_ttl_minutes cfg :
  effective_ttl cfg (Some (minutes (JWT_EXPIRE_MINUTES cfg)))
  = minutes (JWT_EXPIRE_MINUTES cfg).
Proof.
  unfold effective_ttl. now destruct (minutes (JWT_EXPIRE_MINUTES cfg) =? 0).
Qed.

(** A granted login: the token that [create_access_token] signs. *)
Lemma login_granted env J cfg verify request w u :
  find (fun x => String.eqb (User.email x) (LoginRequest.email request))
       (users (sess w)) = Some u ->
  verify (LoginRequest.password request) (User.hashed_password u) = true ->
  User.is_active u = true ->
  login env J cfg verify request w
  = (Ok (TokenResponse.mk
           (jwt_encode J
              (signed_claims (User.id u) (User.email u)
                 (UserRole_value (User.role u))
                 (clock env (ticks w) + minutes (JWT_EXPIRE_MINUTES cfg)))
              (JWT_SECRET cfg) JWT_ALGORITHM)
           "bearer" (JWT_EXPIRE_MINUTES cfg * 60)),
     mkWorld (db w) (sess w) (S (ticks w)) (posts w)
       (trace w ++ [EvQuery "users"])).
Proof.
  intros Hfind Hver Hact.
  unfold login, bind. rewrite select_user_by_email_run, Hfind, Hver, Hact.
  cbv beta iota delta [negb]. rewrite create_access_token_run.
  rewrite effective_ttl_minutes. reflexivity.
Qed.

Lemma get_current_user_run env J cfg sql_eq token w :
  get_current_user env J cfg sql_eq token w
  = let w1 := mkWorld (db w) (sess w) (S (ticks w)) (posts w) (trace w) in
    match jwt_decode J token (JWT_SECRET cfg) [JWT_ALGORITHM]
            (clock env (ticks w)) with
    | inr _ => (Raise credentials_exception, w1)
    | inl payload =>
        match dict_get payload "user_id" with
        | None =>
            (Raise (HTTPException HTTP_401_UNAUTHORIZED
                      "Invalid authentication credentials"), w1)
        | Some v =>
            match find (fun u => sql_eq v (User.id u)) (users (sess w)) with
            | None =>
                (Raise (HTTPException HTTP_401_UNAUTHORIZED "User not found"),
                 logged w1 [EvQuery "users"])
            | Some user => (Ok user, logged w1 [EvQuery "users"])
            end
        end
    end.
Proof.
  unfold get_current_user, decode_access_token, bind, utcnow, ret, raise,
    emit, get_sess. simpl.
  destruct (jwt_decode J token _ _ _) as [payload|k]; [|reflexivity].
  simpl. destruct (dict_get payload "user_id") as [v|]; [|reflexivity].
  simpl. destruct (find _ _); reflexivity.
Qed.


Lemma find_pointwise {A} (p q : A -> bool) (l : list A) :
  (forall x, p x = q x) -> find p l = find q l.
Proof.
  intro H. induction l as [|x l IH]; simpl; [reflexivity|].
  now rewrite H, IH.
Qed.

(** X8: a login with the right password of an active user returns a bearer
    token whose [expires_in] is the token's time to live, and writes
    nothing.  Presented before its expiry, the token authenticates as the
    user who then has that id, if active, fails with 400 if that user has
    been deactivated and with 401 if there is none; presented after its
    expiry it fails with 401. *)
Theorem login_then_authenticate
  (env : Env) (J : Jose) (cfg : AuthConfig)
  (verify : string -> string -> bool) (sql_eq : claim_value -> Z -> bool)
  (request : LoginRequest.t) (u : User.t) (w : World) :
  let expiry := clock env (ticks w) + minutes (JWT_EXPIRE_MINUTES cfg) in
  find (fun x => String.eqb (User.email x) (LoginRequest.email request))
       (users (sess w)) = Some u ->
  verify (LoginRequest.password request) (User.hashed_password u) = true ->
  User.is_active u = true ->
  jose_contract J
    (signed_claims (User.id u) (User.email u) (UserRole_value (User.role u))
       expiry)
    (JWT_SECRET cfg) JWT_ALGORITHM ->
  (forall z i, sql_eq (CInt z) i = (z =? i)) ->
  exists tok w',
    login env J cfg verify request w
    = (Ok (TokenResponse.mk tok "bearer" (expiry - clock env (ticks w))), w') /\
    db w' = db w /\ sess w' = sess w /\
    (forall w2,
       clock env (ticks w2) < expiry ->
       fst (authenticate env J cfg sql_eq tok w2)
       = match find (fun x => User.id x =? User.id u) (users (sess w2)) with
         | Some u2 =>
             if User.is_active u2 then Ok u2
             else Raise (HTTPException HTTP_400_BAD_REQUEST "Inactive user")
         | None =>
             Raise (HTTPException HTTP_401_UNAUTHORIZED "User not found")
         end) /\
    (forall w2,
       expiry < clock env (ticks w2) ->
       fst (authenticate env J cfg sql_eq tok w2)
       = Raise credentials_exception).
Proof.
  intros expiry Hfind Hver Hact HJ Hsql.
  rewrite (login_granted env J cfg verify request w u Hfind Hver Hact).
  fold expiry. do 2 eexists. split.
  { f_equal. f_equal. f_equal. unfold expiry, minutes. lia. }
  simpl. repeat split.
  - intros w2 Hlt.
    destruct (HJ expiry (clock env (ticks w2)) eq_refl) as [Hbefore _].
    unfold authenticate, bind. rewrite get_current_user_run.
    rewrite (Hbefore Hlt). simpl.
    rewrite (find_pointwise _ (fun x => User.id x =? User.id u)).
    2:{ intro x. rewrite Hsql. apply Z.eqb_sym. }
    destruct (find (fun x => User.id x =? User.id u) (users (sess w2)))
      as [u2|]; simpl; [|reflexivity].
    unfold lift, get_current_active_user.
    now destruct (User.is_active u2).
  - intros w2 Hlt.
    destruct (HJ expiry (clock env (ticks w2)) eq_refl) as [_ Hafter].
    unfold authenticate, bind. rewrite get_current_user_run.
    now rewrite (Hafter Hlt).
Qed.

Lemma login_then_authenticate_witness :
  let env := model_env net_ok in
  let cfg := mkAuthConfig "s3cret" 1 in
  let ops := User.mk 2 "ops@a.com" "$2b$TestPass123!" DOMAIN_ADMIN
               (Some "a.com") true 20 20 in
  exists tok w',
    login env ops_jose cfg model_verify
      (LoginRequest.mk "ops@a.com" "TestPass123!") (begin_request auth_db 0 0)
    = (Ok (TokenResponse.mk tok "bearer" 60), w') /\
    fst (authenticate env ops_jose cfg model_sql_eq tok
           (begin_request auth_db 30 0)) = Ok ops /\
    fst (authenticate env ops_jose cfg model_sql_eq tok
           (begin_request auth_db 120 0)) = Raise credentials_exception.
Proof.
  intros env cfg ops.
  destruct (login_then_authenticate env ops_jose cfg model_verify
              model_sql_eq
              (LoginRequest.mk "ops@a.com" "TestPass123!") ops
              (begin_request auth_db 0 0))
    as (tok & w' & Hlogin & _ & _ & Hvalid & Hexpired); try reflexivity.
  { apply table_jose_contract. reflexivity. }
  exists tok, w'. split; [exact Hlogin|]. split.
  - rewrite Hvalid; [reflexivity|]. simpl. unfold minutes. lia.
  - apply Hexpired. simpl. unfold minutes. lia.
Defined.

(** ** Deactivation and password change, seen from the login *)

Lemma find_after_user_change (p : User.t -> bool) (i : Z)
  (f : User.t -> User.t) (l : list User.t) (u : User.t) :
  (forall x, p (f x) = p x) ->
  find p l = Some u -> User.id u = i ->
  find p (map (fun x => if User.id x =? i then f x else x) l) = Some (f u).
Proof.
  intros Hp Hfind Hid.
  rewrite find_map_stable.
  - rewrite Hfind. simpl. apply Z.eqb_eq in Hid. now rewrite Hid.
  - intro x. destruct (User.id x =? i); [apply Hp|reflexivity].
Qed.

Lemma find_by_id_found user_id l target :
  find (fun u => User.id u =? user_id) l = Some target ->
  User.id target = user_id.
Proof. intro H. apply find_some in H. now apply Z.eqb_eq. Qed.

(** X9: once an administrator has deactivated a user, a login of that user
    with the right password is refused with 400; once the administrator has
    reactivated the user, the same login is granted again. *)
Theorem deactivated_user_cannot_login
  (env : Env) (J : Jose) (cfg : AuthConfig)
  (verify : string -> string -> bool)
  (admin target : User.t) (user_id : Z) (request : LoginRequest.t)
  (w : World) :
  User.role admin = ADMIN ->
  find (fun u => User.id u =? user_id) (users (sess w)) = Some target ->
  find (fun u => String.eqb (User.email u) (LoginRequest.email request))
       (users (sess w)) = Some target ->
  verify (LoginRequest.password request) (User.hashed_password target) = true ->
  let off := snd (deactivate_user env user_id admin false w) in
  forall w2, sess w2 = db off ->
    login env J cfg verify request w2
    = (Raise (HTTPException HTTP_400_BAD_REQUEST "Inactive user account"),
       logged w2 [EvQuery "users"]) /\
    let on := snd (deactivate_user env user_id admin true w2) in
    forall w3, sess w3 = db on ->
      exists token w',
        login env J cfg verify request w3 = (Ok token, w').
Proof.
  intros Hrole Hid Hemail Hver off w2 Hs2.
  pose proof (find_by_id_found _ _ _ Hid) as Htid.
  unfold off in Hs2.
  rewrite (deactivate_user_run env user_id admin false w target Hrole Hid)
    in Hs2.
  simpl in Hs2.
  set (t0 := set_active false (clock env (ticks w)) target).
  assert (Hemail2 :
    find (fun u => String.eqb (User.email u) (LoginRequest.email request))
         (users (sess w2)) = Some t0).
  { rewrite Hs2. simpl. now apply find_after_user_change. }
  assert (Hid2 :
    find (fun u => User.id u =? user_id) (users (sess w2)) = Some t0).
  { rewrite Hs2. simpl. now apply find_after_user_change. }
  split.
  - unfold login, bind. rewrite select_user_by_email_run, Hemail2.
    simpl. rewrite Hver. reflexivity.
  - intros on w3 Hs3. unfold on in Hs3.
    rewrite (deactivate_user_run env user_id admin true w2 t0 Hrole Hid2)
      in Hs3.
    simpl in Hs3.
    do 2 eexists.
    apply (login_granted env J cfg verify request w3
             (set_active true (clock env (ticks w2)) t0)).
    + rewrite Hs3. simpl. now apply find_after_user_change.
    + exact Hver.
    + reflexivity.
Qed.

Lemma deactivated_user_cannot_login_witness :
  let env := model_env net_ok in
  let request := LoginRequest.mk "ops@a.com" "TestPass123!" in
  let off := snd (deactivate_user env 2 sample_admin false
                    (begin_request auth_db 0 0)) in
  fst (login env ops_jose sample_auth_config model_verify request
         (begin_request (db off) 1 0))
  = Raise (HTTPException 400 "Inactive user account").
Proof.
  intros env request off.
  destruct (deactivated_user_cannot_login env ops_jose sample_auth_config
              model_verify sample_admin
              (User.mk 2 "ops@a.com" "$2b$TestPass123!" DOMAIN_ADMIN
                 (Some "a.com") true 20 20)
              2 request (begin_request auth_db 0 0)
              eq_refl eq_refl eq_refl eq_refl
              (begin_request (db off) 1 0) eq_refl) as [H _].
  now rewrite H.
Defined.

(** ** The password reset, in all its branches *)

(** X11: a submitted reset commits nothing, sends no request to the
    control panel and never ends in the redirect.  It answers with a page
    (invalid link, mismatch, weak password, unknown user), the session
    being as it was; or, when the token is unused and unexpired, the two
    passwords are equal and strong and the user exists, it ends in the
    [ValueError] of the field that [User] does not declare. *)
Theorem reset_password_commits_nothing
  (env : Env) (token pw confirm : string) (w : World) :
  db (snd (process_reset_password env token pw confirm w)) = db w /\
  posts (snd (process_reset_password env token pw confirm w)) = posts w /\
  (forall url status_code,
     fst (process_reset_password env token pw confirm w)
     <> Ok (RedirectResponse url status_code)) /\
  ((exists name context,
      fst (process_reset_password env token pw confirm w)
      = Ok (TemplateResponse name context) /\
      sess (snd (process_reset_password env token pw confirm w)) = sess w) \/
   (fst (process_reset_password env token pw confirm w)
    = Raise (no_such_field "User" "must_change_password") /\
    exists rt user,
      find (has_token token) (password_reset_tokens (sess w)) = Some rt /\
      PasswordResetToken.used rt = false /\
      (PasswordResetToken.expires_at rt <? clock env (ticks w)) = false /\
      pw = confirm /\ validate_password pw = Ok tt /\
      find (fun u => User.id u =? PasswordResetToken.user_id rt)
           (users (sess w)) = Some user)).
Proof.
  destruct (process_reset_password_cases env token pw confirm w)
    as (Hdb & Hposts & Hcases).
  cbv zeta in *.
  split; [exact Hdb|]. split; [exact Hposts|]. split.
  - intros url code H.
    destruct Hcases as [(name & context & Hr & _)|(rt & user & Hrest)].
    + rewrite Hr in H. discriminate.
    + destruct Hrest as (_ & _ & _ & _ & _ & _ & Hr).
      rewrite Hr in H. discriminate.
  - destruct Hcases as [(name & context & Hr & Hs)
                       |(rt & user & Ht & Hu & He & Hc & Hv & Hf & Hr)].
    + left. eauto.
    + right. split; [exact Hr|]. exists rt, user. repeat split; assumption.
Qed.

(** X12: a token that is marked used is refused by both reset endpoints,
    whatever the passwords: the submission gets the invalid-request page
    and the form is replaced by the page "Link Already Used", each after
    the token lookup alone. *)
Theorem used_reset_token_is_refused
  (env : Env) (token pw confirm : string) (rt : PasswordResetToken.t)
  (w : World) :
  find (has_token token) (password_reset_tokens (sess w)) = Some rt ->
  PasswordResetToken.used rt = true ->
  process_reset_password env token pw confirm w
  = (Ok invalid_request, logged w [EvQuery "password_reset_tokens"]) /\
  get_reset_password_form env token w
  = (Ok link_already_used, logged w [EvQuery "password_reset_tokens"]).
Proof.
  intros Htok Hused.
  unfold process_reset_password, get_reset_password_form, select_reset_token,
    bind, emit, get_sess, ret.
  step. fold (has_token token). rewrite Htok, Hused. split; reflexivity.
Qed.

Lemma used_reset_token_is_refused_witness :
  let w := begin_request
             (mkDb [sample_domain_admin] []
                [PasswordResetToken.mk "tok-1" 2 5000 true]) 0 0 in
  fst (process_reset_password (model_env net_ok) "tok-1" "NewPass456!"
         "NewPass456!" w) = Ok invalid_request /\
  fst (get_reset_password_form (model_env net_ok) "tok-1" w)
  = Ok link_already_used.
Proof.
  intro w.
  destruct (used_reset_token_is_refused (model_env net_ok) "tok-1"
              "NewPass456!" "NewPass456!"
              (PasswordResetToken.mk "tok-1" 2 5000 true) w eq_refl eq_refl)
    as [Hp Hf].
  rewrite Hp, Hf. split; reflexivity.
Defined.

(** X13: the form is shown for a token exactly when a submission with that
    token, made at the same clock reading, is not turned down as an invalid
    request; showing the form writes nothing and sends nothing. *)
Theorem reset_form_agrees_with_submission
  (env : Env) (token pw confirm : string) (w : World) :
  (fst (get_reset_password_form env token w) = Ok (reset_form token) <->
   fst (process_reset_password env token pw confirm w) <> Ok invalid_request) /\
  db (snd (get_reset_password_form env token w)) = db w /\
  sess (snd (get_reset_password_form env token w)) = sess w /\
  posts (snd (get_reset_password_form env token w)) = posts w.
Proof.
  split.
  2:{ unfold get_reset_password_form, select_reset_token, utcnow, bind, emit,
        get_sess, ret. step.
      destruct (find _ _) as [rt|]; [|repeat split].
      destruct (PasswordResetToken.used rt); [repeat split|]. step.
      destruct (_ <? _); repeat split. }
  unfold process_reset_password, get_reset_password_form,
    select_reset_token, select_user, update_user, set_must_change_password,
    utcnow, bind, emit, get_sess, set_sess, ret, raise.
  step. fold (has_token token).
  destruct (find (has_token token) (password_reset_tokens (sess w)))
    as [rt|]; [|simpl; split; [discriminate|intro H; now destruct H]].
  destruct (PasswordResetToken.used rt);
    [simpl; split; [discriminate|intro H; now destruct H]|].
  step.
  destruct (_ <? _);
    [simpl; split; [discriminate|intro H; now destruct H]|].
  simpl fst at 1. split; [|reflexivity]. intros _.
  destruct (negb (String.eqb pw confirm)); [simpl; discriminate|].
  destruct (validate_password pw); [|simpl; discriminate]. step.
  destruct (find _ (users (sess w))); simpl; discriminate.
Qed.

(** ** The reconciliation pass is one-way *)

Lemma sync_all_keeps_row env d x : forall l w w',
  table_ok (email_accounts (sess w)) ->
  In x (email_accounts (sess w)) ->
  EmailAccount.deleted_at x = None \/
  (forall u, In u l -> mailbox_key x <> (u, d)) ->
  sync_all env (Some d) l w = (Ok tt, w') ->
  In x (email_accounts (sess w')).
Proof.
  induction l as [|u l IH]; intros w w' Hok Hin Hx H.
  - simpl in H. injection H as <-. exact Hin.
  - destruct (sync_all_cons_inv _ _ _ _ _ _ H) as (w1 & H1 & H2).
    eapply IH; [| | |exact H2].
    + eapply sync_one_table_ok; eauto.
    + eapply sync_one_keeps_row; [exact Hok|exact Hin| |exact H1].
      destruct Hx as [Hx|Hx]; [now right|left; apply Hx; now left].
    + destruct Hx as [Hx|Hx]; [now left|right].
      intros u' Hu'. apply Hx. now right.
Qed.

Lemma sync_one_ids env d u w w' :
  sync_one env d u w = (Ok tt, w') ->
  exists extra,
    map EmailAccount.id (email_accounts (sess w'))
    = (map EmailAccount.id (email_accounts (sess w)) ++ extra)%list.
Proof.
  intro H. destruct (sync_one_inv _ _ _ _ _ H) as (_ & _ & Hc).
  destruct Hc as [(r & Hf & Hd & ->)|[(r & t & Hf & Hd & ->)|(dom & -> & Hf & ->)]];
    simpl.
  - exists []. now rewrite app_nil_r.
  - exists []. rewrite app_nil_r. unfold resurrect_rows.
    now apply update_rows_ids.
  - eexists. rewrite map_app. reflexivity.
Qed.

Lemma sync_all_ids env d : forall l w w',
  sync_all env d l w = (Ok tt, w') ->
  exists extra,
    map EmailAccount.id (email_accounts (sess w'))
    = (map EmailAccount.id (email_accounts (sess w)) ++ extra)%list.
Proof.
  induction l as [|u l IH]; intros w w' H.
  - simpl in H. injection H as <-. exists []. now rewrite app_nil_r.
  - destruct (sync_all_cons_inv _ _ _ _ _ _ H) as (w1 & H1 & H2).
    destruct (sync_one_ids _ _ _ _ _ H1) as (e1 & E1).
    destruct (IH _ _ H2) as (e2 & E2).
    exists (e1 ++ e2)%list. now rewrite E2, E1, app_assoc.
Qed.

(** X15: the reconciliation pass never deletes and never removes.  A row
    that is active, or is of another domain, or whose username the remote
    list does not have, is committed exactly as it was; so a mailbox that
    the control panel no longer lists stays active and is still returned;
    and the pass only adds rows after those that were there. *)
Theorem reconciliation_is_one_way
  (env : Env) (d : string) (l : list string) (w w' : World)
  (res : list EmailAccount.t) :
  table_ok (email_accounts (sess w)) ->
  sync_domain env (Some d) l w = (Ok res, w') ->
  (forall x, In x (email_accounts (sess w)) ->
     EmailAccount.deleted_at x = None \/ EmailAccount.domain x <> d \/
     ~ In (EmailAccount.username x) l ->
     In x (email_accounts (db w'))) /\
  (forall x, In x (email_accounts (sess w)) ->
     EmailAccount.deleted_at x = None -> EmailAccount.domain x = d ->
     In x res) /\
  (exists extra,
     map EmailAccount.id (email_accounts (db w'))
     = (map EmailAccount.id (email_accounts (sess w)) ++ extra)%list).
Proof.
  intros Hok H.
  destruct (sync_domain_inv _ _ _ _ _ _ H) as (wa & Hall & -> & ->).
  simpl. repeat split.
  - intros x Hin Hx. eapply sync_all_keeps_row; [exact Hok|exact Hin| |exact Hall].
    destruct Hx as [Hx|[Hx|Hx]]; [now left| |]; right; intros u Hu E;
      unfold mailbox_key in E; injection E as E1 E2.
    + contradiction.
    + apply Hx. now rewrite E1.
  - intros x Hin Hact Hd. apply filter_In. split.
    + eapply sync_all_keeps_row; [exact Hok|exact Hin|now left|exact Hall].
    + unfold active_in, is_active_row. rewrite Hact, Hd. simpl.
      now rewrite String.eqb_refl.
  - eapply sync_all_ids; eauto.
Qed.

Lemma reconciliation_is_one_way_witness :
  In deleted_alice
     (email_accounts
        (db (snd (sync_domain (model_env net_ok) (Some "x.com") ["carol"]
                    (begin_request sample_db 0 0))))) /\
  In bob
     (email_accounts
        (db (snd (sync_domain (model_env net_ok) (Some "x.com") ["carol"]
                    (begin_request sample_db 0 0))))).
Proof.
  set (run := sync_domain (model_env net_ok) (Some "x.com") ["carol"]
                (begin_request sample_db 0 0)).
  assert (Hrun : exists res, run = (Ok res, snd run))
    by (eexists; vm_compute; reflexivity).
  destruct Hrun as (res & Hrun).
  destruct (reconciliation_is_one_way (model_env net_ok) "x.com" ["carol"]
              (begin_request sample_db 0 0) (snd run) res) as (Hkeep & _ & _).
  - split; repeat constructor; simpl; intuition discriminate.
  - exact Hrun.
  - split; apply Hkeep; simpl; auto.
    right. right. simpl. intuition discriminate.
Defined.

(** ** What the reconciliation pass returns *)

(** No row, deleted or not, for the mailbox. *)
Lemma sync_one_keeps_absent env d u u' w w' :
  u' <> u ->
  find (same_mailbox u (Some d)) (email_accounts (sess w)) = None ->
  sync_one env (Some d) u' w = (Ok tt, w') ->
  find (same_mailbox u (Some d)) (email_accounts (sess w')) = None.
Proof.
  intros Hne Habs H.
  destruct (sync_one_inv _ _ _ _ _ H) as (_ & _ & Hc).
  destruct Hc as [(r & Hf & Hd & ->)|[(r & t & Hf & Hd & ->)|(dom & Hdom & Hf & ->)]];
    simpl.
  - exact Habs.
  - unfold resurrect_rows.
    rewrite find_update_rows by apply same_mailbox_resurrected.
    now rewrite Habs.
  - rewrite (find_app_none _ _ _ Habs). simpl.
    unfold same_mailbox, backfilled. simpl.
    destruct (String.eqb u' u) eqn:E; [|reflexivity].
    apply String.eqb_eq in E. contradiction.
Qed.

Lemma sync_all_backfills env d u : forall l w w',
  table_ok (email_accounts (sess w)) ->
  find (same_mailbox u (Some d)) (email_accounts (sess w)) = None ->
  In u l ->
  sync_all env (Some d) l w = (Ok tt, w') ->
  exists id created updated,
    In (EmailAccount.mk id u d 1000 None created updated None)
       (email_accounts (sess w')).
Proof.
  induction l as [|u' l IH]; intros w w' Hok Habs Hu H; [destruct Hu|].
  destruct (sync_all_cons_inv _ _ _ _ _ _ H) as (w1 & H1 & H2).
  pose proof (sync_one_table_ok _ _ _ _ _ Hok H1) as Hok1.
  destruct (string_dec u' u) as [->|Hne].
  - rewrite (sync_one_absent env (Some d) u w d eq_refl Habs) in H1.
    injection H1 as <-.
    do 3 eexists.
    eapply sync_all_keeps_active_row; [exact Hok1| |reflexivity|exact H2].
    simpl. apply in_or_app. right. left. reflexivity.
  - destruct Hu as [Hu|Hu]; [contradiction|].
    eapply IH; [exact Hok1| |exact Hu|exact H2].
    eapply sync_one_keeps_absent; eauto.
Qed.

(** X16: the records that the pass returns cover the remote list: for every
    remote username there is an active row of the domain among them; and
    where the table had no row at all for the mailbox, the row is a new one
    with the default quota of 1000 and no creator. *)
Theorem reconciliation_returns_the_remote_list
  (env : Env) (d : string) (l : list string) (w w' : World)
  (res : list EmailAccount.t) :
  sync_domain env (Some d) l w = (Ok res, w') ->
  forall u, In u l ->
    (exists r, In r res /\ EmailAccount.username r = u /\
               EmailAccount.domain r = d /\
               EmailAccount.deleted_at r = None) /\
    (table_ok (email_accounts (sess w)) ->
     find (same_mailbox u (Some d)) (email_accounts (sess w)) = None ->
     exists id created updated,
       In (EmailAccount.mk id u d 1000 None created updated None) res).
Proof.
  intros H u Hu.
  destruct (sync_domain_inv _ _ _ _ _ _ H) as (wa & Hall & -> & _).
  split.
  - destruct (sync_all_settles _ _ _ _ _ Hall u Hu) as (r & Hf & Hact).
    apply find_some in Hf. destruct Hf as [Hin Hk].
    apply same_mailbox_key in Hk. unfold mailbox_key in Hk.
    injection Hk as Hname Hdom.
    exists r. repeat split; try assumption.
    apply filter_In. split; [exact Hin|].
    unfold active_in, is_active_row. rewrite Hact, Hdom. simpl.
    now rewrite String.eqb_refl.
  - intros Hok Habs.
    destruct (sync_all_backfills env d u l w wa Hok Habs Hu Hall)
      as (id & c1 & c2 & Hin).
    exists id, c1, c2. apply filter_In. split; [exact Hin|].
    unfold active_in, is_active_row. simpl. now rewrite String.eqb_refl.
Qed.

Lemma reconciliation_returns_the_remote_list_witness :
  exists res,
    fst (sync_domain (model_env net_ok) (Some "x.com") ["alice"; "carol"]
           (begin_request sample_db 0 0)) = Ok res /\
    exists id created updated,
      In (EmailAccount.mk id "carol" "x.com" 1000 None created updated None)
         res.
Proof.
  set (run := sync_domain (model_env net_ok) (Some "x.com") ["alice"; "carol"]
                (begin_request sample_db 0 0)).
  assert (Hrun : exists res, run = (Ok res, snd run))
    by (eexists; vm_compute; reflexivity).
  destruct Hrun as (res & Hrun).
  exists res. split; [now rewrite Hrun|].
  destruct (reconciliation_returns_the_remote_list (model_env net_ok) "x.com"
              ["alice"; "carol"] (begin_request sample_db 0 0) (snd run) res
              Hrun "carol") as (_ & Hnew).
  - simpl. auto.
  - apply Hnew.
    + split; repeat constructor; simpl; intuition discriminate.
    + reflexivity.
Defined.

(** ** The mailbox endpoints look before they call *)

Lemma create_email_no_host env request user w :
  getenv env "DIRECTADMIN_HOST" = None ->
  db (snd (create_email env request user w)) = db w.
Proof.
  intro Hh. unfold create_email, try_endpoint, bind at 1, lift.
  destruct (validate_password _) as [[]|e]; simpl; [|reflexivity].
  unfold bind at 1.
  destruct (check_domain_param_tampering user _) as [[]|e]; simpl;
    [|reflexivity].
  unfold bind at 1.
  destruct (check_domain_access user _) as [[]|e]; simpl; [|reflexivity].
  unfold bind at 1, get_da_client. rewrite Hh. reflexivity.
Qed.

Lemma create_email_conflict env request user w eff x :
  validate_password (CreateEmailRequest.password request) = Ok tt ->
  authorized_domain env user (CreateEmailRequest.domain request) = Ok eff ->
  getenv env "DIRECTADMIN_HOST" <> None ->
  find (selects (CreateEmailRequest.username request) eff true)
       (email_accounts (sess w)) = Some x ->
  create_email env request user w
  = (Raise (HTTPException HTTP_409_CONFLICT
              ("Email " ++ CreateEmailRequest.username request ++ "@"
                 ++ py_str eff ++ " already exists")),
     logged w [EvQuery "email_accounts"]).
Proof.
  unfold authorized_domain. intros Hv Hauth Hhost Hfind.
  unfold create_email, try_endpoint, bind at 1, lift.
  rewrite Hv. simpl. unfold bind at 1.
  destruct (check_domain_param_tampering user _) as [[]|e]; simpl;
    [|discriminate].
  unfold bind at 1. simpl in Hauth.
  destruct (check_domain_access user _) as [[]|e]; simpl; [|discriminate].
  injection Hauth as Heff. rewrite Heff.
  unfold bind at 1, get_da_client.
  destruct (getenv env "DIRECTADMIN_HOST") as [host|]; [|congruence]. simpl.
  unfold bind at 1, select_email, bind, emit, get_sess, ret. simpl.
  rewrite Hfind. reflexivity.
Qed.

(** X17: a run of [create_email] that writes the row of the mailbox ends in
    500: the row is committed, and then the handler reads
    [request.notify_email], which the request model does not declare.  A
    later request for the same username and domain parameter (with a
    password that the rules accept) is answered 409 Conflict, after the one
    local query and before any request to the control panel; the tables
    stay as they are. *)
Theorem created_mailbox_cannot_be_created_again
  (env : Env) (request request2 : CreateEmailRequest.t) (user : User.t)
  (w w2 : World) :
  db (snd (create_email env request user w)) <> db w ->
  sess w2 = db (snd (create_email env request user w)) ->
  CreateEmailRequest.username request2 = CreateEmailRequest.username request ->
  CreateEmailRequest.domain request2 = CreateEmailRequest.domain request ->
  validate_password (CreateEmailRequest.password request2) = Ok tt ->
  fst (create_email env request user w) = Raise notify_email_missing /\
  exists dom,
    create_email env request2 user w2
    = (Raise (HTTPException HTTP_409_CONFLICT
                ("Email " ++ CreateEmailRequest.username request ++ "@"
                   ++ dom ++ " already exists")),
       logged w2 [EvQuery "email_accounts"]).
Proof.
  intros Hwrote Hsess Hu Hd Hv.
  assert (Hhost : getenv env "DIRECTADMIN_HOST" <> None).
  { intro Hh. apply Hwrote. now apply create_email_no_host. }
  destruct (create_email_cases env request user w)
    as [(e & w1 & H1 & Hdb)|(eff & dom & k & evs & Hauth & -> & _ & _ & _ & H1)].
  { exfalso. apply Hwrote. now rewrite H1. }
  cbv zeta in H1. rewrite H1 in Hsess |- *. cbn [fst snd] in *.
  split; [reflexivity|]. exists dom.
  set (row := EmailAccount.mk _ _ _ _ _ _ _ _) in *.
  destruct (find (selects (CreateEmailRequest.username request2) (Some dom) true)
              (email_accounts (sess w2))) as [x|] eqn:Hfind.
  - rewrite (create_email_conflict env request2 user w2 (Some dom) x Hv);
      [now rewrite Hu| now rewrite Hd | exact Hhost | exact Hfind].
  - exfalso.
    assert (Hin : In row (email_accounts (sess w2))).
    { rewrite Hsess. simpl. apply in_or_app. right. now left. }
    pose proof (find_none _ _ Hfind row Hin) as Hno.
    unfold selects, same_mailbox, is_active_row in Hno. subst row.
    simpl in Hno. rewrite Hu, !String.eqb_refl in Hno. discriminate.
Qed.

Lemma created_mailbox_cannot_be_created_again_witness :
  fst (create_email (model_env net_ok) (sample_create_request "Passw0rd1" None)
         sample_admin (begin_request empty_db 0 0))
  = Raise notify_email_missing /\
  fst (create_email (model_env net_ok)
         (sample_create_request "0therPass" None) sample_admin
         (begin_request
            (db (snd (create_email (model_env net_ok)
                        (sample_create_request "Passw0rd1" None)
                        sample_admin (begin_request empty_db 0 0)))) 0 0))
  = Raise (HTTPException HTTP_409_CONFLICT
             "Email alice@x.com already exists").
Proof.
  destruct (created_mailbox_cannot_be_created_again (model_env net_ok)
              (sample_create_request "Passw0rd1" None)
              (sample_create_request "0therPass" None) sample_admin
              (begin_request empty_db 0 0)
              (begin_request
                 (db (snd (create_email (model_env net_ok)
                             (sample_create_request "Passw0rd1" None)
                             sample_admin (begin_request empty_db 0 0))))
                 0 0))
    as (H1 & dom & H2).
  - vm_compute. discriminate.
  - reflexivity.
  - reflexivity.
  - reflexivity.
  - reflexivity.
  - split; [exact H1|].
    assert (E : fst (create_email (model_env net_ok)
                       (sample_create_request "0therPass" None) sample_admin
                       (begin_request
                          (db (snd (create_email (model_env net_ok)
                                      (sample_create_request "Passw0rd1" None)
                                      sample_admin
                                      (begin_request empty_db 0 0)))) 0 0))
                = Raise (HTTPException HTTP_409_CONFLICT
                           "Email alice@x.com already exists"))
      by (vm_compute; reflexivity).
    exact E.
Defined.

Lemma change_password_not_found env username new_password user domain w eff :
  validate_password new_password = Ok tt ->
  authorized_domain env user domain = Ok eff ->
  getenv env "DIRECTADMIN_HOST" <> None ->
  find (selects username eff true) (email_accounts (sess w)) = None ->
  change_password env username new_password user domain w
  = (Raise (not_found username eff), logged w [EvQuery "email_accounts"]).
Proof.
  unfold authorized_domain. intros Hv Hauth Hhost Hfind.
  unfold change_password, try_endpoint, bind at 1, lift.
  rewrite Hv. simpl. unfold bind at 1.
  destruct (check_domain_param_tampering user domain) as [[]|e]; simpl;
    [|discriminate].
  unfold bind at 1. simpl in Hauth.
  destruct (check_domain_access user _) as [[]|e]; simpl; [|discriminate].
  injection Hauth as Heff. rewrite Heff.
  unfold bind at 1, get_da_client.
  destruct (getenv env "DIRECTADMIN_HOST") as [host|]; [|congruence]. simpl.
  unfold bind at 1, select_email, bind, emit, get_sess, ret. simpl.
  rewrite Hfind. reflexivity.
Qed.

(** X18: a soft-deleted mailbox is gone for the endpoints: once
    [delete_email] has succeeded, deleting the same mailbox again, or
    changing its password, is answered 404 Not Found after the one local
    query, with no request to the control panel and no change to the
    tables. *)
Theorem deleted_mailbox_is_not_found
  (env : Env) (username : string) (user : User.t) (domain : option string)
  (w w' w2 : World) (msg : string) :
  table_ok (email_accounts (sess w)) ->
  delete_email env username user domain w = (Ok msg, w') ->
  sess w2 = db w' ->
  exists eff,
    authorized_domain env user domain = Ok eff /\
    delete_email env username user domain w2
    = (Raise (not_found username eff), logged w2 [EvQuery "email_accounts"]) /\
    forall new_password,
      validate_password new_password = Ok tt ->
      change_password env username new_password user domain w2
      = (Raise (not_found username eff),
         logged w2 [EvQuery "email_accounts"]).
Proof.
  intros Hok H Hsess.
  destruct (delete_email_cases env username user domain w)
    as [(e & w1 & H1 & _)
       |(eff & x & k & evs & msg' & Hauth & Hhost & Hfind & _ & _ & H1)].
  { rewrite H1 in H. discriminate. }
  cbv zeta in H1. rewrite H1 in H. injection H as _ <-.
  assert (Hnone : find (selects username eff true) (email_accounts (sess w2))
                  = None).
  { rewrite Hsess. simpl.
    destruct Hok as [_ Hkeys].
    now apply no_active_row_after_soft_delete. }
  exists eff. split; [exact Hauth|]. split.
  - now apply delete_email_not_found.
  - intros p Hp. now apply change_password_not_found.
Qed.

Lemma deleted_mailbox_is_not_found_witness :
  exists msg w',
    delete_email (model_env net_ok) "bob" sample_admin None
      (begin_request sample_db 0 0) = (Ok msg, w') /\
    fst (delete_email (model_env net_ok) "bob" sample_admin None
           (begin_request (db w') 0 0))
    = Raise (not_found "bob" (Some "x.com")).
Proof.
  exists "Email bob@x.com deleted successfully".
  exists (snd (delete_email (model_env net_ok) "bob" sample_admin None
                 (begin_request sample_db 0 0))).
  split; [vm_compute; reflexivity|].
  destruct (deleted_mailbox_is_not_found (model_env net_ok) "bob" sample_admin
              None (begin_request sample_db 0 0)
              (snd (delete_email (model_env net_ok) "bob" sample_admin None
                      (begin_request sample_db 0 0)))
              (begin_request
                 (db (snd (delete_email (model_env net_ok) "bob" sample_admin
                             None (begin_request sample_db 0 0)))) 0 0)
              "Email bob@x.com deleted successfully")
    as (eff & Hauth & Hdel & _).
  - split; repeat constructor; simpl; intuition discriminate.
  - vm_compute; reflexivity.
  - reflexivity.
  - rewrite Hdel. vm_compute in Hauth. injection Hauth as <-. reflexivity.
Defined.

(** ** The retry loop for any number of attempts *)

Lemma pauses_app evs evs' : pauses (evs ++ evs') = pauses evs + pauses evs'.
Proof.
  induction evs as [|e evs IH]; [reflexivity|].
  destruct e; simpl; rewrite IH; lia.
Qed.

Lemma pauses_backoff url params : forall k attempt,
  pauses (backoff url params attempt k)
  = 2 ^ Z.of_nat attempt * (2 ^ Z.of_nat k - 1).
Proof.
  induction k as [|k IH]; intro attempt.
  - simpl. lia.
  - cbn [backoff pauses]. rewrite IH.
    rewrite !Nat2Z.inj_succ, !Z.pow_succ_r by lia. lia.
Qed.

Lemma attempts_pauses env url params n : forall remaining attempt w,
  (attempt + remaining = n)%nat ->
  (0 < remaining)%nat ->
  pauses (trace (snd (DirectAdminClient.attempts env url params n attempt
                        remaining w)))
  + 2 ^ Z.of_nat attempt
  <= pauses (trace w) + 2 ^ Z.of_nat (n - 1).
Proof.
  induction remaining as [|r IH]; intros attempt w Hsum Hpos; [lia|].
  assert (Hmono : 2 ^ Z.of_nat attempt <= 2 ^ Z.of_nat (n - 1))
    by (apply Z.pow_le_mono_r; lia).
  simpl. unfold bind at 1. unfold httpx_post.
  set (w1 := mkWorld _ _ _ _ _).
  assert (Hw1 : pauses (trace w1) = pauses (trace w))
    by (unfold w1; cbn [trace]; rewrite pauses_app; cbn [pauses]; lia).
  assert (Hs : attempt <> (n - 1)%nat ->
    pauses (trace (snd (bind (sleep (2 ^ Z.of_nat attempt))
                          (fun _ => DirectAdminClient.attempts env url params
                                      n (S attempt) r) w1)))
    + 2 ^ Z.of_nat attempt
    <= pauses (trace w) + 2 ^ Z.of_nat (n - 1)).
  { intro Hne. unfold bind, sleep, emit. cbn [fst snd].
    set (w2 := mkWorld _ _ _ _ _).
    assert (Hw2 : pauses (trace w2) = pauses (trace w) + 2 ^ Z.of_nat attempt)
      by (unfold w2, w1; cbn [trace]; rewrite !pauses_app; cbn [pauses];
          lia).
    pose proof (IH (S attempt) w2 ltac:(lia) ltac:(lia)) as Hr.
    rewrite Nat2Z.inj_succ, Z.pow_succ_r in Hr by lia.
    destruct (DirectAdminClient.attempts env url params n (S attempt) r w2)
      as [res w3]. cbn [fst snd] in *. lia. }
  destruct (network env (posts w)) as [sc text|msg].
  - destruct (DirectAdminClient.is_success sc).
    + unfold lift. cbn [fst snd]. lia.
    + destruct (Nat.eqb attempt (n - 1)) eqn:E.
      * unfold raise. cbn [fst snd]. lia.
      * apply Hs. now apply Nat.eqb_neq.
  - destruct (Nat.eqb attempt (n - 1)) eqn:E.
    + unfold raise. cbn [fst snd]. lia.
    + apply Hs. now apply Nat.eqb_neq.
Qed.

(** X19: [_make_request] for any [max_retries].  With [max_retries = 0] it
    sends nothing and raises "Max retries exceeded".  When each of the
    [n > 0] attempts fails, it sends exactly [n] requests, pauses
    [2^(n-1) - 1] seconds in all and raises the error of the last attempt.
    Whatever the network does, a call sends at most [n] requests and pauses
    at most [2^(n-1) - 1] seconds. *)
Theorem make_request_any_retry_count
  (env : Env) (self : DirectAdminClient.t) (endpoint : string) (params : dict)
  (n : nat) (w : World) :
  let run := DirectAdminClient._make_request env self endpoint params n w in
  (n = 0%nat ->
   run = (Raise (DirectAdminError (VStr "Max retries exceeded") None), w)) /\
  ((0 < n)%nat ->
   (forall i, (i < n)%nat -> failed (network env (posts w + i)) = true) ->
   fst run = Raise (failure_error (network env (posts w + (n - 1)))) /\
   posts (snd run) = (posts w + n)%nat /\
   pauses (trace (snd run))
   = pauses (trace w) + 2 ^ Z.of_nat (n - 1) - 1) /\
  (posts (snd run) <= posts w + n)%nat /\
  pauses (trace (snd run)) <= pauses (trace w) + 2 ^ Z.of_nat (n - 1) - 1.
Proof.
  intro run. unfold run, DirectAdminClient._make_request.
  split; [|split; [|split]].
  - intros ->. reflexivity.
  - intros Hpos Hfail.
    rewrite attempts_exhausted by assumption.
    cbn [fst snd]. unfold after_requests. cbn [posts trace].
    repeat split.
    rewrite !pauses_app, pauses_backoff. cbn [pauses].
    change (2 ^ Z.of_nat 0) with 1. lia.
  - apply attempts_bounded.
  - destruct n as [|n].
    + simpl. lia.
    + pose proof (attempts_pauses env
                    (DirectAdminClient.host self ++ "/" ++ endpoint) params
                    (S n) (S n) 0%nat w eq_refl ltac:(lia)) as H.
      change (2 ^ Z.of_nat 0) with 1 in H. lia.
Qed.

Example make_request_five_attempts :
  let run := DirectAdminClient._make_request (model_env (net_status 503))
               sample_client "CMD_API_POP" [] 5 (begin_request empty_db 0 0) in
  posts (snd run) = 5%nat /\ pauses (trace (snd run)) = 15.
Proof. vm_compute. split; reflexivity. Qed.

(** ** What the client makes of a response *)

Lemma dict_get_set_same {V} (d : list (string * V)) k v :
  dict_get (dict_set d k v) k = Some v.
Proof.
  induction d as [|[k' v'] d IH]; simpl.
  - now rewrite String.eqb_refl.
  - destruct (String.eqb k' k) eqn:E; simpl; rewrite E; [reflexivity|exact IH].
Qed.

Lemma dict_get_set_other {V} (d : list (string * V)) k k' v :
  k' <> k -> dict_get (dict_set d k' v) k = dict_get d k.
Proof.
  intro Hne. apply String.eqb_neq in Hne.
  induction d as [|[k0 v0] d IH]; simpl.
  - now rewrite Hne.
  - destruct (String.eqb k0 k') eqn:E; simpl.
    + apply String.eqb_eq in E. subst k0. now rewrite Hne.
    + now rewrite IH.
Qed.

Lemma dict_get_absent {V} (d : list (string * V)) k :
  ~ In k (map fst d) -> dict_get d k = None.
Proof.
  induction d as [|[k' v'] d IH]; intro Hn; [reflexivity|]. simpl.
  destruct (String.eqb k' k) eqn:E.
  - apply String.eqb_eq in E. exfalso. apply Hn. now left.
  - apply IH. intro H. apply Hn. now right.
Qed.

Lemma dict_get_fold_flatten k : forall parsed acc,
  NoDup (map fst parsed) ->
  dict_get
    (fold_left (fun result kv =>
                  dict_set result (fst kv)
                    (DirectAdminClient.flatten_value (snd kv)))
               parsed acc) k
  = match dict_get parsed k with
    | Some v => Some (DirectAdminClient.flatten_value v)
    | None => dict_get acc k
    end.
Proof.
  induction parsed as [|[k' v] parsed IH]; intros acc Hnd; [reflexivity|].
  inversion Hnd as [|? ? Hnotin Hnd']; subst. cbn [fold_left fst snd].
  rewrite IH by assumption. cbn [dict_get].
  destruct (String.eqb k' k) eqn:E.
  - apply String.eqb_eq in E. subst k'.
    rewrite (dict_get_absent parsed k Hnotin). apply dict_get_set_same.
  - apply String.eqb_neq in E.
    destruct (dict_get parsed k); [reflexivity|].
    now apply dict_get_set_other.
Qed.

Lemma dict_get_flatten parsed k :
  NoDup (map fst parsed) ->
  dict_get (DirectAdminClient.flatten parsed) k
  = option_map DirectAdminClient.flatten_value (dict_get parsed k).
Proof.
  intro Hnd. unfold DirectAdminClient.flatten.
  rewrite dict_get_fold_flatten by assumption.
  now destruct (dict_get parsed k).
Qed.

Lemma flatten_value_is_1 v :
  pyval_eqb (DirectAdminClient.flatten_value v) (VStr "1") = true
  <-> v = ["1"].
Proof.
  destruct v as [|x [|y v]]; simpl; split; intro H; try discriminate.
  - apply String.eqb_eq in H. now subst.
  - injection H as ->. reflexivity.
Qed.

Lemma is_error_1_flatten parsed :
  NoDup (map fst parsed) ->
  DirectAdminClient.is_error_1 (DirectAdminClient.flatten parsed) = true
  <-> dict_get parsed "error" = Some ["1"].
Proof.
  intro Hnd. unfold DirectAdminClient.is_error_1.
  rewrite dict_get_flatten by assumption.
  destruct (dict_get parsed "error") as [v|]; simpl.
  - rewrite flatten_value_is_1. split; congruence.
  - split; discriminate.
Qed.

(** X20: [_parse_response] over the pairs that [parse_qs] gives (a dict:
    every name once).  It raises exactly when the values of [error] are the
    one string "1", with the flattened [text] (or "Unknown error") and
    [details]; a repeated [error=1] is not an error.  Otherwise it returns
    a dict with the same names, where a one-value list has become its
    value and any other list is kept. *)
Theorem parse_response_flattens (env : Env) (text : string) :
  NoDup (map fst (parse_qs env text)) ->
  (dict_get (parse_qs env text) "error" = Some ["1"] ->
   DirectAdminClient._parse_response env text
   = Raise (DirectAdminError
              match dict_get (parse_qs env text) "text" with
              | Some v => DirectAdminClient.flatten_value v
              | None => VStr "Unknown error"
              end
              (option_map DirectAdminClient.flatten_value
                 (dict_get (parse_qs env text) "details")))) /\
  (dict_get (parse_qs env text) "error" <> Some ["1"] ->
   exists r,
     DirectAdminClient._parse_response env text = Ok r /\
     forall k,
       dict_get r k
       = option_map DirectAdminClient.flatten_value
           (dict_get (parse_qs env text) k)).
Proof.
  intro Hnd. unfold DirectAdminClient._parse_response.
  pose proof (is_error_1_flatten _ Hnd) as Herr.
  split; intro H.
  - apply Herr in H. rewrite H. unfold dict_get_default.
    rewrite !dict_get_flatten by assumption.
    now destruct (dict_get (parse_qs env text) "text").
  - destruct (DirectAdminClient.is_error_1 _) eqn:E.
    + exfalso. apply H. now apply Herr.
    + eexists. split; [reflexivity|].
      intro k. now apply dict_get_flatten.
Qed.

Lemma parse_response_flattens_witness :
  DirectAdminClient._parse_response (model_env net_ok)
    "error=1&text=quota+exceeded"
  = Raise (DirectAdminError (VStr "quota exceeded") None) /\
  exists r,
    DirectAdminClient._parse_response (model_env net_ok)
      "error=1&error=1&text=quota+exceeded" = Ok r /\
    dict_get r "error" = Some (VList ["1"; "1"]).
Proof.
  split.
  - apply (parse_response_flattens (model_env net_ok)
             "error=1&text=quota+exceeded").
    + vm_compute. repeat constructor; simpl; intuition discriminate.
    + reflexivity.
  - destruct (parse_response_flattens (model_env net_ok)
                "error=1&error=1&text=quota+exceeded") as [_ H].
    + vm_compute. repeat constructor; simpl; intuition discriminate.
    + destruct H as (r & Hr & Hk); [vm_compute; discriminate|].
      exists r. split; [exact Hr|]. rewrite Hk. reflexivity.
Defined.

(** X21: [list_emails] of the client gives back the values that the
    response has under [list[]] or, when that name is absent, under
    [list], or the empty list: the flattening of a single value is undone,
    so one mailbox is a list of one.  The request is the [list] action of
    [CMD_API_POP] for the client's domain. *)
Theorem client_list_emails_values
  (env : Env) (self : DirectAdminClient.t) (w : World) (k : nat)
  (status_code : Z) (text : string) :
  (k < 3)%nat ->
  (forall i, (i < k)%nat -> failed (network env (posts w + i)) = true) ->
  network env (posts w + k) = Response status_code text ->
  DirectAdminClient.is_success status_code = true ->
  NoDup (map fst (parse_qs env text)) ->
  dict_get (parse_qs env text) "error" <> Some ["1"] ->
  DirectAdminClient.list_emails env self w
  = (Ok match dict_get (parse_qs env text) "list[]" with
        | Some l => l
        | None => match dict_get (parse_qs env text) "list" with
                  | Some l => l
                  | None => []
                  end
        end,
     after_requests w (k + 1)
       (backoff (DirectAdminClient.host self ++ "/CMD_API_POP")
          [("action", VStr "list");
           ("domain", DirectAdminClient.opt_val (DirectAdminClient.domain self))]
          0 k
        ++ [EvPost (DirectAdminClient.host self ++ "/CMD_API_POP")
              [("action", VStr "list");
               ("domain",
                DirectAdminClient.opt_val (DirectAdminClient.domain self))]])).
Proof.
  intros Hk Hfail Hnet Hok Hnd Herr.
  unfold DirectAdminClient.list_emails, DirectAdminClient._make_request,
    DirectAdminClient.default_max_retries, bind at 1.
  rewrite (attempts_answered env _ _ 3 k w status_code text Hk Hfail Hnet Hok).
  unfold DirectAdminClient._parse_response.
  assert (E : DirectAdminClient.is_error_1
                (DirectAdminClient.flatten (parse_qs env text)) = false).
  { destruct (DirectAdminClient.is_error_1 _) eqn:E; [|reflexivity].
    exfalso. apply Herr. now apply is_error_1_flatten. }
  rewrite E. unfold ret, dict_get_default.
  rewrite !dict_get_flatten by assumption.
  f_equal. f_equal.
  destruct (dict_get (parse_qs env text) "list[]") as [[|x [|y l]]|];
    try reflexivity.
  destruct (dict_get (parse_qs env text) "list") as [[|x [|y l]]|];
    reflexivity.
Qed.

Lemma client_list_emails_values_witness :
  fst (DirectAdminClient.list_emails
         (model_env (fun _ => Response 200 "list[]=alice")) sample_client
         (begin_request empty_db 0 0))
  = Ok ["alice"].
Proof.
  rewrite (client_list_emails_values
             (model_env (fun _ => Response 200 "list[]=alice")) sample_client
             (begin_request empty_db 0 0) 0 200 "list[]=alice").
  - reflexivity.
  - lia.
  - intros i Hi. lia.
  - reflexivity.
  - reflexivity.
  - vm_compute. repeat constructor; simpl; intuition discriminate.
  - vm_compute. discriminate.
Defined.

(** ** Password strength, once more *)

Lemma re_search_app cls a b :
  re_search cls (a ++ b) = re_search cls a || re_search cls b.
Proof.
  induction a as [|c a IH]; [reflexivity|]. simpl.
  destruct (cls c); [reflexivity|exact IH].
Qed.

Lemma length_app (a b : string) :
  String.length (a ++ b) = (String.length a + String.length b)%nat.
Proof. induction a as [|c a IH]; simpl; [reflexivity|now rewrite IH]. Qed.

Lemma validate_password_ok p :
  validate_password p = Ok tt <->
  (8 <= String.length p)%nat /\ re_search is_upper p = true /\
  re_search is_lower p = true /\ re_search is_digit p = true.
Proof.
  unfold validate_password.
  destruct (String.length p <? 8)%nat eqn:Hlen.
  - apply Nat.ltb_lt in Hlen. split; [discriminate|]. intros [H _]. lia.
  - apply Nat.ltb_ge in Hlen.
    destruct (re_search is_upper p), (re_search is_lower p),
      (re_search is_digit p); simpl; split; intro H;
      try discriminate; try reflexivity; try (now repeat split);
      destruct H as (_ & H1 & H2 & H3); discriminate.
Qed.

(** X22: the password rules only ask for more: a password that
    [validate_password] accepts is still accepted with any text before and
    after it; there is no upper bound on the length and no character is
    forbidden.  A rejected password is answered 400 whatever the rule. *)
Theorem validate_password_accepts_extensions (p before after : string) :
  (validate_password p = Ok tt ->
   validate_password (before ++ p ++ after) = Ok tt) /\
  (validate_password p <> Ok tt ->
   exists detail,
     validate_password p = Raise (HTTPException HTTP_400_BAD_REQUEST detail)).
Proof.
  split.
  - intro H. apply validate_password_ok in H.
    destruct H as (Hlen & Hu & Hl & Hd).
    apply validate_password_ok.
    rewrite !re_search_app, !length_app, Hu, Hl, Hd, !orb_true_r.
    simpl. repeat split. lia.
  - intro H. destruct (validate_password p) as [[]|e] eqn:E;
      [congruence|].
    destruct (validate_password_raises_400 _ _ E) as [detail ->]. eauto.
Qed.

(** ** The geolocation tool *)

Lemma eq_str_get_default data key s :
  IpGeolocate.eq_str (IpGeolocate.get_default data key IpGeolocate.JNull) s
  = true
  <-> dict_get data key = Some (IpGeolocate.JStr s).
Proof.
  unfold IpGeolocate.get_default.
  destruct (dict_get data key) as [[]|]; simpl; split; intro H;
    try discriminate.
  - apply String.eqb_eq in H. now subst.
  - injection H as ->. apply String.eqb_refl.
Qed.

(** X23: [geolocate_ip] sends one GET, to [ip-api.com] for the address, and
    always answers with a dict that has the address under [ip] and a bool
    under [success].  [success] is true exactly when the answer decoded to
    a JSON object whose [status] is the string "success".  The dict has an
    [error] exactly when no JSON object was received; an object, whatever
    its [status], is kept under [raw_data] and gives no [error]. *)
Theorem geolocate_ip_reports
  (web : IpGeolocate.Web) (ip_address : IpGeolocate.json) :
  exists result b,
    IpGeolocate.geolocate_ip web ip_address
    = (IpGeolocate.Returns result,
       [IpGeolocate.Get
          ("http://ip-api.com/json/" ++ IpGeolocate.str web ip_address) 10]) /\
    dict_get result "ip" = Some ip_address /\
    dict_get result "success" = Some (IpGeolocate.JBool b) /\
    (b = true <->
     exists data,
       IpGeolocate.requests_get web
         ("http://ip-api.com/json/" ++ IpGeolocate.str web ip_address) 10
       = IpGeolocate.GetResponse
           (IpGeolocate.Decoded (IpGeolocate.JObj data)) /\
       dict_get data "status" = Some (IpGeolocate.JStr "success")) /\
    (dict_get result "error" = None <->
     exists data,
       IpGeolocate.requests_get web
         ("http://ip-api.com/json/" ++ IpGeolocate.str web ip_address) 10
       = IpGeolocate.GetResponse
           (IpGeolocate.Decoded (IpGeolocate.JObj data)) /\
       dict_get result "raw_data" = Some (IpGeolocate.JObj data)).
Proof.
  unfold IpGeolocate.geolocate_ip, IpGeolocate.get, IpGeolocate.io_bind,
    IpGeolocate.io_ret.
  set (url := "http://ip-api.com/json/" ++ IpGeolocate.str web ip_address).
  destruct (IpGeolocate.requests_get web url 10)
    as [[data|message]|message] eqn:Hget.
  1: destruct data as [| | | | | |data].
  7:{ do 2 eexists. split; [reflexivity|]. split; [reflexivity|].
      split; [reflexivity|]. split; [split|split].
      - intro H. exists data. split; [reflexivity|].
        now apply eq_str_get_default.
      - intros (data' & Hd & Hs). injection Hd as <-.
        now apply eq_str_get_default.
      - intros _. exists data. split; reflexivity.
      - intros _. reflexivity. }
  all: exists (IpGeolocate.failure ip_address
                 match IpGeolocate.requests_get web url 10 with
                 | IpGeolocate.GetResponse (IpGeolocate.Decoded data) =>
                     "'" ++ IpGeolocate.type_name data
                       ++ "' object has no attribute 'get'"
                 | IpGeolocate.GetResponse (IpGeolocate.DecodeError m) => m
                 | IpGeolocate.GetError m => m
                 end), false;
    rewrite Hget; (split; [reflexivity|]); (split; [reflexivity|]);
    (split; [reflexivity|]); (split; split);
    try discriminate;
    intros (data' & Hd & _); discriminate.
Qed.

Lemma io_bind_returns {A B} (c : IpGeolocate.IO A) (k : A -> IpGeolocate.IO B) a evs :
  c = (IpGeolocate.Returns a, evs) ->
  IpGeolocate.io_bind c k = (fst (k a), (evs ++ snd (k a))%list).
Proof. intros ->. simpl. now destruct (k a). Qed.

Lemma io_bind_exit {A B} (c : IpGeolocate.IO A) (k : A -> IpGeolocate.IO B) code evs :
  c = (IpGeolocate.SysExit code, evs) ->
  IpGeolocate.io_bind c k = (IpGeolocate.SysExit code, evs).
Proof. intros ->. reflexivity. Qed.

Lemma get_current_ip_run web :
  exists v,
    IpGeolocate.get_current_ip web
    = (IpGeolocate.Returns v,
       [IpGeolocate.Get "https://api.ipify.org?format=json" 5]).
Proof.
  unfold IpGeolocate.get_current_ip, IpGeolocate.get, IpGeolocate.io_bind,
    IpGeolocate.io_ret. simpl. eauto.
Qed.

Lemma determine_ip_explicit web s :
  s <> "" ->
  IpGeolocate.determine_ip web (Some s) false
  = (IpGeolocate.Returns (IpGeolocate.JStr s), []).
Proof.
  intro Hs. apply String.eqb_neq in Hs.
  unfold IpGeolocate.determine_ip. simpl. now rewrite Hs.
Qed.

Lemma determine_ip_current web ip use_current v :
  use_current || negb (IpGeolocate.json_truthy (IpGeolocate.of_option ip))
  = true ->
  fst (IpGeolocate.get_current_ip web) = IpGeolocate.Returns v ->
  IpGeolocate.determine_ip web ip use_current
  = if IpGeolocate.json_truthy v
    then (IpGeolocate.Returns v,
          [IpGeolocate.Echo "Getting current IP address..." true;
           IpGeolocate.Get "https://api.ipify.org?format=json" 5;
           IpGeolocate.Echo ("Current IP: " ++ IpGeolocate.str web v) true])
    else (IpGeolocate.SysExit 1,
          [IpGeolocate.Echo "Getting current IP address..." true;
           IpGeolocate.Get "https://api.ipify.org?format=json" 5;
           IpGeolocate.Echo "Error: Could not determine current IP address"
             true]).
Proof.
  intros Hc Hv. unfold IpGeolocate.determine_ip. rewrite Hc.
  destruct (get_current_ip_run web) as (v' & Hrun).
  rewrite Hrun in Hv. injection Hv as ->.
  unfold IpGeolocate.io_bind at 1. unfold IpGeolocate.echo at 1.
  unfold IpGeolocate.io_bind at 1. rewrite Hrun.
  destruct (IpGeolocate.json_truthy v); reflexivity.
Qed.

Lemma output_of_lookup web output_json ip_address :
  exists result b,
    IpGeolocate.geolocate_ip web ip_address
    = (IpGeolocate.Returns result,
       [IpGeolocate.Get
          ("http://ip-api.com/json/" ++ IpGeolocate.str web ip_address) 10]) /\
    dict_get result "success" = Some (IpGeolocate.JBool b) /\
    fst (IpGeolocate.output web output_json result)
    = (if output_json || b then IpGeolocate.Returns tt
       else IpGeolocate.SysExit 1) /\
    (output_json = true ->
     snd (IpGeolocate.output web output_json result)
     = [IpGeolocate.Echo
          (IpGeolocate.json_dumps web (IpGeolocate.JObj result) 2) false]).
Proof.
  unfold IpGeolocate.geolocate_ip, IpGeolocate.get, IpGeolocate.io_bind at 1,
    IpGeolocate.io_ret.
  destruct (IpGeolocate.requests_get web _ 10) as [[data|message]|message].
  1: destruct data as [| | | | | |data].
  7: destruct (IpGeolocate.eq_str
                 (IpGeolocate.get_default data "status" IpGeolocate.JNull)
                 "success") eqn:E.
  all: do 2 eexists; (split; [reflexivity|]); (split; [cbn; try rewrite E; reflexivity|]);
    destruct output_json; split; try reflexivity; try discriminate.
Qed.
Lemma cli_run web ip output_json use_current v evs :
  IpGeolocate.determine_ip web ip use_current = (IpGeolocate.Returns v, evs) ->
  forall result,
    IpGeolocate.geolocate_ip web v
    = (IpGeolocate.Returns result,
       [IpGeolocate.Get
          ("http://ip-api.com/json/" ++ IpGeolocate.str web v) 10]) ->
    IpGeolocate.cli web ip output_json use_current
    = (fst (IpGeolocate.output web output_json result),
       (evs
        ++ [IpGeolocate.Echo ("Geolocating IP: " ++ IpGeolocate.str web v)
              true;
            IpGeolocate.Get
              ("http://ip-api.com/json/" ++ IpGeolocate.str web v) 10]
        ++ snd (IpGeolocate.output web output_json result))%list).
Proof.
  intros Hd result Hg. unfold IpGeolocate.cli.
  rewrite (io_bind_returns _ _ _ _ Hd).
  unfold IpGeolocate.io_bind, IpGeolocate.echo. rewrite Hg.
  destruct (IpGeolocate.output web output_json result) as [c evs'].
  reflexivity.
Qed.

Lemma cli_exits web ip output_json use_current evs :
  IpGeolocate.determine_ip web ip use_current = (IpGeolocate.SysExit 1, evs) ->
  IpGeolocate.cli web ip output_json use_current
  = (IpGeolocate.SysExit 1, evs).
Proof. intro Hd. unfold IpGeolocate.cli. now rewrite Hd. Qed.

(** X24: [cli] ends in one of two ways: it returns, or it leaves with
    [sys.exit(1)]; no [KeyError] escapes from the dict it reads.  For an
    address given with [--ip], it returns exactly when [--json] is set or
    the lookup succeeded: with [--json] a failed lookup is printed to
    standard output like any other and the status is not 1. *)
Theorem cli_exit_status
  (web : IpGeolocate.Web) (ip : option string)
  (output_json use_current : bool) :
  (fst (IpGeolocate.cli web ip output_json use_current)
   = IpGeolocate.Returns tt \/
   fst (IpGeolocate.cli web ip output_json use_current)
   = IpGeolocate.SysExit 1) /\
  (forall s, ip = Some s -> s <> "" -> use_current = false ->
   exists result b,
     IpGeolocate.geolocate_ip web (IpGeolocate.JStr s)
     = (IpGeolocate.Returns result,
        [IpGeolocate.Get ("http://ip-api.com/json/" ++ s) 10]) /\
     dict_get result "success" = Some (IpGeolocate.JBool b) /\
     fst (IpGeolocate.cli web ip output_json use_current)
     = (if output_json || b then IpGeolocate.Returns tt
        else IpGeolocate.SysExit 1) /\
     (output_json = true ->
      snd (IpGeolocate.cli web ip output_json use_current)
      = [IpGeolocate.Echo ("Geolocating IP: " ++ s) true;
         IpGeolocate.Get ("http://ip-api.com/json/" ++ s) 10;
         IpGeolocate.Echo
           (IpGeolocate.json_dumps web (IpGeolocate.JObj result) 2) false])).
Proof.
  split.
  - assert (Hd : (exists v evs,
                    IpGeolocate.determine_ip web ip use_current
                    = (IpGeolocate.Returns v, evs)) \/
                 (exists evs,
                    IpGeolocate.determine_ip web ip use_current
                    = (IpGeolocate.SysExit 1, evs))).
    { destruct (use_current
                || negb (IpGeolocate.json_truthy (IpGeolocate.of_option ip)))
        eqn:Hc.
      - destruct (get_current_ip_run web) as (v & Hv).
        rewrite (determine_ip_current web ip use_current v Hc)
          by now rewrite Hv.
        destruct (IpGeolocate.json_truthy v); eauto.
      - left. unfold IpGeolocate.determine_ip. rewrite Hc.
        unfold IpGeolocate.io_ret. eauto. }
    destruct Hd as [(v & evs & Hd)|(evs & Hd)].
    + destruct (output_of_lookup web output_json v)
        as (result & b & Hg & _ & Hout & _).
      rewrite (cli_run _ _ _ _ _ _ Hd result Hg). cbn [fst]. rewrite Hout.
      destruct (output_json || b); auto.
    + rewrite (cli_exits _ _ _ _ _ Hd). auto.
  - intros s -> Hs ->.
    destruct (output_of_lookup web output_json (IpGeolocate.JStr s))
      as (result & b & Hg & Hb & Hout & Hecho).
    exists result, b. split; [exact Hg|]. split; [exact Hb|].
    rewrite (cli_run _ _ _ _ _ _ (determine_ip_explicit web s Hs) result Hg).
    cbn [fst snd]. split; [exact Hout|].
    intro Hj. rewrite (Hecho Hj). reflexivity.
Qed.

Lemma requests_of_app evs evs' :
  IpGeolocate.requests_of (evs ++ evs')
  = (IpGeolocate.requests_of evs ++ IpGeolocate.requests_of evs')%list.
Proof. unfold IpGeolocate.requests_of. apply flat_map_app. Qed.

Lemma output_sends_nothing web output_json result :
  IpGeolocate.requests_of (snd (IpGeolocate.output web output_json result))
  = [].
Proof.
  unfold IpGeolocate.output.
  destruct output_json; [reflexivity|].
  unfold IpGeolocate.getitem, IpGeolocate.io_ret.
  destruct (dict_get result "success") as [success|]; [|reflexivity].
  cbn [IpGeolocate.io_bind].
  destruct (IpGeolocate.json_truthy success); [|reflexivity].
  destruct (dict_get result "city"); [|reflexivity].
  cbn [IpGeolocate.io_bind].
  destruct (dict_get result "region"); [|reflexivity].
  cbn [IpGeolocate.io_bind].
  destruct (dict_get result "country"); [|reflexivity].
  cbn [IpGeolocate.io_bind IpGeolocate.echo].
  destruct (dict_get result "isp"); [|reflexivity].
  cbn [IpGeolocate.io_bind IpGeolocate.echo].
  destruct (dict_get result "timezone"); [|reflexivity].
  cbn [IpGeolocate.io_bind IpGeolocate.echo].
  destruct (dict_get result "latitude"); [|reflexivity].
  cbn [IpGeolocate.io_bind IpGeolocate.echo].
  destruct (dict_get result "longitude"); reflexivity.
Qed.

(** X25: which address [cli] looks up.  [--current] makes it ignore [--ip],
    and an empty [--ip] is as good as none.  For a given address it sends
    one request, the lookup of that address.  With [--current] the first
    request asks for the current address, and the lookup follows only when
    the answer is truthy: otherwise that request is the only one. *)
Theorem cli_address_selection
  (web : IpGeolocate.Web) (ip : option string) (output_json : bool) :
  IpGeolocate.cli web ip output_json true
  = IpGeolocate.cli web None output_json true /\
  IpGeolocate.cli web (Some "") output_json false
  = IpGeolocate.cli web None output_json false /\
  (forall s, s <> "" ->
   IpGeolocate.requests_of
     (snd (IpGeolocate.cli web (Some s) output_json false))
   = [("http://ip-api.com/json/" ++ s, 10)]) /\
  (forall v,
     fst (IpGeolocate.get_current_ip web) = IpGeolocate.Returns v ->
     IpGeolocate.requests_of
       (snd (IpGeolocate.cli web ip output_json true))
     = ("https://api.ipify.org?format=json", 5)
         :: (if IpGeolocate.json_truthy v
             then [("http://ip-api.com/json/" ++ IpGeolocate.str web v, 10)]
             else [])).
Proof.
  split; [|split; [|split]].
  - reflexivity.
  - reflexivity.
  - intros s Hs.
    destruct (output_of_lookup web output_json (IpGeolocate.JStr s))
      as (result & b & Hg & _).
    rewrite (cli_run _ _ _ _ _ _ (determine_ip_explicit web s Hs) result Hg).
    cbn [snd]. rewrite !requests_of_app, output_sends_nothing. reflexivity.
  - intros v Hv.
    pose proof (determine_ip_current web ip true v eq_refl Hv) as Hd.
    destruct (IpGeolocate.json_truthy v).
    + destruct (output_of_lookup web output_json v)
        as (result & b & Hg & _).
      rewrite (cli_run _ _ _ _ _ _ Hd result Hg).
      cbn [snd]. rewrite !requests_of_app, output_sends_nothing. reflexivity.
    + rewrite (cli_exits _ _ _ _ _ Hd). reflexivity.
Qed.

(** X26: what [cli] shows for a failed lookup of a given address, without
    [--json].  When the service answers with an object whose [status] is not
    "success", the text is "Unknown error", whatever the object says, and
    the status is 1.  When the request or the decoding raises, the text of
    the exception is shown. *)
Theorem cli_failed_lookup_message
  (web : IpGeolocate.Web) (s : string) :
  s <> "" ->
  (forall data,
     IpGeolocate.requests_get web ("http://ip-api.com/json/" ++ s) 10
     = IpGeolocate.GetResponse (IpGeolocate.Decoded (IpGeolocate.JObj data)) ->
     dict_get data "status" <> Some (IpGeolocate.JStr "success") ->
     IpGeolocate.cli web (Some s) false false
     = (IpGeolocate.SysExit 1,
        [IpGeolocate.Echo ("Geolocating IP: " ++ s) true;
         IpGeolocate.Get ("http://ip-api.com/json/" ++ s) 10;
         IpGeolocate.Echo (IpGeolocate.cross ++ " Error: Unknown error")
           true])) /\
  (forall message,
     IpGeolocate.requests_get web ("http://ip-api.com/json/" ++ s) 10
     = IpGeolocate.GetError message \/
     IpGeolocate.requests_get web ("http://ip-api.com/json/" ++ s) 10
     = IpGeolocate.GetResponse (IpGeolocate.DecodeError message) ->
     IpGeolocate.cli web (Some s) false false
     = (IpGeolocate.SysExit 1,
        [IpGeolocate.Echo ("Geolocating IP: " ++ s) true;
         IpGeolocate.Get ("http://ip-api.com/json/" ++ s) 10;
         IpGeolocate.Echo (IpGeolocate.cross ++ " Error: " ++ message)
           true])).
Proof.
  intro Hs. split.
  - intros data Hget Hstatus.
    assert (E : IpGeolocate.eq_str
                  (IpGeolocate.get_default data "status" IpGeolocate.JNull)
                  "success" = false).
    { destruct (IpGeolocate.eq_str _ _) eqn:E; [|reflexivity].
      apply eq_str_get_default in E. contradiction. }
    erewrite cli_run;
      [|apply determine_ip_explicit; exact Hs
       |unfold IpGeolocate.geolocate_ip, IpGeolocate.get,
          IpGeolocate.io_bind, IpGeolocate.io_ret;
        cbn [IpGeolocate.str]; rewrite Hget, E; reflexivity].
    reflexivity.
  - intros message Hget.
    erewrite cli_run;
      [|apply determine_ip_explicit; exact Hs
       |unfold IpGeolocate.geolocate_ip, IpGeolocate.get,
          IpGeolocate.io_bind, IpGeolocate.io_ret;
        cbn [IpGeolocate.str]; destruct Hget as [-> | ->]; reflexivity].
    reflexivity.
Qed.

Lemma cli_failed_lookup_message_witness :
  IpGeolocate.cli (IpGeolocate.sample_web IpGeolocate.private_range)
    (Some "10.0.0.1") false false
  = (IpGeolocate.SysExit 1,
     [IpGeolocate.Echo "Geolocating IP: 10.0.0.1" true;
      IpGeolocate.Get "http://ip-api.com/json/10.0.0.1" 10;
      IpGeolocate.Echo (IpGeolocate.cross ++ " Error: Unknown error") true]).
Proof.
  destruct (cli_failed_lookup_message
              (IpGeolocate.sample_web IpGeolocate.private_range) "10.0.0.1")
    as [H _]; [discriminate|].
  apply (H [("status", IpGeolocate.JStr "fail");
            ("message", IpGeolocate.JStr "private range");
            ("query", IpGeolocate.JStr "10.0.0.1")]).
  - reflexivity.
  - vm_compute. discriminate.
Defined.

(** ** The default administrator *)



(** ** Roles *)

(** X28: [require_role] passes exactly for a user whose role is among the
    allowed ones, and refuses every other user with 403; with [admin] as
    the one allowed role it lets through the same users as
    [require_admin]; with no allowed role it refuses everybody. *)
Theorem require_role_passes_listed_roles
  (user : User.t) (allowed_roles : list UserRole) :
  (require_role user allowed_roles = Ok tt <->
   In (User.role user) allowed_roles) /\
  (~ In (User.role user) allowed_roles ->
   require_role user allowed_roles
   = Raise (HTTPException HTTP_403_FORBIDDEN
              ("Required role: "
                 ++ String.concat ", " (map UserRole_value allowed_roles)))) /\
  (require_role user [ADMIN] = Ok tt <-> require_admin user = Ok tt) /\
  require_role user []
  = Raise (HTTPException HTTP_403_FORBIDDEN "Required role: ").
Proof.
  assert (Hin : existsb (UserRole_eqb (User.role user)) allowed_roles = true
                <-> In (User.role user) allowed_roles).
  { rewrite existsb_exists. split.
    - intros (r & Hr & E). apply UserRole_eqb_eq in E. now subst.
    - intro H. exists (User.role user). split; [exact H|].
      now apply UserRole_eqb_eq. }
  unfold require_role, require_admin, role_names.
  split; [|split; [|split]].
  - destruct (existsb _ allowed_roles) eqn:E; simpl; split; intro H.
    + now apply Hin.
    + reflexivity.
    + discriminate.
    + apply Hin in H. discriminate.
  - intro Hn. destruct (existsb _ allowed_roles) eqn:E; simpl;
      [|reflexivity].
    exfalso. apply Hn. now apply Hin.
  - simpl. destruct (UserRole_eqb (User.role user) ADMIN); simpl;
      split; intro H; try reflexivity; discriminate.
  - reflexivity.
Qed.
